(** * GNSS constellation manager (gnss_satellites.cpp)

    A shallow embedding of [GnssSatellites] -- the class that keeps, for every
    GNSS satellite of an SP3 product, a sliding window of nine orbit and clock
    samples and answers position / clock queries by interpolation -- together
    with the properties of its refill logic.

    Conventions.
    - [double] is IEEE-754 binary64 ([PrimFloat.float]); comparisons are the
      IEEE ones, so a NaN fails every test exactly as in C++.
    - [size_t] and [uint64_t] are [N]; [++] wraps at 2^64.
    - [operator[]] past the end of a [std::vector] is undefined behaviour; it
      is the outcome [OutOfRange], which stops the member function.
    - [std::string::substr] at a position past the end of the string throws
      [std::out_of_range]; set-up does not catch it: [Thrown_out_of_range].
    - Member functions that mutate the object run in the monad [M]: state,
      a trace of observable events (console lines, buffer pushes), and
      [OutOfRange].  The [const] getters are plain functions of the object. *)

From Stdlib Require Import Floats ZArith NArith List Bool String Lia.
Import ListNotations.

Set Implicit Arguments.
Set Warnings "-inexact-float".

Local Open Scope N_scope.

(** ** Scalars and vectors *)

Definition double := float.
Bind Scope float_scope with double.

(** [(double)x] for an unsigned 64-bit [x]: round to nearest, ties to even. *)
Definition double_of_uint64 (x : N) : double :=
  SF2Prim (binary_normalize 53 1024 (Z.of_N x) 0 false).

Definition size_max : N := 2 ^ 64.

(** [x++] on a [size_t]. *)
Definition size_succ (x : N) : N := (x + 1) mod size_max.

(** [libra::Vector<3>]. *)
Record Vector3 := mkVector3 { vx : double; vy : double; vz : double }.

(** [libra::Vector<3>(n)]: every component is [n]
    (vector_template_functions.hpp, [Vector(const T& n)]). *)
Definition Vector3_fill (n : double) : Vector3 := mkVector3 n n n.

(** [lhs * rhs] (vector_template_functions.hpp, [operator*(const T&, const Vector&)]). *)
Definition Vector3_scale (lhs : double) (rhs : Vector3) : Vector3 :=
  mkVector3 (lhs * vx rhs)%float (lhs * vy rhs)%float (lhs * vz rhs)%float.

(** ** Time collaborator *)

(** Modelled from the spec: [EpochTime] (epoch_time.hpp) is not part of the
    sources at hand.  It carries an integer number of seconds and a fraction of
    a second; [EpochTime()] defaults both to zero, which the getters read as
    "time not given". *)
Record EpochTime := mkEpochTime { time_s_ : N; fraction_s_ : double }.

Definition GetTime_s (t : EpochTime) : N := time_s_ t.

Definition GetTimeWithFraction_s (t : EpochTime) : double :=
  (double_of_uint64 (time_s_ t) + fraction_s_ t)%float.

(** Modelled from the spec: [DateTime] (date_time_format.hpp) is not part of
    the sources at hand; its fields are the arguments of the constructor call
    in [Update] (lines 78-79). *)
Record DateTime := mkDateTime {
  year : N; month : N; day : N; hour : N; minute : N; second : double }.

(** ** Ephemeris file source *)

(** Modelled from the spec: [Sp3FileReader] (sp3_file_reader.hpp) is not part
    of the sources at hand; a file source is the collaborator interface the
    manager calls, each member a total function of the parsed file. *)
Record Sp3FileReader := mkSp3FileReader {
  GetNumberOfSatellites : N;
  GetNumberOfEpoch : N;
  GetEpochData : N -> DateTime;
  GetSatellitePosition_km : N -> N -> Vector3;
  GetSatelliteClockOffset : N -> N -> double;
  GetStartEpochDateTime : DateTime;
  SearchNearestEpochId : EpochTime -> N }.

(** ** Per-satellite interpolation buffers *)

(** Modelled from the spec: [libra::Interpolation] and [InterpolationOrbit]
    are not part of the sources at hand.  A buffer is a fixed-capacity FIFO of
    (time offset, value) samples: a push appends one sample and evicts the
    oldest when the buffer is at capacity. *)
Record Buffer (V : Type) := mkBuffer {
  capacity : nat;
  samples : list (double * V) }.

Definition InterpolationOrbit := Buffer Vector3.
Definition Interpolation := Buffer double.

Definition PushAndPopData {V} (time_offset : double) (value : V) (b : Buffer V)
  : Buffer V :=
  if (List.length (samples b) <? capacity b)%nat
  then mkBuffer (capacity b) (samples b ++ [(time_offset, value)])
  else mkBuffer (capacity b) (tl (samples b) ++ [(time_offset, value)]).

Definition GetTimeList {V} (b : Buffer V) : list double := map fst (samples b).

(** [InterpolationOrbit(n)]: room for [n] samples, none pushed yet. *)
Definition InterpolationOrbit_new (n : nat) : InterpolationOrbit := mkBuffer n [].

(** [libra::Interpolation(x, y)]: the window is the given pairs. *)
Definition Interpolation_new (x y : list double) : Interpolation :=
  mkBuffer (List.length x) (combine x y).

(** ** Remaining collaborators

    Calendar arithmetic, the interpolation formulas, SP3 parsing and product
    file naming are outside the manager; it only calls them. *)
Class Collaborators := {
  (** [EpochTime(const DateTime)] *)
  EpochTime_of_DateTime : DateTime -> EpochTime;
  (** [InterpolationOrbit::CalcPositionWithTrigonometric(x, omega)] *)
  CalcPositionWithTrigonometric : InterpolationOrbit -> double -> double -> Vector3;
  (** [libra::Interpolation::CalcPolynomial(x)] *)
  CalcPolynomial : Interpolation -> double -> double;
  (** [GetOrbitClockFinalFileName(header, yyyyddd, period)] *)
  GetOrbitClockFinalFileName : string -> N -> string -> string;
  (** [GetOrbitClockFinalFileName(header, yyyyddd, period, file_type)] *)
  GetOrbitClockFinalFileName_of_type : string -> N -> string -> string -> string;
  (** [Sp3FileReader(path)] *)
  ReadSp3File : string -> Sp3FileReader;
  (** [IncrementYearDoy(yyyyddd)] *)
  IncrementYearDoy : N -> N }.

(** ** The manager object *)

Definition kNumberOfInterpolation : N := 9.

Record GnssSatellites := mkGnssSatellites {
  is_calc_enabled_ : bool;
  is_log_enabled_ : bool;
  sp3_files_ : list Sp3FileReader;
  number_of_calculated_gnss_satellites_ : N;
  sp3_file_id_ : N;
  reference_time_ : EpochTime;
  reference_interpolation_id_ : N;
  current_epoch_time_ : EpochTime;
  orbit_ : list InterpolationOrbit;
  clock_ : list Interpolation }.

(** [IsCalcEnabled()] of the base class: the flag given to the constructor. *)
Definition IsCalcEnabled (s : GnssSatellites) : bool := is_calc_enabled_ s.

Definition set_sp3_files (v : list Sp3FileReader) (s : GnssSatellites) :=
  mkGnssSatellites (is_calc_enabled_ s) (is_log_enabled_ s) v
    (number_of_calculated_gnss_satellites_ s) (sp3_file_id_ s) (reference_time_ s)
    (reference_interpolation_id_ s) (current_epoch_time_ s) (orbit_ s) (clock_ s).

Definition set_number_of_calculated_gnss_satellites (v : N) (s : GnssSatellites) :=
  mkGnssSatellites (is_calc_enabled_ s) (is_log_enabled_ s) (sp3_files_ s)
    v (sp3_file_id_ s) (reference_time_ s)
    (reference_interpolation_id_ s) (current_epoch_time_ s) (orbit_ s) (clock_ s).

Definition set_sp3_file_id (v : N) (s : GnssSatellites) :=
  mkGnssSatellites (is_calc_enabled_ s) (is_log_enabled_ s) (sp3_files_ s)
    (number_of_calculated_gnss_satellites_ s) v (reference_time_ s)
    (reference_interpolation_id_ s) (current_epoch_time_ s) (orbit_ s) (clock_ s).

Definition set_reference_time (v : EpochTime) (s : GnssSatellites) :=
  mkGnssSatellites (is_calc_enabled_ s) (is_log_enabled_ s) (sp3_files_ s)
    (number_of_calculated_gnss_satellites_ s) (sp3_file_id_ s) v
    (reference_interpolation_id_ s) (current_epoch_time_ s) (orbit_ s) (clock_ s).

Definition set_reference_interpolation_id (v : N) (s : GnssSatellites) :=
  mkGnssSatellites (is_calc_enabled_ s) (is_log_enabled_ s) (sp3_files_ s)
    (number_of_calculated_gnss_satellites_ s) (sp3_file_id_ s) (reference_time_ s)
    v (current_epoch_time_ s) (orbit_ s) (clock_ s).

Definition set_current_epoch_time (v : EpochTime) (s : GnssSatellites) :=
  mkGnssSatellites (is_calc_enabled_ s) (is_log_enabled_ s) (sp3_files_ s)
    (number_of_calculated_gnss_satellites_ s) (sp3_file_id_ s) (reference_time_ s)
    (reference_interpolation_id_ s) v (orbit_ s) (clock_ s).

Definition set_orbit (v : list InterpolationOrbit) (s : GnssSatellites) :=
  mkGnssSatellites (is_calc_enabled_ s) (is_log_enabled_ s) (sp3_files_ s)
    (number_of_calculated_gnss_satellites_ s) (sp3_file_id_ s) (reference_time_ s)
    (reference_interpolation_id_ s) (current_epoch_time_ s) v (clock_ s).

Definition set_clock (v : list Interpolation) (s : GnssSatellites) :=
  mkGnssSatellites (is_calc_enabled_ s) (is_log_enabled_ s) (sp3_files_ s)
    (number_of_calculated_gnss_satellites_ s) (sp3_file_id_ s) (reference_time_ s)
    (reference_interpolation_id_ s) (current_epoch_time_ s) (orbit_ s) v.

(** ** Outcomes, events and the monad of the mutating members *)

(** How a member function ends: it returns, or it indexes a vector past its
    end. *)
Inductive outcome (A : Type) : Type :=
| Ok (a : A)
| OutOfRange.
Arguments OutOfRange {A}.

(** What a run of a member function does that can be seen from outside the
    object: a line written to [std::cout], and a call of [PushAndPopData] on
    [orbit_[gnss_idx]] or on [clock_[gnss_idx]] with its two arguments. *)
Inductive event : Type :=
| Cout (line : string)
| PushOrbit (gnss_idx : N) (time_diff_s : double) (position_m : Vector3)
| PushClock (gnss_idx : N) (time_diff_s : double) (clock_offset : double).

Definition M (A : Type) : Type :=
  GnssSatellites -> list event * outcome (A * GnssSatellites).

Definition ret {A} (a : A) : M A := fun s => ([], Ok (a, s)).

Definition bind {A B} (m : M A) (k : A -> M B) : M B := fun s =>
  match m s with
  | (t1, Ok (a, s1)) => let (t2, r) := k a s1 in (t1 ++ t2, r)
  | (t1, OutOfRange) => (t1, OutOfRange)
  end.

Notation "x <- m ;; k" := (bind m (fun x => k))
  (at level 61, m at next level, right associativity).
Notation "m ;; k" := (bind m (fun _ => k))
  (at level 61, right associativity).

Definition get : M GnssSatellites := fun s => ([], Ok (s, s)).
Definition modify (f : GnssSatellites -> GnssSatellites) : M unit :=
  fun s => ([], Ok (tt, f s)).
Definition emit (e : event) : M unit := fun s => ([e], Ok (tt, s)).
Definition undefined {A} : M A := fun _ => ([], OutOfRange).

(** [v[i]] on a [std::vector]. *)
Definition at_index {A} (v : list A) (i : N) : M A :=
  match nth_error v (N.to_nat i) with
  | Some a => ret a
  | None => undefined
  end.

(** [v[i] = x] for [i] within the vector. *)
Fixpoint list_update {A} (v : list A) (i : nat) (x : A) : list A :=
  match v, i with
  | [], _ => []
  | _ :: rest, O => x :: rest
  | a :: rest, S j => a :: list_update rest j x
  end.

(** [for (size_t i = first; ...; i++) body(i)], [count] iterations. *)
Fixpoint for_loop (count : nat) (first : N) (body : N -> M unit) : M unit :=
  match count with
  | O => ret tt
  | S c => body first ;; for_loop c (N.succ first) body
  end.

(** ** Member functions *)

Section Manager.

Context {collaborators : Collaborators}.

(** [orbit_[gnss_idx].PushAndPopData(t, p)] *)
Definition orbit_push (gnss_idx : N) (t : double) (p : Vector3) : M unit :=
  s <- get ;;
  o <- at_index (orbit_ s) gnss_idx ;;
  emit (PushOrbit gnss_idx t p) ;;
  modify (set_orbit (list_update (orbit_ s) (N.to_nat gnss_idx) (PushAndPopData t p o))).

(** [clock_[gnss_idx].PushAndPopData(t, c)] *)
Definition clock_push (gnss_idx : N) (t : double) (c : double) : M unit :=
  s <- get ;;
  k <- at_index (clock_ s) gnss_idx ;;
  emit (PushClock gnss_idx t c) ;;
  modify (set_clock (list_update (clock_ s) (N.to_nat gnss_idx) (PushAndPopData t c k))).

(** The body of the satellite loop, the same text in [Initialize] (lines 51-56)
    and in [Update] (lines 91-96): read the sample of satellite [gnss_idx] at
    epoch [reference_interpolation_id_] of [sp3_file] and push it into the
    orbit and the clock buffer of that satellite. *)
Definition push_epoch_sample (sp3_file : Sp3FileReader) (gnss_idx : N) : M unit :=
  s <- get ;;
  let sp3_time := EpochTime_of_DateTime (GetEpochData sp3_file (reference_interpolation_id_ s)) in
  let time_diff_s :=
    (GetTimeWithFraction_s sp3_time - GetTimeWithFraction_s (reference_time_ s))%float in
  let sp3_position_m :=
    Vector3_scale 1000 (GetSatellitePosition_km sp3_file (reference_interpolation_id_ s) gnss_idx) in
  orbit_push gnss_idx time_diff_s sp3_position_m ;;
  clock_push gnss_idx time_diff_s
    (GetSatelliteClockOffset sp3_file (reference_interpolation_id_ s) gnss_idx).

(** The epoch advance with its "File update" block, the same text in
    [Initialize] (lines 58-67) and in [Update] (lines 98-107).  The result is
    the new value of the local file variable. *)
Definition advance_epoch (sp3_file : Sp3FileReader) : M Sp3FileReader :=
  s <- get ;;
  modify (set_reference_interpolation_id (size_succ (reference_interpolation_id_ s))) ;;
  s <- get ;;
  if GetNumberOfEpoch sp3_file <=? reference_interpolation_id_ s then
    modify (set_reference_interpolation_id 0) ;;
    modify (set_sp3_file_id (size_succ (sp3_file_id_ s))) ;;
    s <- get ;;
    (if N.of_nat (List.length (sp3_files_ s)) <=? sp3_file_id_ s
     then emit (Cout "[Error] GNSS satellites: SP3 file range over."%string)
     else ret tt) ;;
    at_index (sp3_files_ s) (sp3_file_id_ s)
  else ret sp3_file.

(** The scan of [GetCurrentSp3File] over [sp3_files_[i], sp3_files_[i+1], ...]:
    the position and the file it stops at with [true], or [None] for [false]. *)
Fixpoint scan_sp3_files (files : list Sp3FileReader) (i : N) (current_time : EpochTime)
  : option (N * Sp3FileReader) :=
  match files with
  | [] => None
  | f :: rest =>
      let sp3_start_time := EpochTime_of_DateTime (GetStartEpochDateTime f) in
      let diff_s :=
        (GetTimeWithFraction_s current_time - GetTimeWithFraction_s sp3_start_time)%float in
      if (diff_s <? 0)%float then None
      else if (diff_s <? 86400)%float then Some (i, f)
      else scan_sp3_files rest (N.succ i) current_time
  end.

(** [GetCurrentSp3File(current_sp3_file, current_time)]: [Some f] stands for
    [true] with [current_sp3_file = f]; [None] for [false], the reference
    argument left as it was. *)
Definition GetCurrentSp3File (current_time : EpochTime) : M (option Sp3FileReader) :=
  s <- get ;;
  match scan_sp3_files (sp3_files_ s) 0 current_time with
  | Some (i, f) => modify (set_sp3_file_id i) ;; ret (Some f)
  | None => ret None
  end.

(** The seeding loop of [Initialize] (lines 49-68), [count] rounds to go. *)
Fixpoint seed (count : nat) (initial_sp3_file : Sp3FileReader) : M unit :=
  match count with
  | O => ret tt
  | S c =>
      s <- get ;;
      for_loop (N.to_nat (number_of_calculated_gnss_satellites_ s)) 0
        (push_epoch_sample initial_sp3_file) ;;
      next_file <- advance_epoch initial_sp3_file ;;
      seed c next_file
  end.

Definition Initialize (sp3_files : list Sp3FileReader) (start_time : EpochTime) : M unit :=
  modify (set_sp3_files sp3_files) ;;
  modify (set_current_epoch_time start_time) ;;
  s <- get ;;
  _ <- at_index (sp3_files_ s) 0 ;;
  selected <- GetCurrentSp3File start_time ;;
  match selected with
  | None => emit (Cout "[Error] GNSS satellites: Calculation time mismatch with SP3 files."%string)
  | Some initial_sp3_file =>
      modify (set_number_of_calculated_gnss_satellites (GetNumberOfSatellites initial_sp3_file)) ;;
      let nearest_epoch_id := SearchNearestEpochId initial_sp3_file start_time in
      let half_interpolation_number := kNumberOfInterpolation / 2 in
      (if half_interpolation_number <=? nearest_epoch_id
       then modify (set_reference_interpolation_id (nearest_epoch_id - half_interpolation_number))
       else ret tt) ;;
      s <- get ;;
      modify (set_reference_time
                (EpochTime_of_DateTime (GetEpochData initial_sp3_file (reference_interpolation_id_ s)))) ;;
      s <- get ;;
      let satellites := N.to_nat (number_of_calculated_gnss_satellites_ s) in
      let capacity := N.to_nat kNumberOfInterpolation in
      modify (set_orbit (repeat (InterpolationOrbit_new capacity) satellites)) ;;
      let temp := repeat (-1)%float capacity in
      modify (set_clock (repeat (Interpolation_new temp temp) satellites)) ;;
      seed capacity initial_sp3_file
  end.

(** [Update(simulation_time)]; the argument is the [DateTime] built from
    [simulation_time.GetCurrentUtc()] (lines 77-79). *)
Definition Update (current_date_time : DateTime) : M unit :=
  s <- get ;;
  if negb (IsCalcEnabled s) then ret tt else
  modify (set_current_epoch_time (EpochTime_of_DateTime current_date_time)) ;;
  s <- get ;;
  sp3_file <- at_index (sp3_files_ s) (sp3_file_id_ s) ;;
  let diff_s :=
    (GetTimeWithFraction_s (current_epoch_time_ s)
     - GetTimeWithFraction_s (reference_time_ s))%float in
  orbit_0 <- at_index (orbit_ s) 0 ;;
  medium_time_s <- at_index (GetTimeList orbit_0) 4 ;;
  if (medium_time_s <? diff_s)%float then
    for_loop 32 0 (push_epoch_sample sp3_file) ;;
    _ <- advance_epoch sp3_file ;;
    ret tt
  else ret tt.

(** [libra::tau] (constants.hpp). *)
Definition tau : double := 6.283185307179586%float.

Definition kOrbitalPeriodCorrection_s : double := (86400 * 1.003)%float.

(** The resolution of the optional [time] argument (lines 116-122 and 134-140). *)
Definition target_time_of (s : GnssSatellites) (time : EpochTime) : EpochTime :=
  if GetTime_s time =? 0 then current_epoch_time_ s else time.

Definition GetPosition_ecef_m (s : GnssSatellites) (gnss_satellite_id : N) (time : EpochTime)
  : outcome Vector3 :=
  if number_of_calculated_gnss_satellites_ s <? gnss_satellite_id then Ok (Vector3_fill 0) else
  let target_time := target_time_of s time in
  let diff_s :=
    (GetTimeWithFraction_s target_time - GetTimeWithFraction_s (reference_time_ s))%float in
  if ((diff_s <? 0) || (1e6 <? diff_s))%float then Ok (Vector3_fill 0) else
  match nth_error (orbit_ s) (N.to_nat gnss_satellite_id) with
  | Some o => Ok (CalcPositionWithTrigonometric o diff_s (tau / kOrbitalPeriodCorrection_s)%float)
  | None => OutOfRange
  end.

Definition GetClock_s (s : GnssSatellites) (gnss_satellite_id : N) (time : EpochTime)
  : outcome double :=
  if number_of_calculated_gnss_satellites_ s <? gnss_satellite_id then Ok 0%float else
  let target_time := target_time_of s time in
  let diff_s :=
    (GetTimeWithFraction_s target_time - GetTimeWithFraction_s (reference_time_ s))%float in
  if ((diff_s <? 0) || (1e6 <? diff_s))%float then Ok 0%float else
  match nth_error (clock_ s) (N.to_nat gnss_satellite_id) with
  | Some k => Ok (CalcPolynomial k diff_s * 1e-6)%float
  | None => OutOfRange
  end.

End Manager.

(** ** Set-up from the configuration file *)

(** The values [InitGnssSatellites] reads from section [GNSS_SATELLITES]. *)
Record IniAccess := mkIniAccess {
  calculation : bool;
  logging : bool;
  directory_path : string;
  file_name_header : string;
  orbit_data_period : string;
  clock_file_name_footer : string;
  start_date : Z;
  end_date : Z }.

(** [(size_t)n] for the [int] that [ReadInt] returns. *)
Definition size_t_of_int (n : Z) : N := Z.to_N (n mod Z.of_N size_max).

(** Modelled from the spec: the constructor lives in gnss_satellites.hpp, which
    is not part of the sources at hand.  A fresh manager has the two flags it
    is given, no file source, no tracked satellite and no buffer. *)
Definition GnssSatellites_new (is_calc_enable is_log_enable : bool) : GnssSatellites :=
  mkGnssSatellites is_calc_enable is_log_enable [] 0 0 (mkEpochTime 0 0) 0 (mkEpochTime 0 0) [] [].

(** A statement that may throw: [std::out_of_range], which nothing in
    [InitGnssSatellites] catches, or no exception and a result. *)
Inductive throwing (A : Type) : Type :=
| Not_thrown (a : A)
| Thrown_out_of_range.
Arguments Thrown_out_of_range {A}.

(** [s.substr(pos, len)]: the characters from [pos] on, at most [len] of
    them; [std::out_of_range] when [pos] is past the end of [s]. *)
Definition substr (s : string) (pos len : nat) : throwing string :=
  if (String.length s <? pos)%nat then Thrown_out_of_range
  else Not_thrown (String.substring pos len s).

Section Setup.

Context {collaborators : Collaborators}.

(** The [while (read_file_date <= end_date)] loop (lines 219-236).  How many
    rounds it takes depends on [IncrementYearDoy]; [None] means that [fuel]
    rounds were not enough.  The clock file name of lines 227-230 is built and
    not used, but building it calls [substr] on the footer. *)
Fixpoint read_product_files (fuel : nat) (ini_file : IniAccess) (use_sp3_for_clock : bool)
    (read_file_date end_date : N) (sp3_file_readers : list Sp3FileReader)
  : option (throwing (list Sp3FileReader)) :=
  if read_file_date <=? end_date then
    match fuel with
    | O => None
    | S rest =>
        let sp3_file_name :=
          GetOrbitClockFinalFileName (file_name_header ini_file) read_file_date
                                     (orbit_data_period ini_file) in
        let sp3_full_file_path := (directory_path ini_file ++ sp3_file_name)%string in
        let sp3_file_readers := sp3_file_readers ++ [ReadSp3File sp3_full_file_path] in
        let next_round :=
          read_product_files rest ini_file use_sp3_for_clock
                             (IncrementYearDoy read_file_date) end_date sp3_file_readers in
        if use_sp3_for_clock then next_round
        else
          match substr (clock_file_name_footer ini_file) 0 3 with
          | Thrown_out_of_range => Some Thrown_out_of_range
          | Not_thrown period =>
              match substr (clock_file_name_footer ini_file) 4 7 with
              | Thrown_out_of_range => Some Thrown_out_of_range
              | Not_thrown file_type =>
                  let clk_file_name :=
                    GetOrbitClockFinalFileName_of_type (file_name_header ini_file)
                                                       read_file_date period file_type in
                  let clk_full_file_path := (directory_path ini_file ++ clk_file_name)%string in
                  next_round
              end
          end
    end
  else Some (Not_thrown sp3_file_readers).

(** [InitGnssSatellites(file_name, earth_rotation, simulation_time)]: the
    console lines it prints and how it ends -- with the manager it returns,
    with [Initialize] indexing a vector past its end, or with the exception of
    the read loop.  [start_date_time] is the [DateTime] built from the start
    fields of [simulation_time] (lines 239-240). *)
Definition InitGnssSatellites (fuel : nat) (ini_file : IniAccess) (start_date_time : DateTime)
  : option (list event * throwing (outcome GnssSatellites)) :=
  let gnss_satellites := GnssSatellites_new (calculation ini_file) (logging ini_file) in
  if negb (IsCalcEnabled gnss_satellites) then Some ([], Not_thrown (Ok gnss_satellites)) else
  let use_sp3_for_clock :=
    String.eqb (clock_file_name_footer ini_file) (orbit_data_period ini_file ++ "_ORB.SP3") in
  let start_date := size_t_of_int (start_date ini_file) in
  let end_date := size_t_of_int (end_date ini_file) in
  let printed :=
    if end_date <? start_date
    then [Cout "[ERROR] GNSS satellite initialize: start_date is larger than the end date."%string]
    else [] in
  match read_product_files fuel ini_file use_sp3_for_clock start_date end_date [] with
  | None => None
  | Some Thrown_out_of_range => Some (printed, Thrown_out_of_range)
  | Some (Not_thrown sp3_file_readers) =>
      let start_epoch_time := EpochTime_of_DateTime start_date_time in
      match Initialize sp3_file_readers start_epoch_time gnss_satellites with
      | (t, Ok (_, initialized)) => Some (printed ++ t, Not_thrown (Ok initialized))
      | (t, OutOfRange) => Some (printed ++ t, Not_thrown OutOfRange)
      end
  end.

End Setup.

(** ** What the claims speak about *)

Definition is_push (e : event) : bool :=
  match e with
  | Cout _ => false
  | PushOrbit _ _ _ | PushClock _ _ _ => true
  end.

Definition is_orbit_push_to (gnss_idx : N) (e : event) : bool :=
  match e with
  | PushOrbit i _ _ => i =? gnss_idx
  | _ => false
  end.

Definition is_clock_push_to (gnss_idx : N) (e : event) : bool :=
  match e with
  | PushClock i _ _ => i =? gnss_idx
  | _ => false
  end.

(** Number of samples a run pushed into the orbit (clock) buffer of a satellite. *)
Definition orbit_pushes (gnss_idx : N) (t : list event) : nat :=
  List.length (filter (is_orbit_push_to gnss_idx) t).

Definition clock_pushes (gnss_idx : N) (t : list event) : nat :=
  List.length (filter (is_clock_push_to gnss_idx) t).

(** The console lines of the manager. *)
Definition range_over_line : event :=
  Cout "[Error] GNSS satellites: SP3 file range over."%string.

Definition time_mismatch_line : event :=
  Cout "[Error] GNSS satellites: Calculation time mismatch with SP3 files."%string.

Section Coverage.

Context {collaborators : Collaborators}.

(** Seconds from the first epoch of [f] to [t], as [GetCurrentSp3File]
    computes them. *)
Definition since_start (f : Sp3FileReader) (t : EpochTime) : double :=
  (GetTimeWithFraction_s t
   - GetTimeWithFraction_s (EpochTime_of_DateTime (GetStartEpochDateTime f)))%float.

(** The time range of a file source contains [t]: at most a day after its
    first epoch, and not before it. *)
Definition covers (f : Sp3FileReader) (t : EpochTime) : bool :=
  (negb (since_start f t <? 0) && (since_start f t <? 86400))%float.


(** The first file source, in list order, whose time range contains [t]. *)
Fixpoint first_covering (files : list Sp3FileReader) (i : N) (t : EpochTime)
  : option (N * Sp3FileReader) :=
  match files with
  | [] => None
  | f :: rest => if covers f t then Some (i, f) else first_covering rest (N.succ i) t
  end.

(** The offset of a query time from the reference time, as the getters compute it. *)
Definition offset_from_reference (s : GnssSatellites) (t : EpochTime) : double :=
  (GetTimeWithFraction_s t - GetTimeWithFraction_s (reference_time_ s))%float.

Definition out_of_window (diff_s : double) : bool :=
  ((diff_s <? 0) || (1e6 <? diff_s))%float.

(** The time offset stored at the middle index of the window of satellite 0. *)
Definition medium_time (s : GnssSatellites) : option double :=
  match nth_error (orbit_ s) 0 with
  | Some o => nth_error (GetTimeList o) 4
  | None => None
  end.

End Coverage.

(** The part of the object that a push leaves alone. *)
Definition control (s : GnssSatellites) :=
  (is_calc_enabled_ s, is_log_enabled_ s, sp3_files_ s,
   number_of_calculated_gnss_satellites_ s, sp3_file_id_ s, reference_time_ s,
   reference_interpolation_id_ s, current_epoch_time_ s).

(** The member function returned. *)
Definition returned {A} (o : outcome A) : bool :=
  match o with
  | Ok _ => true
  | OutOfRange => false
  end.

(** The time offsets in the window of a satellite. *)
Definition orbit_times (s : GnssSatellites) (gnss_idx : nat) : option (list double) :=
  option_map (@GetTimeList Vector3) (nth_error (orbit_ s) gnss_idx).

(** The run printed the "SP3 file range over" line. *)
Definition printed_range_over (t : list event) : bool :=
  existsb (fun e => match e with
                    | Cout line => String.eqb line "[Error] GNSS satellites: SP3 file range over."
                    | _ => false
                    end) t.

Section Vocabulary.

Context {collaborators : Collaborators}.

(** The sample [push_epoch_sample] reads for a satellite. *)
Definition sample_offset (f : Sp3FileReader) (s : GnssSatellites) : double :=
  (GetTimeWithFraction_s (EpochTime_of_DateTime (GetEpochData f (reference_interpolation_id_ s)))
   - GetTimeWithFraction_s (reference_time_ s))%float.

Definition sample_position_m (f : Sp3FileReader) (s : GnssSatellites) (i : N) : Vector3 :=
  Vector3_scale 1000 (GetSatellitePosition_km f (reference_interpolation_id_ s) i).

Definition sample_clock (f : Sp3FileReader) (s : GnssSatellites) (i : N) : double :=
  GetSatelliteClockOffset f (reference_interpolation_id_ s) i.

Definition pushed (f : Sp3FileReader) (s : GnssSatellites) (i : N)
    (o : InterpolationOrbit) (k : Interpolation) : GnssSatellites :=
  set_clock (list_update (clock_ s) (N.to_nat i)
               (PushAndPopData (sample_offset f s) (sample_clock f s i) k))
    (set_orbit (list_update (orbit_ s) (N.to_nat i)
                  (PushAndPopData (sample_offset f s) (sample_position_m f s i) o)) s).

(** An event is the push of the sample of [f] (epoch and reference as in [s])
    for a satellite in [lo, hi). *)
Definition sample_event (f : Sp3FileReader) (s : GnssSatellites) (lo hi : N) (e : event) : Prop :=
  exists i, lo <= i < hi /\
    (e = PushOrbit i (sample_offset f s) (sample_position_m f s i) \/
     e = PushClock i (sample_offset f s) (sample_clock f s i)).

(** The refill of [Update] (lines 90-107) with the active file [f]. *)
Definition refill (f : Sp3FileReader) : M unit :=
  for_loop 32 0 (push_epoch_sample f) ;;
  _ <- advance_epoch f ;;
  ret tt.

(** The offset of the new current time from the reference time. *)
Definition update_offset (current_date_time : DateTime) (s : GnssSatellites) : double :=
  (GetTimeWithFraction_s (EpochTime_of_DateTime current_date_time)
   - GetTimeWithFraction_s (reference_time_ s))%float.

(** The active file source, when [sp3_file_id_] is within the list. *)
Definition active_file (s : GnssSatellites) : option Sp3FileReader :=
  nth_error (sp3_files_ s) (N.to_nat (sp3_file_id_ s)).

(** The object as [Initialize] has it when the seeding loop starts: file [f]
    at position [i] selected, counts, epoch index, reference time and empty
    windows set (lines 32-46). *)
Definition ready_to_seed (f : Sp3FileReader) (i : N) (start_time : EpochTime)
    (s : GnssSatellites) : GnssSatellites :=
  let s2 := set_number_of_calculated_gnss_satellites (GetNumberOfSatellites f)
              (set_sp3_file_id i s) in
  let nearest_epoch_id := SearchNearestEpochId f start_time in
  let half_interpolation_number := kNumberOfInterpolation / 2 in
  let s3 := if half_interpolation_number <=? nearest_epoch_id
            then set_reference_interpolation_id (nearest_epoch_id - half_interpolation_number) s2
            else s2 in
  let s4 := set_reference_time
              (EpochTime_of_DateTime (GetEpochData f (reference_interpolation_id_ s3))) s3 in
  let satellites := N.to_nat (number_of_calculated_gnss_satellites_ s4) in
  let capacity := N.to_nat kNumberOfInterpolation in
  let temp := repeat (-1)%float capacity in
  set_clock (repeat (Interpolation_new temp temp) satellites)
    (set_orbit (repeat (InterpolationOrbit_new capacity) satellites) s4).

(** The sample of epoch [epoch_id] of the file source [f]: its time as an
    offset from [reference], and the position and the clock offset of
    satellite [i], as the satellite loop computes them (lines 52-54, 91-93). *)
Definition epoch_offset (f : Sp3FileReader) (epoch_id : N) (reference : EpochTime) : double :=
  (GetTimeWithFraction_s (EpochTime_of_DateTime (GetEpochData f epoch_id))
   - GetTimeWithFraction_s reference)%float.

Definition epoch_position_m (f : Sp3FileReader) (epoch_id i : N) : Vector3 :=
  Vector3_scale 1000 (GetSatellitePosition_km f epoch_id i).

Definition epoch_clock (f : Sp3FileReader) (epoch_id i : N) : double :=
  GetSatelliteClockOffset f epoch_id i.

(** An event is a push of the sample of epoch [epoch_id] of [f] for some
    satellite, its time measured from [reference]. *)
Definition sample_of_epoch (f : Sp3FileReader) (epoch_id : N) (reference : EpochTime)
    (e : event) : Prop :=
  exists i,
    e = PushOrbit i (epoch_offset f epoch_id reference) (epoch_position_m f epoch_id i)
    \/ e = PushClock i (epoch_offset f epoch_id reference) (epoch_clock f epoch_id i).

(** The pushes of that sample for [count] satellites from [first] on: orbit
    then clock, satellite by satellite. *)
Fixpoint epoch_pushes (f : Sp3FileReader) (epoch_id : N) (reference : EpochTime)
    (count : nat) (first : N) : list event :=
  match count with
  | O => []
  | S c =>
      PushOrbit first (epoch_offset f epoch_id reference) (epoch_position_m f epoch_id first)
      :: PushClock first (epoch_offset f epoch_id reference) (epoch_clock f epoch_id first)
      :: epoch_pushes f epoch_id reference c (N.succ first)
  end.

(** The epochs that [rounds] rounds consume, in order, from epoch [epoch_id]
    of the file [f] at position [file_id] of [files] on: epoch after epoch of
    a file, then epoch 0 of the file after it; the list ends where the file
    list does. *)
Fixpoint consumed_epochs (files : list Sp3FileReader) (f : Sp3FileReader)
    (file_id epoch_id : N) (rounds : nat) : list (Sp3FileReader * N) :=
  match rounds with
  | O => []
  | S r =>
      (f, epoch_id)
      :: if GetNumberOfEpoch f <=? size_succ epoch_id then
           match nth_error files (N.to_nat (size_succ file_id)) with
           | Some g => consumed_epochs files g (size_succ file_id) 0 r
           | None => []
           end
         else consumed_epochs files f file_id (size_succ epoch_id) r
  end.


End Vocabulary.

(** The samples of [rounds] consecutive epochs from [epoch_id] on, and a
    buffer after they have been pushed into it in that order. *)
Fixpoint epoch_samples {V} (offset : N -> double) (value : N -> V) (epoch_id : N) (rounds : nat)
  : list (double * V) :=
  match rounds with
  | O => []
  | S r => (offset epoch_id, value epoch_id) :: epoch_samples offset value (size_succ epoch_id) r
  end.

Fixpoint push_epochs {V} (offset : N -> double) (value : N -> V) (epoch_id : N) (rounds : nat)
    (b : Buffer V) : Buffer V :=
  match rounds with
  | O => b
  | S r =>
      push_epochs offset value (size_succ epoch_id) r
                  (PushAndPopData (offset epoch_id) (value epoch_id) b)
  end.

(** ** A concrete constellation

    Synthetic file sources with one epoch every 900 s, used to run the
    definitions: a calendar that counts days, hours and minutes, and
    interpolators that return the newest sample not after the query (so, like
    the interpolation formulas they stand for, they reproduce a stored sample
    at its own time offset). *)
Module Scenario.

Definition epoch_time_of_date_time (d : DateTime) : EpochTime :=
  mkEpochTime (((day d * 24 + hour d) * 60 + minute d) * 60) (second d).

Fixpoint newest_not_after {V} (l : list (double * V)) (x : double) (default : V) : V :=
  match l with
  | [] => default
  | (t, v) :: rest => if (x <? t)%float then default else newest_not_after rest x v
  end.

#[export] Instance collaborators : Collaborators := {
  EpochTime_of_DateTime := epoch_time_of_date_time;
  CalcPositionWithTrigonometric := fun o x _ => newest_not_after (samples o) x (Vector3_fill 0);
  CalcPolynomial := fun k x => newest_not_after (samples k) x 0%float;
  GetOrbitClockFinalFileName := fun header _ period => (header ++ period)%string;
  GetOrbitClockFinalFileName_of_type :=
    fun header _ period file_type => (header ++ period ++ file_type)%string;
  ReadSp3File := fun _ =>
    mkSp3FileReader 0 0 (fun _ => mkDateTime 0 0 0 0 0 0) (fun _ _ => Vector3_fill 0)
                    (fun _ _ => 0%float) (mkDateTime 0 0 0 0 0 0) (fun _ => 0);
  IncrementYearDoy := N.succ }.

(** A small natural number as a [double] (exact below 2^53). *)
Fixpoint positive_double (p : positive) : double :=
  match p with
  | xH => 1
  | xO q => 2 * positive_double q
  | xI q => 2 * positive_double q + 1
  end%float.

Definition small_double (n : N) : double :=
  match n with
  | N0 => 0%float
  | Npos p => positive_double p
  end.

(** Epoch [i] of a file that starts at midnight of [start_day]. *)
Definition epoch_at (start_day i : N) : DateTime :=
  mkDateTime 2023 1 start_day 0 (i * 15) 0.

(** A file source of [epochs] epochs and [satellites] satellites. *)
Definition regular_file (start_day epochs satellites : N) : Sp3FileReader :=
  mkSp3FileReader satellites epochs (epoch_at start_day)
    (fun i sat => mkVector3 (small_double (i + 20000)) (small_double sat) 1)
    (fun i sat => small_double (sat * 100 + i + 1))
    (epoch_at start_day 0)
    (fun t => N.min (epochs - 1) ((GetTime_s t + 450) / 900 - 96 * start_day)).

Definition start_of (start_day : N) : EpochTime := epoch_time_of_date_time (epoch_at start_day 0).

(** The state a run leaves behind, when it ends normally. *)
Definition state_after (run : list event * outcome (unit * GnssSatellites))
    (otherwise : GnssSatellites) : GnssSatellites :=
  match snd run with
  | Ok (_, s) => s
  | OutOfRange => otherwise
  end.

Definition fresh : GnssSatellites := GnssSatellites_new true true.

(** One file source, 9 epochs, 2 satellites, simulation start at epoch 0. *)
Definition one_short_file : list Sp3FileReader := [regular_file 1 9 2].

(** One file source, 10 epochs, 33 satellites. *)
Definition one_file : list Sp3FileReader := [regular_file 1 10 33].

(** Two file sources on consecutive days, 10 epochs and 33 satellites each. *)
Definition two_files : list Sp3FileReader := [regular_file 1 10 33; regular_file 2 10 33].


Definition seeded_one_file : GnssSatellites :=
  Eval vm_compute in state_after (Initialize one_file (start_of 1) fresh) fresh.

Definition seeded_two_files : GnssSatellites :=
  Eval vm_compute in state_after (Initialize two_files (start_of 1) fresh) fresh.

(** One second past the middle sample of the seeded window, and one second
    before it. *)
Definition past_middle : DateTime := mkDateTime 2023 1 1 1 0 1.
Definition before_middle : DateTime := mkDateTime 2023 1 1 0 59 59.

End Scenario.

(** ** The satellite loop as a list of pushes *)

Section LoopTraces.

Context {collaborators : Collaborators}.

(** The pushes of the satellite loop over [count] satellites from [first] on,
    when every indexed buffer exists: orbit then clock, satellite by
    satellite, all with the sample of the epoch index and reference time of
    [s]. *)
Fixpoint sample_pushes (f : Sp3FileReader) (s : GnssSatellites) (count : nat) (first : N)
  : list event :=
  match count with
  | O => []
  | S c =>
      PushOrbit first (sample_offset f s) (sample_position_m f s first)
      :: PushClock first (sample_offset f s) (sample_clock f s first)
      :: sample_pushes f s c (N.succ first)
  end.

(** The pushes of [rounds] seeding rounds that all stay inside the file [f]. *)
Fixpoint seed_pushes (f : Sp3FileReader) (s : GnssSatellites) (rounds : nat) : list event :=
  match rounds with
  | O => []
  | S r =>
      sample_pushes f s (N.to_nat (number_of_calculated_gnss_satellites_ s)) 0
      ++ seed_pushes f (set_reference_interpolation_id
                          (size_succ (reference_interpolation_id_ s)) s) r
  end.

Definition is_cout (e : event) : bool :=
  match e with
  | Cout _ => true
  | _ => false
  end.

End LoopTraces.

(** ** Log output of the manager *)

(** The log utilities (log_utility.hpp) and the number of logged GPS
    satellites (gnss_satellites.hpp) are outside the sources at hand; the log
    members only call them. *)
Class LogUtility := {
  (** [kNumberOfGpsSatellite] *)
  kNumberOfGpsSatellite : N;
  (** [std::to_string(size_t)] *)
  to_string : N -> string;
  (** [WriteVector(name, frame, unit, n)], the header form *)
  WriteVectorHeader : string -> string -> string -> N -> string;
  (** [WriteScalar(name, unit)], the header form *)
  WriteScalarHeader : string -> string -> string;
  (** [WriteVector(vector, precision)] *)
  WriteVector : Vector3 -> N -> string;
  (** [WriteScalar(value)] *)
  WriteScalar : double -> string }.

Section Logging.

Context {collaborators : Collaborators} {log_utility : LogUtility}.

(** The loop of [GetLogHeader] (lines 168-171), [count] satellites to go. *)
Fixpoint log_header_from (count : nat) (gps_index : N) (str_tmp : string) : string :=
  match count with
  | O => str_tmp
  | S c =>
      let with_position :=
        (str_tmp ++ WriteVectorHeader ("GPS" ++ to_string gps_index ++ "_position") "ecef" "m" 3)%string in
      let with_clock :=
        (with_position
         ++ WriteScalarHeader ("GPS" ++ to_string gps_index ++ "_clock_offset") "s")%string in
      log_header_from c (N.succ gps_index) with_clock
  end.

Definition GetLogHeader : string :=
  log_header_from (N.to_nat kNumberOfGpsSatellite) 0 ""%string.

(** The value of the omitted [time] argument of the getters: [EpochTime()]. *)
Definition time_not_given : EpochTime := mkEpochTime 0 0.

(** The loop of [GetLogValue] (lines 179-182), [count] satellites to go. *)
Fixpoint log_value_from (s : GnssSatellites) (count : nat) (gps_index : N) (str_tmp : string)
  : outcome string :=
  match count with
  | O => Ok str_tmp
  | S c =>
      match GetPosition_ecef_m s gps_index time_not_given with
      | OutOfRange => OutOfRange
      | Ok position =>
          let with_position := (str_tmp ++ WriteVector position 16)%string in
          match GetClock_s s gps_index time_not_given with
          | OutOfRange => OutOfRange
          | Ok clock => log_value_from s c (N.succ gps_index)
                          (with_position ++ WriteScalar clock)%string
          end
      end
  end.

Definition GetLogValue (s : GnssSatellites) : outcome string :=
  log_value_from s (N.to_nat kNumberOfGpsSatellite) 0 ""%string.

(** The log record of one satellite that is answered with the sentinels. *)
Definition sentinel_record : string :=
  (WriteVector (Vector3_fill 0) 16 ++ WriteScalar 0)%string.

Fixpoint repeat_string (record : string) (count : nat) : string :=
  match count with
  | O => ""%string
  | S c => (record ++ repeat_string record c)%string
  end.

End Logging.

(** ** Product files *)

Section ProductFiles.

Context {collaborators : Collaborators}.

(** The file [InitGnssSatellites] reads for a date (lines 220-224). *)
Definition product_file (ini_file : IniAccess) (date : N) : Sp3FileReader :=
  ReadSp3File (directory_path ini_file
               ++ GetOrbitClockFinalFileName (file_name_header ini_file) date
                                             (orbit_data_period ini_file))%string.

End ProductFiles.

(** * I2C port and on-board computer *)

(** ** [std::map] *)

(** A [std::map<K, V>] as the list of its entries; the members used are
    [operator[]] (which adds a value-initialized entry for a key that is not
    there), assignment through [operator[]], and [erase]. *)
Section StdMap.

Variables (K V : Type) (key_eqb : K -> K -> bool).

Definition std_map := list (K * V).

Fixpoint map_find (m : std_map) (k : K) : option V :=
  match m with
  | [] => None
  | (k', v) :: rest => if key_eqb k' k then Some v else map_find rest k
  end.

(** [m[k] = v] *)
Fixpoint map_assign (m : std_map) (k : K) (v : V) : std_map :=
  match m with
  | [] => [(k, v)]
  | (k', v') :: rest =>
      if key_eqb k' k then (k', v) :: rest else (k', v') :: map_assign rest k v
  end.

(** [m[k]] as an rvalue: the value, and the map with the entry it may have
    added. *)
Definition map_index (initial : V) (m : std_map) (k : K) : V * std_map :=
  match map_find m k with
  | Some v => (v, m)
  | None => (initial, map_assign m k initial)
  end.

(** [m.erase(k)] *)
Fixpoint map_erase (m : std_map) (k : K) : std_map :=
  match m with
  | [] => []
  | (k', v') :: rest =>
      if key_eqb k' k then map_erase rest k else (k', v') :: map_erase rest k
  end.

End StdMap.

(** ** I2CPort (I2CPort.cpp) *)

Module I2CPort.

(** [unsigned char]: a number below 256; [++] wraps. *)
Definition uchar_succ (x : N) : N := (x + 1) mod 256.

Definition register_key := (N * N)%type.

Definition register_key_eqb (a b : register_key) : bool :=
  (fst a =? fst b) && (snd a =? snd b).

(** The members of the class (I2CPort.h is not part of the sources at hand;
    the types are those the member functions use them at). *)
Record I2CPort := mkI2CPort {
  max_register_number_ : N;
  saved_reg_addr_ : N;
  device_registers_ : std_map register_key N }.

(** The content of a register: what [device_registers_[key]] reads. *)
Definition register (p : I2CPort) (i2c_addr reg_addr : N) : N :=
  match map_find register_key_eqb (device_registers_ p) (i2c_addr, reg_addr) with
  | Some v => v
  | None => 0
  end.

(** The loop of [RegisterDevice], [count] registers from [i] on. *)
Fixpoint register_from (count : nat) (i : N) (i2c_addr : N) (m : std_map register_key N)
  : std_map register_key N :=
  match count with
  | O => m
  | S c => register_from c (N.succ i) i2c_addr (map_assign register_key_eqb m (i2c_addr, i) 0)
  end.

Definition RegisterDevice (i2c_addr : N) (p : I2CPort) : I2CPort :=
  mkI2CPort (max_register_number_ p) (saved_reg_addr_ p)
            (register_from (N.to_nat (max_register_number_ p)) 0 i2c_addr (device_registers_ p)).

(** [WriteRegister(i2c_addr, reg_addr)] *)
Definition WriteRegister_address (i2c_addr reg_addr : N) (p : I2CPort) : Z * I2CPort :=
  if max_register_number_ p <=? reg_addr then (0%Z, p)
  else (1%Z, mkI2CPort (max_register_number_ p) reg_addr (device_registers_ p)).

(** [WriteRegister(i2c_addr, reg_addr, value)] *)
Definition WriteRegister (i2c_addr reg_addr value : N) (p : I2CPort) : Z * I2CPort :=
  if max_register_number_ p <=? reg_addr then (0%Z, p)
  else (1%Z, mkI2CPort (max_register_number_ p) reg_addr
                       (map_assign register_key_eqb (device_registers_ p)
                                   (i2c_addr, reg_addr) value)).

(** [ReadRegister(i2c_addr)] *)
Definition ReadRegister_next (i2c_addr : N) (p : I2CPort) : N * I2CPort :=
  let (ret, registers) :=
    map_index register_key_eqb 0 (device_registers_ p) (i2c_addr, saved_reg_addr_ p) in
  let saved := uchar_succ (saved_reg_addr_ p) in
  let saved := if max_register_number_ p <=? saved then 0 else saved in
  (ret, mkI2CPort (max_register_number_ p) saved registers).

(** [ReadRegister(i2c_addr, reg_addr)] *)
Definition ReadRegister (i2c_addr reg_addr : N) (p : I2CPort) : N * I2CPort :=
  if max_register_number_ p <=? reg_addr then (0, p)
  else
    let (ret, registers) :=
      map_index register_key_eqb 0 (device_registers_ p) (i2c_addr, reg_addr) in
    (ret, mkI2CPort (max_register_number_ p) reg_addr registers).

(** [count] calls of [ReadRegister(i2c_addr)] in a row: the bytes read, in
    order, and the port afterwards. *)
Fixpoint read_burst (count : nat) (i2c_addr : N) (p : I2CPort) : list N * I2CPort :=
  match count with
  | O => ([], p)
  | S c =>
      let (byte, p1) := ReadRegister_next i2c_addr p in
      let (bytes, p2) := read_burst c i2c_addr p1 in
      (byte :: bytes, p2)
  end.

(** The saved register address points at a register of the port, and the
    register count is an [unsigned char]. *)
Definition saved_address_valid (p : I2CPort) : Prop :=
  saved_reg_addr_ p < max_register_number_ p /\ max_register_number_ p <= 255.

End I2CPort.

(** ** OBC port tables (on_board_computer.cpp) *)

(** The port classes (uart_port.hpp, gpio_port.hpp) are outside the sources at
    hand; the computer only creates ports and calls them.  A transfer returns
    its [int], the bytes left in the caller's buffer, and the port after it. *)
Class PortClasses := {
  UartPort : Type;
  (** [new UartPort(tx_buffer_size, rx_buffer_size)] *)
  new_UartPort : Z -> Z -> UartPort;
  (** [port->WriteTx(buffer, offset, length)] and its three siblings *)
  WriteTx : UartPort -> list N -> Z -> Z -> Z * list N * UartPort;
  ReadTx : UartPort -> list N -> Z -> Z -> Z * list N * UartPort;
  WriteRx : UartPort -> list N -> Z -> Z -> Z * list N * UartPort;
  ReadRx : UartPort -> list N -> Z -> Z -> Z * list N * UartPort;
  GpioPort : Type;
  (** [new GpioPort(port_id)] *)
  new_GpioPort : Z -> GpioPort;
  (** [port->DigitalWrite(is_high)] *)
  DigitalWrite : GpioPort -> bool -> Z * GpioPort;
  (** [port->DigitalRead()] *)
  DigitalRead : GpioPort -> bool * GpioPort }.

Module OBC.

(** The port a table holds at an id, if any: an entry that is not null. *)
Definition port_at {P : Type} (ports : std_map Z (option P)) (port_id : Z) : option P :=
  match map_find Z.eqb ports port_id with
  | Some (Some port) => Some port
  | _ => None
  end.

Section Computer.

Context {port_classes : PortClasses}.

(** The two port tables, [std::map<int, UartPort*>] and
    [std::map<int, GpioPort*>] (on_board_computer.hpp is not part of the
    sources at hand; the types are those the member functions use them at).
    A null pointer is [None]; a port object is owned by its table entry. *)
Record OBC := mkOBC {
  uart_ports_ : std_map Z (option UartPort);
  gpio_ports_ : std_map Z (option GpioPort) }.

(** The port connected at an id, if any. *)
Definition uart_port (obc : OBC) (port_id : Z) : option UartPort :=
  port_at (uart_ports_ obc) port_id.

Definition gpio_port (obc : OBC) (port_id : Z) : option GpioPort :=
  port_at (gpio_ports_ obc) port_id.

Definition ConnectComPort (port_id tx_buffer_size rx_buffer_size : Z) (obc : OBC)
  : Z * OBC :=
  let (port, ports) := map_index Z.eqb None (uart_ports_ obc) port_id in
  match port with
  | Some _ => ((-1)%Z, mkOBC ports (gpio_ports_ obc))
  | None =>
      (0%Z, mkOBC (map_assign Z.eqb ports port_id
                              (Some (new_UartPort tx_buffer_size rx_buffer_size)))
                  (gpio_ports_ obc))
  end.

Definition CloseComPort (port_id : Z) (obc : OBC) : Z * OBC :=
  let (port, ports) := map_index Z.eqb None (uart_ports_ obc) port_id in
  match port with
  | None => ((-1)%Z, mkOBC ports (gpio_ports_ obc))
  | Some _ => (0%Z, mkOBC (map_erase Z.eqb ports port_id) (gpio_ports_ obc))
  end.

(** The common shape of [SendFromObc], [ReceivedByCompo], [SendFromCompo] and
    [ReceivedByObc] (lines 45-67): look the port up, answer -1 for a null
    pointer, else hand over to one member of the port. *)
Definition transfer (member : UartPort -> list N -> Z -> Z -> Z * list N * UartPort)
    (port_id : Z) (buffer : list N) (offset length : Z) (obc : OBC)
  : Z * list N * OBC :=
  let (port, ports) := map_index Z.eqb None (uart_ports_ obc) port_id in
  match port with
  | None => ((-1)%Z, buffer, mkOBC ports (gpio_ports_ obc))
  | Some p =>
      let '(result, buffer', p') := member p buffer offset length in
      (result, buffer', mkOBC (map_assign Z.eqb ports port_id (Some p')) (gpio_ports_ obc))
  end.

Definition SendFromObc := transfer WriteTx.
Definition ReceivedByCompo := transfer ReadTx.
Definition SendFromCompo := transfer WriteRx.
Definition ReceivedByObc := transfer ReadRx.

Definition GpioConnectPort (port_id : Z) (obc : OBC) : Z * OBC :=
  let (port, ports) := map_index Z.eqb None (gpio_ports_ obc) port_id in
  match port with
  | Some _ => ((-1)%Z, mkOBC (uart_ports_ obc) ports)
  | None =>
      (0%Z, mkOBC (uart_ports_ obc) (map_assign Z.eqb ports port_id (Some (new_GpioPort port_id))))
  end.

Definition GpioComponentWrite (port_id : Z) (is_high : bool) (obc : OBC) : Z * OBC :=
  let (port, ports) := map_index Z.eqb None (gpio_ports_ obc) port_id in
  match port with
  | None => ((-1)%Z, mkOBC (uart_ports_ obc) ports)
  | Some p =>
      let (result, p') := DigitalWrite p is_high in
      (result, mkOBC (uart_ports_ obc) (map_assign Z.eqb ports port_id (Some p')))
  end.

Definition GpioComponentRead (port_id : Z) (obc : OBC) : bool * OBC :=
  let (port, ports) := map_index Z.eqb None (gpio_ports_ obc) port_id in
  match port with
  | None => (false, mkOBC (uart_ports_ obc) ports)
  | Some p =>
      let (level, p') := DigitalRead p in
      (level, mkOBC (uart_ports_ obc) (map_assign Z.eqb ports port_id (Some p')))
  end.

End Computer.

End OBC.

(** ** More concrete inputs *)

Module Bench.

Import Scenario.

(** One file source of 20 epochs: 33 satellites, and 2 satellites. *)
Definition long_file : list Sp3FileReader := [regular_file 1 20 33].
Definition small_file : list Sp3FileReader := [regular_file 1 20 2].

Definition seeded_long : GnssSatellites :=
  Eval vm_compute in state_after (Initialize long_file (start_of 1) fresh) fresh.

Definition seeded_small : GnssSatellites :=
  Eval vm_compute in state_after (Initialize small_file (start_of 1) fresh) fresh.

(** A log utility that writes one letter per item. *)
#[export] Instance log_utility : LogUtility := {
  kNumberOfGpsSatellite := 32;
  to_string := fun _ => "n"%string;
  WriteVectorHeader := fun name _ _ _ => (name ++ ",")%string;
  WriteScalarHeader := fun name _ => (name ++ ",")%string;
  WriteVector := fun v _ => if (vx v =? 0)%float then "o,"%string else "v,"%string;
  WriteScalar := fun c => if (c =? 0)%float then "z,"%string else "c,"%string }.

(** Ports that accept every transfer in full and keep only their sizes. *)
#[export] Instance port_classes : PortClasses := {
  UartPort := (Z * Z)%type;
  new_UartPort := fun tx rx => (tx, rx);
  WriteTx := fun p buffer _ length => (length, buffer, p);
  ReadTx := fun p buffer _ length => (length, buffer, p);
  WriteRx := fun p buffer _ length => (length, buffer, p);
  ReadRx := fun p buffer _ length => (length, buffer, p);
  GpioPort := (Z * bool)%type;
  new_GpioPort := fun port_id => (port_id, false);
  DigitalWrite := fun p is_high => (0%Z, (fst p, is_high));
  DigitalRead := fun p => (snd p, p) }.

(** An I2C port of 16 registers per device with nothing registered, and an
    on-board computer with no port. *)
Definition empty_i2c_port : I2CPort.I2CPort := I2CPort.mkI2CPort 16 0 [].
Definition empty_obc : OBC.OBC := OBC.mkOBC [] [].

(** A configuration for the dates 2023-001 to 2023-003. *)
Definition three_days : IniAccess :=
  mkIniAccess true true "data/" "IGS0OPSFIN_" "15M" "15M_ORB.SP3" 2023001 2023003.

(** The same with a clock file footer of three characters. *)
Definition three_days_short_footer : IniAccess :=
  mkIniAccess true true "data/" "IGS0OPSFIN_" "15M" "CLK" 2023001 2023003.

End Bench.

(** * Properties *)

(** ** Vectors updated by index *)

Lemma list_update_other {A} (v : list A) (i j : nat) (x : A) :
  i <> j -> nth_error (list_update v i x) j = nth_error v j.
Proof.
  revert i j; induction v as [|b v IH]; intros [|i] [|j] H; simpl; auto; congruence.
Qed.

Lemma list_update_length {A} (v : list A) (i : nat) (x : A) :
  List.length (list_update v i x) = List.length v.
Proof.
  revert i; induction v as [|b v IH]; intros [|i]; simpl; auto.
Qed.

Lemma list_update_same {A} (v : list A) (i : nat) (x : A) :
  (i < List.length v)%nat -> nth_error (list_update v i x) i = Some x.
Proof.
  revert i; induction v as [|b v IH]; intros [|i] H; simpl in *; try lia; [reflexivity|].
  apply IH. lia.
Qed.

(** ** Runs of the monad *)

Lemma bind_run {A B} (m : M A) (k : A -> M B) (s : GnssSatellites) :
  bind m k s =
  match m s with
  | (t1, Ok (a, s1)) => (t1 ++ fst (k a s1), snd (k a s1))
  | (t1, OutOfRange) => (t1, OutOfRange)
  end.
Proof.
  unfold bind. destruct (m s) as [t1 [[a s1]|]]; [destruct (k a s1)|]; reflexivity.
Qed.

Lemma bind_get {B} (k : GnssSatellites -> M B) (s : GnssSatellites) :
  bind get k s = k s s.
Proof. unfold bind, get. destruct (k s s); reflexivity. Qed.

Lemma bind_modify {B} (f : GnssSatellites -> GnssSatellites) (k : unit -> M B)
    (s : GnssSatellites) :
  bind (modify f) k s = k tt (f s).
Proof. unfold bind, modify. destruct (k tt (f s)); reflexivity. Qed.

Lemma bind_ret {A B} (a : A) (k : A -> M B) (s : GnssSatellites) :
  bind (ret a) k s = k a s.
Proof. unfold bind, ret. destruct (k a s); reflexivity. Qed.

Lemma bind_at_index {A B} (v : list A) (i : N) (k : A -> M B) (s : GnssSatellites) :
  bind (at_index v i) k s =
  match nth_error v (N.to_nat i) with
  | Some a => k a s
  | None => ([], OutOfRange)
  end.
Proof.
  unfold at_index. destruct (nth_error v (N.to_nat i)); [apply bind_ret|reflexivity].
Qed.

Lemma bind_assoc {A B C} (m : M A) (k : A -> M B) (h : B -> M C) (s : GnssSatellites) :
  bind (bind m k) h s = bind m (fun a => bind (k a) h) s.
Proof.
  unfold bind. destruct (m s) as [t1 [[a s1]|]]; [|reflexivity].
  destruct (k a s1) as [t2 [[b s2]|]]; [|reflexivity].
  destruct (h b s2) as [t3 r]. rewrite app_assoc. reflexivity.
Qed.

Section Runs.

Context {collaborators : Collaborators}.

Lemma push_epoch_sample_run (f : Sp3FileReader) (i : N) (s : GnssSatellites) :
  push_epoch_sample f i s =
  match nth_error (orbit_ s) (N.to_nat i) with
  | None => ([], OutOfRange)
  | Some o =>
      match nth_error (clock_ s) (N.to_nat i) with
      | None => ([PushOrbit i (sample_offset f s) (sample_position_m f s i)], OutOfRange)
      | Some k =>
          ([PushOrbit i (sample_offset f s) (sample_position_m f s i);
            PushClock i (sample_offset f s) (sample_clock f s i)],
           Ok (tt, pushed f s i o k))
      end
  end.
Proof.
  unfold push_epoch_sample, orbit_push, clock_push, at_index, bind, get, emit, modify,
    ret, undefined; simpl.
  destruct (nth_error (orbit_ s) (N.to_nat i)) as [o|]; simpl; [|reflexivity].
  destruct (nth_error (clock_ s) (N.to_nat i)) as [k|]; reflexivity.
Qed.

Lemma pushed_control f s i o k : control (pushed f s i o k) = control s.
Proof. reflexivity. Qed.

(** What the epoch advance does, case by case. *)
Lemma advance_epoch_run (f : Sp3FileReader) (s : GnssSatellites) :
  advance_epoch f s =
  let next := size_succ (reference_interpolation_id_ s) in
  if GetNumberOfEpoch f <=? next then
    let file_id := size_succ (sp3_file_id_ s) in
    let rolled := set_sp3_file_id file_id
                    (set_reference_interpolation_id 0
                       (set_reference_interpolation_id next s)) in
    ((if N.of_nat (List.length (sp3_files_ s)) <=? file_id then [range_over_line] else []),
     match nth_error (sp3_files_ s) (N.to_nat file_id) with
     | Some g => Ok (g, rolled)
     | None => OutOfRange
     end)
  else ([], Ok (f, set_reference_interpolation_id next s)).
Proof.
  unfold advance_epoch, at_index, bind, get, emit, modify, ret, undefined; simpl.
  destruct (GetNumberOfEpoch f <=? size_succ (reference_interpolation_id_ s)); simpl;
    [|reflexivity].
  destruct (N.of_nat (List.length (sp3_files_ s)) <=? size_succ (sp3_file_id_ s)); simpl;
    destruct (nth_error (sp3_files_ s) (N.to_nat (size_succ (sp3_file_id_ s)))); reflexivity.
Qed.

Lemma control_sample_offset f s s' :
  control s' = control s -> sample_offset f s' = sample_offset f s.
Proof. unfold control, sample_offset; intros H; injection H; intros; congruence. Qed.

Lemma control_sample_position f s s' i :
  control s' = control s -> sample_position_m f s' i = sample_position_m f s i.
Proof. unfold control, sample_position_m; intros H; injection H; intros; congruence. Qed.

Lemma control_sample_clock f s s' i :
  control s' = control s -> sample_clock f s' i = sample_clock f s i.
Proof. unfold control, sample_clock; intros H; injection H; intros; congruence. Qed.

Lemma sample_event_widen f s lo hi lo' hi' e :
  lo' <= lo -> hi <= hi' -> sample_event f s lo hi e -> sample_event f s lo' hi' e.
Proof. intros Hlo Hhi (i & Hi & He). exists i; split; [lia|exact He]. Qed.

Lemma orbit_pushes_app j t1 t2 :
  orbit_pushes j (t1 ++ t2) = (orbit_pushes j t1 + orbit_pushes j t2)%nat.
Proof. unfold orbit_pushes. rewrite filter_app, length_app. reflexivity. Qed.

Lemma clock_pushes_app j t1 t2 :
  clock_pushes j (t1 ++ t2) = (clock_pushes j t1 + clock_pushes j t2)%nat.
Proof. unfold clock_pushes. rewrite filter_app, length_app. reflexivity. Qed.

Lemma sample_events_no_push f s lo hi t j :
  (forall e, In e t -> sample_event f s lo hi e) -> (j < lo \/ hi <= j) ->
  orbit_pushes j t = 0%nat /\ clock_pushes j t = 0%nat.
Proof.
  unfold orbit_pushes, clock_pushes. induction t as [|e t IH]; intros H Hj; [split; reflexivity|].
  destruct IH as [IHo IHc]; [intros; apply H; right; assumption|assumption|].
  destruct (H e (or_introl eq_refl)) as (i & Hi & [-> | ->]); simpl;
    (destruct (N.eqb_spec i j) as [->|_]; [lia|]); split; assumption.
Qed.

(** The satellite loop, [count] satellites from [first] on: what it pushes,
    and what it leaves alone. *)
Lemma for_loop_push_spec (f : Sp3FileReader) (count : nat) :
  forall (first : N) (s : GnssSatellites),
    let run := for_loop count first (push_epoch_sample f) s in
    (forall e, In e (fst run) -> sample_event f s first (first + N.of_nat count) e)
    /\ (forall j, (orbit_pushes j (fst run) <= 1)%nat /\ (clock_pushes j (fst run) <= 1)%nat)
    /\ (forall u s', snd run = Ok (u, s') ->
          control s' = control s
          /\ forall j, (j < first \/ first + N.of_nat count <= j) ->
               nth_error (orbit_ s') (N.to_nat j) = nth_error (orbit_ s) (N.to_nat j)
               /\ nth_error (clock_ s') (N.to_nat j) = nth_error (clock_ s) (N.to_nat j)).
Proof.
  induction count as [|c IH]; intros first s; cbn zeta.
  - simpl. split; [intros e []|]. split; [intros j; split; apply Nat.le_0_l|].
    intros u s' H; injection H as _ <-. auto.
  - cbn [for_loop]. rewrite bind_run, push_epoch_sample_run.
    assert (Hfirst : forall e,
               e = PushOrbit first (sample_offset f s) (sample_position_m f s first) \/
               e = PushClock first (sample_offset f s) (sample_clock f s first) ->
               sample_event f s first (first + N.of_nat (S c)) e).
    { intros e He. exists first. split; [lia|exact He]. }
    destruct (nth_error (orbit_ s) (N.to_nat first)) as [o|] eqn:Ho;
      [destruct (nth_error (clock_ s) (N.to_nat first)) as [k|] eqn:Hk|].
    + specialize (IH (N.succ first) (pushed f s first o k)).
      cbn zeta in IH. destruct IH as (IHe & IHn & IHs).
      set (rest := for_loop c (N.succ first) (push_epoch_sample f) (pushed f s first o k)) in *.
      cbn [fst snd].
      assert (He : forall e, In e (fst rest) ->
                     sample_event f s (N.succ first) (first + N.of_nat (S c)) e).
      { intros e Hin. destruct (IHe e Hin) as (i & Hi & Hcase).
        exists i. split; [lia|].
        rewrite (control_sample_offset f (pushed_control f s first o k)),
          (control_sample_position f i (pushed_control f s first o k)),
          (control_sample_clock f i (pushed_control f s first o k)) in Hcase.
        exact Hcase. }
      split; [|split].
      * intros e [<-|[<-|Hin]]; [apply Hfirst; auto|apply Hfirst; auto|].
        eapply sample_event_widen; [| |apply He; exact Hin]; lia.
      * intros j.
        rewrite orbit_pushes_app, clock_pushes_app.
        destruct (N.eq_dec j first) as [->|Hne].
        -- destruct (sample_events_no_push (j:=first) _ He) as [-> ->]; [lia|].
           unfold orbit_pushes, clock_pushes; simpl. rewrite N.eqb_refl. simpl. lia.
        -- destruct (IHn j) as [Hoj Hcj].
           unfold orbit_pushes at 1, clock_pushes at 1; simpl.
           destruct (N.eqb_spec first j) as [->|_]; [congruence|]. simpl. lia.
      * intros u s' Hrun. destruct (IHs u s' Hrun) as [Hc Hf].
        split; [rewrite Hc; reflexivity|].
        intros j Hj. destruct (Hf j) as [Hfo Hfc]; [lia|].
        rewrite Hfo, Hfc. unfold pushed; simpl.
        rewrite !list_update_other; [auto| |]; intros Heq; apply N2Nat.inj in Heq; lia.
    + cbn [fst snd]. split; [|split].
      * intros e [<-|[]]. apply Hfirst; auto.
      * intros j. unfold orbit_pushes, clock_pushes; simpl.
        destruct (first =? j); simpl; lia.
      * intros u s' H; discriminate.
    + cbn [fst snd]. split; [intros e []|]. split; [intros j; split; apply Nat.le_0_l|].
      intros u s' H; discriminate.
Qed.

End Runs.

(** ** The satellite loop as a list of pushes *)

Section LoopRuns.

Context {collaborators : Collaborators}.

(** The satellite loop, where it returns: every buffer in its range existed
    and holds the pushed sample afterwards. *)
Lemma for_loop_push_buffers (f : Sp3FileReader) (count : nat) :
  forall (first : N) (s s' : GnssSatellites) (u : unit),
    snd (for_loop count first (push_epoch_sample f) s) = Ok (u, s') ->
    forall j, first <= j < first + N.of_nat count ->
      exists o k,
        nth_error (orbit_ s) (N.to_nat j) = Some o
        /\ nth_error (clock_ s) (N.to_nat j) = Some k
        /\ nth_error (orbit_ s') (N.to_nat j)
           = Some (PushAndPopData (sample_offset f s) (sample_position_m f s j) o)
        /\ nth_error (clock_ s') (N.to_nat j)
           = Some (PushAndPopData (sample_offset f s) (sample_clock f s j) k).
Proof.
  induction count as [|c IH]; intros first s s' u Hrun j Hj; [lia|].
  cbn [for_loop] in Hrun. rewrite bind_run, push_epoch_sample_run in Hrun.
  destruct (nth_error (orbit_ s) (N.to_nat first)) as [o|] eqn:Eo; [|discriminate].
  destruct (nth_error (clock_ s) (N.to_nat first)) as [k|] eqn:Ek; [|discriminate].
  cbn [snd] in Hrun.
  destruct (N.eq_dec j first) as [->|Hne].
  - exists o, k. split; [exact Eo|]. split; [exact Ek|].
    destruct (for_loop_push_spec f c (N.succ first) (pushed f s first o k)) as (_ & _ & Hs).
    cbv zeta in Hs. destruct (Hs u s' Hrun) as [_ Hf].
    destruct (Hf first) as [Hfo Hfc]; [lia|]. rewrite Hfo, Hfc.
    unfold pushed. cbn [orbit_ clock_ set_clock set_orbit].
    rewrite !list_update_same; [auto| |]; apply nth_error_Some; congruence.
  - destruct (IH (N.succ first) (pushed f s first o k) s' u Hrun j) as (o' & k' & Ho' & Hk' & Hno & Hnk);
      [lia|].
    unfold pushed in Ho', Hk'. cbn [orbit_ clock_ set_clock set_orbit] in Ho', Hk'.
    rewrite list_update_other in Ho' by (intros Heq; apply N2Nat.inj in Heq; congruence).
    rewrite list_update_other in Hk' by (intros Heq; apply N2Nat.inj in Heq; congruence).
    exists o', k'.
    rewrite (control_sample_offset f (pushed_control f s first o k)),
      (control_sample_position f j (pushed_control f s first o k)) in Hno.
    rewrite (control_sample_offset f (pushed_control f s first o k)),
      (control_sample_clock f j (pushed_control f s first o k)) in Hnk.
    auto.
Qed.

Lemma sample_pushes_control (f : Sp3FileReader) (s s' : GnssSatellites) (count : nat) :
  control s' = control s ->
  forall first, sample_pushes f s' count first = sample_pushes f s count first.
Proof.
  intros Hc. induction count as [|c IH]; intros first; [reflexivity|].
  cbn [sample_pushes].
  rewrite (control_sample_offset f Hc), (control_sample_position f first Hc),
    (control_sample_clock f first Hc), IH. reflexivity.
Qed.

Lemma sample_pushes_same (f : Sp3FileReader) (s s' : GnssSatellites) (count : nat) :
  reference_interpolation_id_ s' = reference_interpolation_id_ s ->
  reference_time_ s' = reference_time_ s ->
  forall first, sample_pushes f s' count first = sample_pushes f s count first.
Proof.
  intros Hid Href. induction count as [|c IH]; intros first; [reflexivity|].
  cbn [sample_pushes]. unfold sample_offset, sample_position_m, sample_clock in *.
  rewrite Hid, Href, IH. reflexivity.
Qed.

Lemma sample_pushes_orbit_count (f : Sp3FileReader) (s : GnssSatellites) (count : nat) :
  forall first j,
    orbit_pushes j (sample_pushes f s count first)
    = (if (first <=? j) && (j <? first + N.of_nat count) then 1%nat else 0%nat)
    /\ clock_pushes j (sample_pushes f s count first)
       = (if (first <=? j) && (j <? first + N.of_nat count) then 1%nat else 0%nat).
Proof.
  induction count as [|c IH]; intros first j.
  - cbn. replace (j <? first + 0) with (j <? first) by (f_equal; lia).
    destruct (N.leb_spec first j), (N.ltb_spec j first); split; try reflexivity; lia.
  - cbn [sample_pushes]. unfold orbit_pushes, clock_pushes in *. cbn [filter is_orbit_push_to is_clock_push_to].
    destruct (IH (N.succ first) j) as [IHo IHc].
    destruct (N.eqb_spec first j) as [->|Hne]; cbn [List.length]; rewrite IHo, IHc.
    + destruct (N.leb_spec (N.succ j) j); [lia|]. cbn [andb].
      destruct (N.leb_spec j j); [|lia].
      destruct (N.ltb_spec j (j + N.of_nat (S c))); [|lia]. auto.
    + destruct (N.leb_spec (N.succ first) j), (N.leb_spec first j); try lia; cbn [andb];
        destruct (N.ltb_spec j (N.succ first + N.of_nat c)),
                 (N.ltb_spec j (first + N.of_nat (S c))); try lia; auto.
Qed.

Lemma sample_pushes_no_cout (f : Sp3FileReader) (s : GnssSatellites) (count : nat) :
  forall first, existsb is_cout (sample_pushes f s count first) = false.
Proof. induction count as [|c IH]; intros first; [reflexivity|]. cbn. apply IH. Qed.

(** With a buffer pair for every index, the satellite loop returns, having
    pushed once into each of them. *)
Lemma for_loop_push_returns (f : Sp3FileReader) (count : nat) :
  forall (first : N) (s : GnssSatellites),
    (N.to_nat first + count <= List.length (orbit_ s))%nat ->
    (N.to_nat first + count <= List.length (clock_ s))%nat ->
    exists s',
      for_loop count first (push_epoch_sample f) s = (sample_pushes f s count first, Ok (tt, s'))
      /\ control s' = control s
      /\ List.length (orbit_ s') = List.length (orbit_ s)
      /\ List.length (clock_ s') = List.length (clock_ s).
Proof.
  induction count as [|c IH]; intros first s Ho Hk.
  - exists s. auto.
  - cbn [for_loop sample_pushes]. rewrite bind_run, push_epoch_sample_run.
    destruct (nth_error (orbit_ s) (N.to_nat first)) as [o|] eqn:Eo;
      [|apply nth_error_None in Eo; lia].
    destruct (nth_error (clock_ s) (N.to_nat first)) as [k|] eqn:Ek;
      [|apply nth_error_None in Ek; lia].
    destruct (IH (N.succ first) (pushed f s first o k)) as (s' & Hrun & Hc & Hlo & Hlk).
    + unfold pushed; cbn [orbit_ set_clock set_orbit]. rewrite list_update_length. lia.
    + unfold pushed; cbn [clock_ set_clock set_orbit]. rewrite list_update_length. lia.
    + exists s'. rewrite Hrun. cbn [fst snd app].
      rewrite (sample_pushes_control f c (pushed_control f s first o k)).
      split; [reflexivity|]. split; [rewrite Hc; reflexivity|].
      unfold pushed in Hlo, Hlk. cbn [orbit_ clock_ set_clock set_orbit] in Hlo, Hlk.
      rewrite list_update_length in Hlo. rewrite list_update_length in Hlk. auto.
Qed.

(** With fewer buffer pairs than the loop asks for, it pushes into those that
    exist and then indexes past them. *)
Lemma for_loop_push_short (f : Sp3FileReader) (count : nat) :
  forall (first : N) (s : GnssSatellites),
    List.length (clock_ s) = List.length (orbit_ s) ->
    (N.to_nat first <= List.length (orbit_ s))%nat ->
    (List.length (orbit_ s) < N.to_nat first + count)%nat ->
    for_loop count first (push_epoch_sample f) s
    = (sample_pushes f s (List.length (orbit_ s) - N.to_nat first) first, OutOfRange).
Proof.
  induction count as [|c IH]; intros first s Hlen Hlo Hhi; [lia|].
  cbn [for_loop]. rewrite bind_run, push_epoch_sample_run.
  destruct (nth_error (orbit_ s) (N.to_nat first)) as [o|] eqn:Eo.
  - assert (Hin : (N.to_nat first < List.length (orbit_ s))%nat)
      by (apply nth_error_Some; congruence).
    destruct (nth_error (clock_ s) (N.to_nat first)) as [k|] eqn:Ek;
      [|apply nth_error_None in Ek; lia].
    rewrite IH; unfold pushed; cbn [orbit_ clock_ set_clock set_orbit];
      rewrite ?list_update_length; try lia.
    cbn [fst snd].
    replace (List.length (orbit_ s) - N.to_nat first)%nat
      with (S (List.length (orbit_ s) - N.to_nat (N.succ first))) by lia.
    cbn [sample_pushes app].
    change (set_clock ?a (set_orbit ?b s)) with (pushed f s first o k).
    rewrite (sample_pushes_control f _ (pushed_control f s first o k)). reflexivity.
  - apply nth_error_None in Eo.
    replace (List.length (orbit_ s) - N.to_nat first)%nat with 0%nat by lia. reflexivity.
Qed.

End LoopRuns.

(** ** Update *)

Section UpdateProperties.

Context {collaborators : Collaborators}.

Lemma Update_run (current_date_time : DateTime) (s : GnssSatellites) :
  Update current_date_time s =
  if negb (IsCalcEnabled s) then ([], Ok (tt, s)) else
  let s1 := set_current_epoch_time (EpochTime_of_DateTime current_date_time) s in
  match active_file s with
  | None => ([], OutOfRange)
  | Some f =>
      match medium_time s with
      | None => ([], OutOfRange)
      | Some m =>
          if (m <? update_offset current_date_time s)%float
          then refill f s1
          else ([], Ok (tt, s1))
      end
  end.
Proof.
  unfold Update, active_file, medium_time, update_offset, refill.
  rewrite bind_get. destruct (negb (IsCalcEnabled s)); [reflexivity|].
  rewrite bind_modify, bind_get, bind_at_index.
  cbn [sp3_files_ sp3_file_id_ set_current_epoch_time orbit_ reference_time_
       current_epoch_time_].
  destruct (nth_error (sp3_files_ s) (N.to_nat (sp3_file_id_ s))) as [f|];
    [|reflexivity].
  rewrite bind_at_index. cbn [N.to_nat].
  destruct (nth_error (orbit_ s) 0) as [o|]; [|reflexivity].
  rewrite bind_at_index. change (N.to_nat 4) with 4%nat.
  destruct (nth_error (GetTimeList o) 4) as [m|]; [|reflexivity].
  destruct (m <? _)%float; reflexivity.
Qed.

(** A triggered refill starts by pushing into the orbit buffer of satellite 0. *)
Lemma refill_pushes (f : Sp3FileReader) (s : GnssSatellites) (o : InterpolationOrbit) :
  nth_error (orbit_ s) 0 = Some o -> existsb is_push (fst (refill f s)) = true.
Proof.
  intros Ho. unfold refill. rewrite bind_run.
  change (for_loop 32 0 (push_epoch_sample f) s)
    with (bind (push_epoch_sample f 0)
               (fun _ => for_loop 31 (N.succ 0) (push_epoch_sample f)) s).
  rewrite bind_run, push_epoch_sample_run. cbn [N.to_nat]. rewrite Ho.
  destruct (nth_error (clock_ s) 0) as [k|]; [|reflexivity].
  destruct (for_loop 31 (N.succ 0) (push_epoch_sample f) (pushed f s 0 o k)) as [t [[u s']|]];
    reflexivity.
Qed.

(** What a refill pushes and what it leaves alone. *)
Lemma refill_spec (f : Sp3FileReader) (s : GnssSatellites) :
  (forall e, In e (fst (refill f s)) -> e = range_over_line \/ sample_event f s 0 32 e)
  /\ (forall j, (orbit_pushes j (fst (refill f s)) <= 1)%nat
             /\ (clock_pushes j (fst (refill f s)) <= 1)%nat)
  /\ (forall s', snd (refill f s) = Ok (tt, s') ->
        reference_time_ s' = reference_time_ s
        /\ reference_interpolation_id_ s' <= reference_interpolation_id_ s + 1
        /\ forall j, 32 <= j ->
             nth_error (orbit_ s') (N.to_nat j) = nth_error (orbit_ s) (N.to_nat j)
             /\ nth_error (clock_ s') (N.to_nat j) = nth_error (clock_ s) (N.to_nat j)).
Proof.
  unfold refill. rewrite bind_run.
  destruct (for_loop_push_spec f 32 0 s) as (He & Hn & Hs). cbn zeta in He, Hn, Hs.
  destruct (for_loop 32 0 (push_epoch_sample f) s) as [t [[u s1]|]]; cbn [fst snd] in *.
  - destruct (Hs u s1 eq_refl) as [Hc Hf]. clear Hs.
    rewrite bind_run, advance_epoch_run. cbn zeta.
    assert (Href : reference_time_ s1 = reference_time_ s)
      by (unfold control in Hc; injection Hc; intros; congruence).
    assert (Hid : reference_interpolation_id_ s1 = reference_interpolation_id_ s)
      by (unfold control in Hc; injection Hc; intros; congruence).
    assert (Hwrap : size_succ (reference_interpolation_id_ s) <= reference_interpolation_id_ s + 1).
    { unfold size_succ. apply N.Div0.mod_le. }
    destruct (GetNumberOfEpoch f <=? size_succ (reference_interpolation_id_ s1)).
    + destruct (N.of_nat (List.length (sp3_files_ s1)) <=? size_succ (sp3_file_id_ s1));
        destruct (nth_error (sp3_files_ s1) (N.to_nat (size_succ (sp3_file_id_ s1))));
        cbn [fst snd ret app]; rewrite ?app_nil_r;
        (split; [|split]);
        try (intros s' H; discriminate);
        try (intros s' H; injection H as <-; cbn; split; [exact Href|]; split; [lia|];
             intros j Hj; apply Hf; right; exact Hj).
      all: try (intros e Hin; apply in_app_or in Hin;
                destruct Hin as [Hin|[<-|[]]]; [right; apply He; exact Hin|left; reflexivity]).
      all: try (intros e Hin; right; apply He; exact Hin).
      all: intros j; rewrite ?orbit_pushes_app, ?clock_pushes_app;
        unfold range_over_line; cbn; rewrite ?Nat.add_0_r; apply Hn.
    + cbn [fst snd ret app]. rewrite app_nil_r. split; [|split].
      * intros e Hin; right; apply He; exact Hin.
      * exact Hn.
      * intros s' H; injection H as <-; cbn. split; [exact Href|]. split; [rewrite Hid; exact Hwrap|].
        intros j Hj; apply Hf; right; exact Hj.
  - split; [|split].
    + intros e Hin; right; apply He; exact Hin.
    + exact Hn.
    + intros s' H; discriminate.
Qed.

Lemma no_push_from_32 (f : Sp3FileReader) (s : GnssSatellites) (t : list event) (j : N) :
  (forall e, In e t -> e = range_over_line \/ sample_event f s 0 32 e) -> 32 <= j ->
  orbit_pushes j t = 0%nat /\ clock_pushes j t = 0%nat.
Proof.
  unfold orbit_pushes, clock_pushes. induction t as [|e t IH]; intros H Hj; [split; reflexivity|].
  destruct IH as [IHo IHc]; [intros; apply H; right; assumption|assumption|].
  destruct (H e (or_introl eq_refl)) as [->|(i & Hi & [-> | ->])]; simpl;
    try (destruct (N.eqb_spec i j) as [->|_]; [lia|]); split; assumption.
Qed.

(** A refill that returns has pushed the sample into the orbit and the clock
    buffer of each of the satellites 0..31. *)
Lemma refill_buffers (f : Sp3FileReader) (s s' : GnssSatellites) :
  snd (refill f s) = Ok (tt, s') ->
  forall j, j < 32 ->
    exists o k,
      nth_error (orbit_ s) (N.to_nat j) = Some o
      /\ nth_error (clock_ s) (N.to_nat j) = Some k
      /\ nth_error (orbit_ s') (N.to_nat j)
         = Some (PushAndPopData (sample_offset f s) (sample_position_m f s j) o)
      /\ nth_error (clock_ s') (N.to_nat j)
         = Some (PushAndPopData (sample_offset f s) (sample_clock f s j) k).
Proof.
  unfold refill. rewrite bind_run. intros Hrun j Hj.
  assert (Hloop := @for_loop_push_buffers _ f 32 0 s).
  destruct (for_loop 32 0 (push_epoch_sample f) s) as [t [[u s1]|]]; cbn [fst snd] in *;
    [|discriminate].
  destruct (Hloop s1 u eq_refl j) as (o & k & Ho & Hk & Hno & Hnk); [change (N.of_nat 32) with 32; lia|].
  exists o, k. split; [exact Ho|]. split; [exact Hk|].
  rewrite bind_run, advance_epoch_run in Hrun. cbv zeta in Hrun.
  destruct (GetNumberOfEpoch f <=? size_succ (reference_interpolation_id_ s1)).
  - destruct (nth_error (sp3_files_ s1) (N.to_nat (size_succ (sp3_file_id_ s1))));
      [|discriminate].
    cbn in Hrun. injection Hrun as <-. cbn. auto.
  - cbn in Hrun. injection Hrun as <-. cbn. auto.
Qed.

(** An [Update] that returns: the buffers after it, by whether the refill
    trigger fired. *)
Lemma Update_buffers (current_date_time : DateTime) (s s' : GnssSatellites) (t : list event)
    (f : Sp3FileReader) (m : double) :
  IsCalcEnabled s = true ->
  active_file s = Some f ->
  medium_time s = Some m ->
  Update current_date_time s = (t, Ok (tt, s')) ->
  ((m <? update_offset current_date_time s)%float = true ->
   forall j, j < 32 ->
     exists o k,
       nth_error (orbit_ s) (N.to_nat j) = Some o
       /\ nth_error (clock_ s) (N.to_nat j) = Some k
       /\ nth_error (orbit_ s') (N.to_nat j)
          = Some (PushAndPopData (sample_offset f s) (sample_position_m f s j) o)
       /\ nth_error (clock_ s') (N.to_nat j)
          = Some (PushAndPopData (sample_offset f s) (sample_clock f s j) k))
  /\ ((m <? update_offset current_date_time s)%float = false ->
      orbit_ s' = orbit_ s /\ clock_ s' = clock_ s /\ t = []).
Proof.
  intros Hcalc Hfile Hmid Hrun.
  rewrite Update_run, Hcalc, Hfile, Hmid in Hrun. cbn [negb] in Hrun. cbv zeta in Hrun.
  split; intros Hcmp; rewrite Hcmp in Hrun.
  - intros j Hj.
    apply (@refill_buffers f (set_current_epoch_time (EpochTime_of_DateTime current_date_time) s) s');
      [rewrite Hrun; reflexivity|exact Hj].
  - injection Hrun as <- <-. auto.
Qed.

(** C3 (refill cadence).  With calculation enabled, the active file index
    inside the file list and a middle sample (index 4 = 9/2) in the window of
    satellite 0: [Update] calls [PushAndPopData] if and only if the offset of
    the new current time from the reference time is greater than the time
    offset stored at that middle index.  On the object a call that returns
    leaves behind: past the middle, the orbit and the clock buffer of each of
    the satellites 0..31 is the old buffer with the sample of the current
    epoch pushed into it; not past the middle, [Update] returns with
    [orbit_] and [clock_] as they were. *)
Theorem Update_pushes_iff_past_middle :
  forall (current_date_time : DateTime) (s : GnssSatellites) (f : Sp3FileReader) (m : double),
    IsCalcEnabled s = true ->
    active_file s = Some f ->
    medium_time s = Some m ->
    kNumberOfInterpolation / 2 = 4
    /\ (existsb is_push (fst (Update current_date_time s)) = true
        <-> (m <? update_offset current_date_time s)%float = true)
    /\ (forall t s',
          Update current_date_time s = (t, Ok (tt, s')) ->
          ((m <? update_offset current_date_time s)%float = true ->
           forall j, j < 32 ->
             exists o k,
               nth_error (orbit_ s) (N.to_nat j) = Some o
               /\ nth_error (clock_ s) (N.to_nat j) = Some k
               /\ nth_error (orbit_ s') (N.to_nat j)
                  = Some (PushAndPopData (sample_offset f s) (sample_position_m f s j) o)
               /\ nth_error (clock_ s') (N.to_nat j)
                  = Some (PushAndPopData (sample_offset f s) (sample_clock f s j) k))
          /\ ((m <? update_offset current_date_time s)%float = false ->
              orbit_ s' = orbit_ s /\ clock_ s' = clock_ s))
    /\ ((m <? update_offset current_date_time s)%float = false ->
        returned (snd (Update current_date_time s)) = true).
Proof.
  intros dt s f m Hcalc Hfile Hmid. split; [reflexivity|]. split; [|split].
  - rewrite Update_run, Hcalc, Hfile, Hmid. cbn [negb]. cbv zeta.
    destruct (m <? update_offset dt s)%float.
    + split; [reflexivity|intros _].
      unfold medium_time in Hmid.
      destruct (nth_error (orbit_ s) 0) as [o|] eqn:Ho; [|discriminate].
      apply refill_pushes with (o := o). exact Ho.
    + split; intros H; [cbn in H|]; discriminate.
  - intros t s' Hrun.
    destruct (@Update_buffers dt s s' t f m Hcalc Hfile Hmid Hrun) as [Hfired Hidle].
    split; [exact Hfired|]. intros Hcmp. destruct (Hidle Hcmp) as (Ho & Hk & _). auto.
  - intros Hcmp. rewrite Update_run, Hcalc, Hfile, Hmid, Hcmp. reflexivity.
Qed.

(** C10 (one step per call, and the frame of an idle call).  Whatever the new
    current time, one [Update] pushes at most one sample into each orbit and
    each clock buffer and moves the epoch index to at most one more than
    before; and when calculation is enabled and the offset of the new current
    time is not past the middle sample, [Update] prints nothing, pushes
    nothing and returns the object with only [current_epoch_time_] replaced. *)
Theorem Update_single_step_and_frame :
  forall (current_date_time : DateTime) (s : GnssSatellites),
    (forall j, (orbit_pushes j (fst (Update current_date_time s)) <= 1)%nat
            /\ (clock_pushes j (fst (Update current_date_time s)) <= 1)%nat)
    /\ (forall s', snd (Update current_date_time s) = Ok (tt, s') ->
          reference_interpolation_id_ s' <= reference_interpolation_id_ s + 1)
    /\ (forall f m,
          IsCalcEnabled s = true ->
          active_file s = Some f ->
          medium_time s = Some m ->
          (m <? update_offset current_date_time s)%float = false ->
          Update current_date_time s =
          ([], Ok (tt, set_current_epoch_time (EpochTime_of_DateTime current_date_time) s))).
Proof.
  intros dt s. rewrite Update_run. split; [|split].
  - intros j. destruct (negb (IsCalcEnabled s)); [split; apply Nat.le_0_l|]. cbv zeta.
    destruct (active_file s) as [f|]; [|split; apply Nat.le_0_l].
    destruct (medium_time s) as [m|]; [|split; apply Nat.le_0_l].
    destruct (m <? update_offset dt s)%float; [|split; apply Nat.le_0_l].
    apply refill_spec.
  - intros s'. destruct (negb (IsCalcEnabled s)); [intros H; injection H as <-; lia|]. cbv zeta.
    destruct (active_file s) as [f|]; [|discriminate].
    destruct (medium_time s) as [m|]; [|discriminate].
    destruct (m <? update_offset dt s)%float.
    + intros H. apply refill_spec in H. destruct H as (_ & H & _). exact H.
    + intros H; injection H as <-. cbn. lia.
  - intros f m Hcalc Hfile Hmid Hcmp. rewrite Hcalc, Hfile, Hmid, Hcmp. reflexivity.
Qed.

(** C2 (what a refill reaches).  The satellite loop of [Update] runs over the
    indices 0..31 whatever [number_of_calculated_gnss_satellites_] is: a call
    that returns leaves the orbit and clock buffers of every satellite index
    from 32 on as they were and pushes nothing into them. *)
Theorem Update_leaves_satellites_from_32 :
  forall (current_date_time : DateTime) (s s' : GnssSatellites) (t : list event) (j : N),
    Update current_date_time s = (t, Ok (tt, s')) ->
    32 <= j ->
    nth_error (orbit_ s') (N.to_nat j) = nth_error (orbit_ s) (N.to_nat j)
    /\ nth_error (clock_ s') (N.to_nat j) = nth_error (clock_ s) (N.to_nat j)
    /\ orbit_pushes j t = 0%nat /\ clock_pushes j t = 0%nat.
Proof.
  intros dt s s' t j Hrun Hj. rewrite Update_run in Hrun.
  destruct (negb (IsCalcEnabled s)); [injection Hrun as <- <-; auto|]. cbv zeta in Hrun.
  destruct (active_file s) as [f|]; [|discriminate].
  destruct (medium_time s) as [m|]; [|discriminate].
  destruct (m <? update_offset dt s)%float; [|injection Hrun as <- <-; auto].
  destruct (refill_spec f (set_current_epoch_time (EpochTime_of_DateTime dt) s))
    as (He & _ & Hs).
  rewrite Hrun in He, Hs. cbn [fst snd] in He, Hs.
  destruct (Hs s' eq_refl) as (_ & _ & Hf). destruct (Hf j Hj) as [Hfo Hfc].
  destruct (no_push_from_32 _ He Hj) as [Hno Hnc]. cbn in Hfo, Hfc. auto.
Qed.

End UpdateProperties.

(** ** A comparison of doubles *)


(** ** Initialize *)

Section InitializeProperties.

Context {collaborators : Collaborators}.

Lemma Initialize_run (sp3_files : list Sp3FileReader) (start_time : EpochTime)
    (s : GnssSatellites) :
  Initialize sp3_files start_time s =
  let s0 := set_current_epoch_time start_time (set_sp3_files sp3_files s) in
  match nth_error sp3_files 0 with
  | None => ([], OutOfRange)
  | Some _ =>
      match scan_sp3_files sp3_files 0 start_time with
      | None => ([time_mismatch_line], Ok (tt, s0))
      | Some (i, f) => seed 9 f (ready_to_seed f i start_time s0)
      end
  end.
Proof.
  unfold Initialize. rewrite !bind_modify, bind_get, bind_at_index.
  cbn [sp3_files_ set_current_epoch_time set_sp3_files N.to_nat].
  destruct (nth_error sp3_files 0) as [first|]; [|reflexivity].
  unfold GetCurrentSp3File. rewrite bind_assoc, bind_get.
  cbn [sp3_files_ set_current_epoch_time set_sp3_files].
  destruct (scan_sp3_files sp3_files 0 start_time) as [[i f]|].
  - rewrite bind_assoc, bind_modify, bind_ret, bind_modify.
    unfold ready_to_seed. cbv zeta.
    destruct (kNumberOfInterpolation / 2 <=? SearchNearestEpochId f start_time).
    + rewrite !bind_modify, bind_get, bind_modify, bind_get, !bind_modify. reflexivity.
    + rewrite bind_ret, bind_get, bind_modify, bind_get, !bind_modify. reflexivity.
  - rewrite bind_ret. reflexivity.
Qed.

(** *** Which file the scan stops at *)


Lemma scan_none_of_no_cover (files : list Sp3FileReader) (t : EpochTime) :
  forall i, first_covering files i t = None -> scan_sp3_files files i t = None.
Proof.
  induction files as [|g rest IH]; intros i; simpl; [reflexivity|].
  unfold covers, since_start.
  destruct (_ <? 0)%float; [reflexivity|].
  destruct (_ <? 86400)%float; simpl; [discriminate|apply IH].
Qed.







(** *** The object when seeding starts *)

Lemma scan_position (files : list Sp3FileReader) (t : EpochTime) :
  forall i j f,
    scan_sp3_files files i t = Some (j, f) ->
    exists k, j = i + N.of_nat k /\ nth_error files k = Some f /\ covers f t = true.
Proof.
  induction files as [|g rest IH]; intros i j f; simpl; [discriminate|].
  destruct (_ <? 0)%float eqn:Hlate; [discriminate|].
  destruct (_ <? 86400)%float eqn:Hday.
  - intros H; injection H as <- <-. exists 0%nat. split; [lia|]. split; [reflexivity|].
    unfold covers, since_start. rewrite Hlate, Hday. reflexivity.
  - intros H. apply IH in H. destruct H as (k & -> & Hk & Hc).
    exists (S k). split; [lia|]. split; [exact Hk|exact Hc].
Qed.

Lemma ready_to_seed_fields (f : Sp3FileReader) (i : N) (start_time : EpochTime)
    (s : GnssSatellites) :
  let r := ready_to_seed f i start_time s in
  sp3_files_ r = sp3_files_ s
  /\ current_epoch_time_ r = current_epoch_time_ s
  /\ is_calc_enabled_ r = is_calc_enabled_ s
  /\ number_of_calculated_gnss_satellites_ r = GetNumberOfSatellites f
  /\ sp3_file_id_ r = i
  /\ reference_time_ r
     = EpochTime_of_DateTime (GetEpochData f (reference_interpolation_id_ r))
  /\ List.length (orbit_ r) = N.to_nat (GetNumberOfSatellites f)
  /\ List.length (clock_ r) = N.to_nat (GetNumberOfSatellites f).
Proof.
  unfold ready_to_seed. cbv zeta.
  destruct (kNumberOfInterpolation / 2 <=? SearchNearestEpochId f start_time);
    cbn; rewrite !repeat_length; auto 10.
Qed.

(** *** The reference time during seeding *)

Lemma sample_pushes_epoch (f : Sp3FileReader) (s : GnssSatellites) (count : nat) :
  forall first,
    sample_pushes f s count first
    = epoch_pushes f (reference_interpolation_id_ s) (reference_time_ s) count first.
Proof.
  induction count as [|c IH]; intros first; [reflexivity|].
  cbn [sample_pushes epoch_pushes]. rewrite IH. reflexivity.
Qed.

Lemma filter_push_epoch_pushes (f : Sp3FileReader) (epoch_id : N) (reference : EpochTime)
    (count : nat) :
  forall first,
    filter is_push (epoch_pushes f epoch_id reference count first)
    = epoch_pushes f epoch_id reference count first.
Proof.
  induction count as [|c IH]; intros first; [reflexivity|].
  cbn [epoch_pushes filter is_push]. rewrite IH. reflexivity.
Qed.

Lemma sample_event_of_epoch (f : Sp3FileReader) (s : GnssSatellites) (lo hi : N) (e : event) :
  sample_event f s lo hi e ->
  sample_of_epoch f (reference_interpolation_id_ s) (reference_time_ s) e.
Proof. intros (i & _ & He). exists i. exact He. Qed.

(** The seeding loop never writes [reference_time_]. *)
Lemma seed_reference_time (count : nat) :
  forall (f : Sp3FileReader) (s s' : GnssSatellites),
    snd (seed count f s) = Ok (tt, s') -> reference_time_ s' = reference_time_ s.
Proof.
  induction count as [|c IH]; intros f s s'.
  - simpl. intros H; injection H as <-. reflexivity.
  - cbn [seed]. rewrite bind_get, bind_run.
    destruct (for_loop_push_spec f (N.to_nat (number_of_calculated_gnss_satellites_ s)) 0 s)
      as (_ & _ & Hs). cbv zeta in Hs.
    destruct (for_loop _ 0 (push_epoch_sample f) s) as [t [[u s1]|]]; cbn [fst snd] in *;
      [|discriminate].
    destruct (Hs u s1 eq_refl) as [Hc _]. clear Hs.
    assert (Href : reference_time_ s1 = reference_time_ s)
      by (unfold control in Hc; injection Hc; intros; congruence).
    rewrite bind_run, advance_epoch_run. cbv zeta.
    destruct (GetNumberOfEpoch f <=? size_succ (reference_interpolation_id_ s1)).
    + destruct (nth_error (sp3_files_ s1) (N.to_nat (size_succ (sp3_file_id_ s1)))) as [g|];
        [|discriminate].
      cbn [snd]. intros H. apply IH in H. cbn in H. congruence.
    + cbn [snd]. intros H. apply IH in H. cbn in H. congruence.
Qed.

(** What the seeding loop pushes, round by round, on an object with one
    buffer pair per tracked satellite: for every epoch it consumes, the
    sample of that epoch for every tracked satellite, all offsets measured
    from the one [reference_time_]. *)
Lemma seed_pushes_consumed (rounds : nat) :
  forall (f : Sp3FileReader) (s : GnssSatellites),
    List.length (orbit_ s) = N.to_nat (number_of_calculated_gnss_satellites_ s) ->
    List.length (clock_ s) = N.to_nat (number_of_calculated_gnss_satellites_ s) ->
    filter is_push (fst (seed rounds f s))
    = flat_map (fun c => epoch_pushes (fst c) (snd c) (reference_time_ s)
                                      (N.to_nat (number_of_calculated_gnss_satellites_ s)) 0)
               (consumed_epochs (sp3_files_ s) f (sp3_file_id_ s)
                                (reference_interpolation_id_ s) rounds).
Proof.
  induction rounds as [|r IH]; intros f s Ho Hk; [reflexivity|].
  cbn [seed consumed_epochs flat_map fst snd]. rewrite bind_get, bind_run.
  destruct (for_loop_push_returns f (N.to_nat (number_of_calculated_gnss_satellites_ s)) 0 s)
    as (s1 & Hrun & Hc & Hlo & Hlk); [cbn; lia|cbn; lia|].
  rewrite Hrun, bind_run, advance_epoch_run. cbv zeta.
  assert (Hc' := Hc). unfold control in Hc'.
  injection Hc' as Hcalc Hlog Hfiles Hnumber Hfid Href Hid Hcur.
  rewrite Hid, Hfid, Hfiles, sample_pushes_epoch.
  destruct (GetNumberOfEpoch f <=? size_succ (reference_interpolation_id_ s)).
  - assert (Hquiet : forall b : bool, filter is_push (if b then [range_over_line] else []) = [])
      by (intros [|]; reflexivity).
    destruct (nth_error (sp3_files_ s) (N.to_nat (size_succ (sp3_file_id_ s)))) as [g|].
    + cbn [fst snd]. rewrite !filter_app, filter_push_epoch_pushes, Hquiet. cbn [app].
      f_equal. rewrite IH by (cbn; congruence). cbn. rewrite Hfiles, Hnumber, Href. reflexivity.
    + cbn [fst snd flat_map]. rewrite !filter_app, filter_push_epoch_pushes, Hquiet. reflexivity.
  - cbn [fst snd app]. rewrite !filter_app, filter_push_epoch_pushes.
    f_equal. rewrite IH by (cbn; congruence). cbn. rewrite Hfiles, Hnumber, Href, Hfid. reflexivity.
Qed.

(** C5 (reference time).  [reference_time_] is assigned once, in [Initialize]
    before the seeding loop -- the time of the epoch at the initial epoch
    index of the selected file -- and nothing re-anchors it afterwards: the
    seeding loop and an [Update] that returns leave it as it was, also when the
    epoch index resets and the file index advances.  Every sample pushed
    carries the time of its own epoch minus that one reference time: a push of
    [Update] is the sample of the epoch at [reference_interpolation_id_] of the
    active file, and after an [Update] every orbit and clock buffer of the
    object is either the old one or the old one with that sample pushed into
    it; the pushes of [Initialize] are, epoch by epoch in the order the
    seeding loop consumes them across the file list, the samples of those
    epochs for every tracked satellite. *)
Theorem reference_time_set_once :
  (forall (current_date_time : DateTime) (s s' : GnssSatellites) (t : list event)
          (f : Sp3FileReader),
      Update current_date_time s = (t, Ok (tt, s')) ->
      active_file s = Some f ->
      reference_time_ s' = reference_time_ s
      /\ (forall e, In e t -> is_push e = true ->
            sample_of_epoch f (reference_interpolation_id_ s) (reference_time_ s) e)
      /\ (forall j,
            (nth_error (orbit_ s') (N.to_nat j) = nth_error (orbit_ s) (N.to_nat j)
             /\ nth_error (clock_ s') (N.to_nat j) = nth_error (clock_ s) (N.to_nat j))
            \/ exists o k,
                 nth_error (orbit_ s) (N.to_nat j) = Some o
                 /\ nth_error (clock_ s) (N.to_nat j) = Some k
                 /\ nth_error (orbit_ s') (N.to_nat j)
                    = Some (PushAndPopData
                              (epoch_offset f (reference_interpolation_id_ s) (reference_time_ s))
                              (epoch_position_m f (reference_interpolation_id_ s) j) o)
                 /\ nth_error (clock_ s') (N.to_nat j)
                    = Some (PushAndPopData
                              (epoch_offset f (reference_interpolation_id_ s) (reference_time_ s))
                              (epoch_clock f (reference_interpolation_id_ s) j) k)))
  /\ (forall (sp3_files : list Sp3FileReader) (start_time : EpochTime) (s : GnssSatellites)
             (i : N) (f : Sp3FileReader),
         scan_sp3_files sp3_files 0 start_time = Some (i, f) ->
         let s0 := ready_to_seed f i start_time
                     (set_current_epoch_time start_time (set_sp3_files sp3_files s)) in
         reference_time_ s0
         = EpochTime_of_DateTime (GetEpochData f (reference_interpolation_id_ s0))
         /\ filter is_push (fst (Initialize sp3_files start_time s))
            = flat_map (fun c => epoch_pushes (fst c) (snd c) (reference_time_ s0)
                                              (N.to_nat (GetNumberOfSatellites f)) 0)
                       (consumed_epochs sp3_files f i (reference_interpolation_id_ s0) 9)
         /\ forall t s',
              Initialize sp3_files start_time s = (t, Ok (tt, s')) ->
              reference_time_ s' = reference_time_ s0).
Proof.
  split.
  - intros dt s s' t f Hrun Hf. rewrite Update_run, Hf in Hrun.
    destruct (negb (IsCalcEnabled s));
      [injection Hrun as <- <-; split; [reflexivity|split; [intros e []|auto]]|].
    cbv zeta in Hrun.
    destruct (medium_time s) as [m|]; [|discriminate].
    destruct (m <? update_offset dt s)%float;
      [|injection Hrun as <- <-; split; [reflexivity|split; [intros e []|auto]]].
    destruct (refill_spec f (set_current_epoch_time (EpochTime_of_DateTime dt) s))
      as (He & _ & Hs).
    assert (Hpushed := @refill_buffers _ f (set_current_epoch_time (EpochTime_of_DateTime dt) s) s').
    rewrite Hrun in He, Hs, Hpushed. cbn [fst snd] in He, Hs, Hpushed.
    destruct (Hs s' eq_refl) as (Href & _ & Hframe). split; [exact Href|]. split.
    + intros e Hin Hpush. destruct (He e Hin) as [->|Hev]; [discriminate|].
      apply sample_event_of_epoch in Hev. exact Hev.
    + intros j. destruct (N.lt_ge_cases j 32) as [Hlt|Hge].
      * right. exact (Hpushed eq_refl j Hlt).
      * left. exact (Hframe j Hge).
  - intros files start s i f Hscan s0.
    destruct (ready_to_seed_fields f i start
                (set_current_epoch_time start (set_sp3_files files s)))
      as (Hfiles & _ & _ & Hnumber & Hfid & Href & Hlo & Hlk).
    change (sp3_files_ s0 = files) in Hfiles.
    fold s0 in Hnumber, Hfid, Href, Hlo, Hlk.
    assert (Hhead : exists g, nth_error files 0 = Some g).
    { destruct (scan_position _ _ _ Hscan) as (k & _ & Hk & _).
      destruct files as [|g rest]; [destruct k; discriminate|]. exists g. reflexivity. }
    destruct Hhead as [g Hhead].
    assert (Hrun : Initialize files start s = seed 9 f s0).
    { rewrite Initialize_run. cbv zeta. rewrite Hhead, Hscan. reflexivity. }
    split; [exact Href|]. split.
    + rewrite Hrun, seed_pushes_consumed by (rewrite Hnumber; assumption).
      rewrite Hfiles, Hnumber, Hfid. reflexivity.
    + intros t s' Hok. rewrite Hrun in Hok.
      apply (@seed_reference_time 9 f s0 s'). rewrite Hok. reflexivity.
Qed.

(** *** One buffer per tracked satellite *)

Lemma for_loop_push_lengths (f : Sp3FileReader) (count : nat) :
  forall (first : N) (s s' : GnssSatellites) (u : unit),
    snd (for_loop count first (push_epoch_sample f) s) = Ok (u, s') ->
    List.length (orbit_ s') = List.length (orbit_ s)
    /\ List.length (clock_ s') = List.length (clock_ s).
Proof.
  induction count as [|c IH]; intros first s s' u.
  - simpl. intros H; injection H as _ <-. auto.
  - cbn [for_loop]. rewrite bind_run, push_epoch_sample_run.
    destruct (nth_error (orbit_ s) (N.to_nat first)) as [o|]; [|discriminate].
    destruct (nth_error (clock_ s) (N.to_nat first)) as [k|]; [|discriminate].
    cbn [snd]. intros H. apply IH in H. unfold pushed in H.
    cbn [orbit_ clock_ set_clock set_orbit] in H. rewrite !list_update_length in H. exact H.
Qed.

Lemma seed_lengths (count : nat) :
  forall (f : Sp3FileReader) (s s' : GnssSatellites),
    snd (seed count f s) = Ok (tt, s') ->
    List.length (orbit_ s') = List.length (orbit_ s)
    /\ List.length (clock_ s') = List.length (clock_ s)
    /\ number_of_calculated_gnss_satellites_ s' = number_of_calculated_gnss_satellites_ s.
Proof.
  induction count as [|c IH]; intros f s s'.
  - simpl. intros H; injection H as <-. auto.
  - cbn [seed]. rewrite bind_get, bind_run.
    destruct (for_loop_push_spec f (N.to_nat (number_of_calculated_gnss_satellites_ s)) 0 s)
      as (_ & _ & Hs). cbv zeta in Hs.
    destruct (for_loop _ 0 (push_epoch_sample f) s) as [t [[u s1]|]] eqn:Hloop;
      cbn [fst snd] in *; [|discriminate].
    destruct (Hs u s1 eq_refl) as [Hc _]. clear Hs.
    destruct (@for_loop_push_lengths f (N.to_nat (number_of_calculated_gnss_satellites_ s))
                0 s s1 u) as [Hlo Hlk]; [rewrite Hloop; reflexivity|].
    assert (Hnumber : number_of_calculated_gnss_satellites_ s1
                      = number_of_calculated_gnss_satellites_ s)
      by (unfold control in Hc; injection Hc; intros; assumption).
    rewrite bind_run, advance_epoch_run. cbv zeta.
    destruct (GetNumberOfEpoch f <=? size_succ (reference_interpolation_id_ s1)).
    + destruct (nth_error (sp3_files_ s1) (N.to_nat (size_succ (sp3_file_id_ s1)))) as [g|];
        [|discriminate].
      cbn [snd]. intros H. apply IH in H.
      cbn [orbit_ clock_ number_of_calculated_gnss_satellites_ set_sp3_file_id
           set_reference_interpolation_id] in H.
      rewrite Hlo, Hlk, Hnumber in H. exact H.
    + cbn [snd]. intros H. apply IH in H.
      cbn [orbit_ clock_ number_of_calculated_gnss_satellites_
           set_reference_interpolation_id] in H.
      rewrite Hlo, Hlk, Hnumber in H. exact H.
Qed.

(** A manager that [Initialize] has seeded holds exactly one orbit and one
    clock buffer per tracked satellite: the buffer indices are
    0 .. [number_of_calculated_gnss_satellites_] - 1. *)
Lemma Initialize_one_buffer_per_satellite
    (sp3_files : list Sp3FileReader) (start_time : EpochTime)
    (s s' : GnssSatellites) (t : list event) (i : N) (f : Sp3FileReader) :
  Initialize sp3_files start_time s = (t, Ok (tt, s')) ->
  scan_sp3_files sp3_files 0 start_time = Some (i, f) ->
  List.length (orbit_ s') = N.to_nat (number_of_calculated_gnss_satellites_ s')
  /\ List.length (clock_ s') = N.to_nat (number_of_calculated_gnss_satellites_ s').
Proof.
  intros Hrun Hscan. rewrite Initialize_run in Hrun. cbv zeta in Hrun.
  destruct (nth_error sp3_files 0); [|discriminate]. rewrite Hscan in Hrun.
  assert (H : snd (seed 9 f (ready_to_seed f i start_time
                               (set_current_epoch_time start_time (set_sp3_files sp3_files s))))
              = Ok (tt, s')) by (rewrite Hrun; reflexivity).
  apply seed_lengths in H. destruct H as (Ho & Hk & Hn). rewrite Ho, Hk, Hn.
  unfold ready_to_seed. cbv zeta.
  destruct (kNumberOfInterpolation / 2 <=? SearchNearestEpochId f start_time);
    cbn; rewrite !repeat_length; auto.
Qed.

End InitializeProperties.

(** ** Exhaustion of the file list *)

Section Exhaustion.

Context {collaborators : Collaborators}.

(** Once the epoch index runs past the last epoch of the last file source,
    the "File update" block prints its line and then indexes the file list
    one past its end. *)
Lemma advance_epoch_past_last_file (f : Sp3FileReader) (s : GnssSatellites) :
  GetNumberOfEpoch f <= size_succ (reference_interpolation_id_ s) ->
  N.of_nat (List.length (sp3_files_ s)) <= size_succ (sp3_file_id_ s) ->
  advance_epoch f s = ([range_over_line], OutOfRange).
Proof.
  intros Hepoch Hfiles. rewrite advance_epoch_run. cbv zeta.
  apply N.leb_le in Hepoch. rewrite Hepoch.
  assert (Hnone : nth_error (sp3_files_ s) (N.to_nat (size_succ (sp3_file_id_ s))) = None).
  { apply nth_error_None. lia. }
  apply N.leb_le in Hfiles. rewrite Hfiles, Hnone. reflexivity.
Qed.

(** C4 (running out of file sources).  When a triggered refill consumes the
    last epoch of the last file source of the list, [Update] does not return:
    after the "range over" line the file list is indexed one past its end. *)
Theorem Update_past_last_file_out_of_range :
  forall (current_date_time : DateTime) (s : GnssSatellites) (f : Sp3FileReader) (m : double),
    IsCalcEnabled s = true ->
    active_file s = Some f ->
    medium_time s = Some m ->
    (m <? update_offset current_date_time s)%float = true ->
    GetNumberOfEpoch f <= size_succ (reference_interpolation_id_ s) ->
    N.of_nat (List.length (sp3_files_ s)) <= size_succ (sp3_file_id_ s) ->
    snd (Update current_date_time s) = OutOfRange
    /\ (32 <= List.length (orbit_ s) -> 32 <= List.length (clock_ s) ->
        In range_over_line (fst (Update current_date_time s)))%nat.
Proof.
  intros dt s f m Hcalc Hfile Hmid Hcmp Hepoch Hfiles.
  rewrite Update_run, Hcalc, Hfile, Hmid, Hcmp. cbn [negb]. cbv zeta.
  set (s1 := set_current_epoch_time (EpochTime_of_DateTime dt) s).
  unfold refill. rewrite bind_run.
  destruct (for_loop_push_spec f 32 0 s1) as (_ & _ & Hs). cbv zeta in Hs.
  assert (Htotal : (32 <= List.length (orbit_ s) -> 32 <= List.length (clock_ s) ->
                    exists u s2, snd (for_loop 32 0 (push_epoch_sample f) s1) = Ok (u, s2))%nat).
  { intros Ho Hk.
    assert (Hgen : forall count first s0,
               (N.to_nat first + count <= List.length (orbit_ s0))%nat ->
               (N.to_nat first + count <= List.length (clock_ s0))%nat ->
               exists u s2, snd (for_loop count first (push_epoch_sample f) s0) = Ok (u, s2)).
    { induction count as [|c IH]; intros first s0 Hlo Hlk; [exists tt, s0; reflexivity|].
      cbn [for_loop]. rewrite bind_run, push_epoch_sample_run.
      destruct (nth_error (orbit_ s0) (N.to_nat first)) as [o|] eqn:Eo;
        [|apply nth_error_None in Eo; lia].
      destruct (nth_error (clock_ s0) (N.to_nat first)) as [k|] eqn:Ek;
        [|apply nth_error_None in Ek; lia].
      cbn [snd]. apply IH; unfold pushed; cbn [orbit_ clock_ set_clock set_orbit];
        rewrite list_update_length; lia. }
    apply Hgen; assumption. }
  destruct (for_loop 32 0 (push_epoch_sample f) s1) as [t [[u s2]|]]; cbn [fst snd] in *.
  - destruct (Hs u s2 eq_refl) as [Hc _].
    assert (Hid : reference_interpolation_id_ s2 = reference_interpolation_id_ s)
      by (unfold control in Hc; injection Hc; intros; assumption).
    assert (Hfid : sp3_file_id_ s2 = sp3_file_id_ s)
      by (unfold control in Hc; injection Hc; intros; assumption).
    assert (Hfl : sp3_files_ s2 = sp3_files_ s)
      by (unfold control in Hc; injection Hc; intros; assumption).
    rewrite bind_run, advance_epoch_past_last_file by (rewrite ?Hid, ?Hfid, ?Hfl; assumption).
    cbn [fst snd]. split; [reflexivity|]. intros _ _. apply in_or_app. right. left. reflexivity.
  - split; [reflexivity|]. intros Ho Hk. destruct (Htotal Ho Hk) as (u & s2 & H). discriminate.
Qed.

End Exhaustion.

(** ** The getters *)

Section Getters.

Context {collaborators : Collaborators}.

(** Above the tracked count the getters answer with the sentinels. *)
Lemma getters_above_count (s : GnssSatellites) (gnss_satellite_id : N) (time : EpochTime) :
  number_of_calculated_gnss_satellites_ s < gnss_satellite_id ->
  GetPosition_ecef_m s gnss_satellite_id time = Ok (Vector3_fill 0)
  /\ GetClock_s s gnss_satellite_id time = Ok 0%float.
Proof.
  intros H. apply N.ltb_lt in H. unfold GetPosition_ecef_m, GetClock_s. rewrite H. auto.
Qed.

(** C1 (untracked ids).  The guard of the getters is [id > count], not
    [id >= count]: at the id equal to the tracked count, with one buffer per
    tracked satellite (as [Initialize] leaves the object) and a target time
    inside the window, neither getter answers with its sentinel; both index
    their buffer vector one past its end. *)
Theorem getters_at_count_out_of_range :
  forall (s : GnssSatellites) (time : EpochTime),
    List.length (orbit_ s) = N.to_nat (number_of_calculated_gnss_satellites_ s) ->
    List.length (clock_ s) = N.to_nat (number_of_calculated_gnss_satellites_ s) ->
    out_of_window (offset_from_reference s (target_time_of s time)) = false ->
    GetPosition_ecef_m s (number_of_calculated_gnss_satellites_ s) time = OutOfRange
    /\ GetClock_s s (number_of_calculated_gnss_satellites_ s) time = OutOfRange.
Proof.
  intros s time Ho Hk Hwin. unfold GetPosition_ecef_m, GetClock_s.
  rewrite N.ltb_irrefl. unfold out_of_window, offset_from_reference in Hwin. rewrite Hwin.
  assert (Hno : nth_error (orbit_ s) (N.to_nat (number_of_calculated_gnss_satellites_ s)) = None)
    by (apply nth_error_None; lia).
  assert (Hnk : nth_error (clock_ s) (N.to_nat (number_of_calculated_gnss_satellites_ s)) = None)
    by (apply nth_error_None; lia).
  rewrite Hno, Hnk. auto.
Qed.


(** C9 (the "time not given" value).  A query time whose integer-second part
    is zero, whatever its fraction, is answered as a query at the stored
    current time, by both getters. *)
Theorem zero_seconds_is_current_time :
  forall (s : GnssSatellites) (gnss_satellite_id : N) (time : EpochTime),
    GetTime_s time = 0 ->
    target_time_of s time = current_epoch_time_ s
    /\ GetPosition_ecef_m s gnss_satellite_id time
       = GetPosition_ecef_m s gnss_satellite_id (current_epoch_time_ s)
    /\ GetClock_s s gnss_satellite_id time
       = GetClock_s s gnss_satellite_id (current_epoch_time_ s).
Proof.
  intros s id time Ht.
  assert (Htarget : target_time_of s time = current_epoch_time_ s)
    by (unfold target_time_of; rewrite Ht; reflexivity).
  assert (Hcurrent : target_time_of s (current_epoch_time_ s) = current_epoch_time_ s)
    by (unfold target_time_of; destruct (GetTime_s (current_epoch_time_ s) =? 0); reflexivity).
  unfold GetPosition_ecef_m, GetClock_s. rewrite Htarget, Hcurrent. auto.
Qed.

End Getters.

(** ** Set-up *)

Section SetupProperties.

Context {collaborators : Collaborators}.

(** C8 (start date after end date).  With calculation enabled and the start
    date after the end date, [InitGnssSatellites] prints its error line and
    goes on: no product file is read and [Initialize] is called with an empty
    file list, whose element 0 it reads. *)
Theorem InitGnssSatellites_start_after_end :
  forall (fuel : nat) (ini_file : IniAccess) (start_date_time : DateTime),
    calculation ini_file = true ->
    size_t_of_int (end_date ini_file) < size_t_of_int (start_date ini_file) ->
    InitGnssSatellites fuel ini_file start_date_time =
    Some ([Cout "[ERROR] GNSS satellite initialize: start_date is larger than the end date."%string],
          Not_thrown OutOfRange).
Proof.
  intros fuel ini dt Hcalc Hdates. unfold InitGnssSatellites.
  unfold IsCalcEnabled, GnssSatellites_new at 1. cbn [is_calc_enabled_]. rewrite Hcalc. cbn [negb].
  assert (Hlt : (size_t_of_int (end_date ini) <? size_t_of_int (start_date ini)) = true)
    by (apply N.ltb_lt; exact Hdates).
  assert (Hle : (size_t_of_int (start_date ini) <=? size_t_of_int (end_date ini)) = false)
    by (apply N.leb_gt; exact Hdates).
  cbv zeta. rewrite Hlt.
  assert (Hread : forall use_sp3_for_clock,
             read_product_files fuel ini use_sp3_for_clock (size_t_of_int (start_date ini))
               (size_t_of_int (end_date ini)) [] = Some (Not_thrown [])).
  { intros use_sp3_for_clock. destruct fuel; simpl; rewrite Hle; reflexivity. }
  rewrite Hread, Initialize_run. reflexivity.
Qed.

End SetupProperties.

(** * The properties on the concrete constellation *)

Import Scenario.

(** The seeded objects are what [Initialize] returns. *)
Lemma seeded_two_files_initialized :
  snd (Initialize two_files (start_of 1) fresh) = Ok (tt, seeded_two_files).
Proof. vm_compute. reflexivity. Qed.

Lemma seeded_one_file_initialized :
  snd (Initialize one_file (start_of 1) fresh) = Ok (tt, seeded_one_file).
Proof. vm_compute. reflexivity. Qed.

(** C1 at 33 tracked satellites: id 33 at the start time. *)
Lemma getters_at_count_out_of_range_witness :
  number_of_calculated_gnss_satellites_ seeded_two_files = 33
  /\ GetPosition_ecef_m seeded_two_files 33 (start_of 1) = OutOfRange
  /\ GetClock_s seeded_two_files 33 (start_of 1) = OutOfRange.
Proof.
  split; [reflexivity|].
  apply (getters_at_count_out_of_range seeded_two_files (start_of 1)); reflexivity.
Defined.

Lemma printed_range_over_In (t : list event) :
  printed_range_over t = true -> In range_over_line t.
Proof.
  unfold printed_range_over. intros H. apply existsb_exists in H.
  destruct H as (e & Hin & He). destruct e as [line| |]; try discriminate.
  apply String.eqb_eq in He. subst line. exact Hin.
Qed.

(** C2 at 33 tracked satellites: a triggered refill moves the window of
    satellite 0 and passes satellite 32 by. *)
Lemma Update_leaves_satellites_from_32_witness :
  let run := Update past_middle seeded_two_files in
  let s' := state_after run fresh in
  (number_of_calculated_gnss_satellites_ seeded_two_files = 33
   /\ orbit_times seeded_two_files 0 = Some [0; 900; 1800; 2700; 3600; 4500; 5400; 6300; 7200]%float
   /\ orbit_times s' 0 = Some [900; 1800; 2700; 3600; 4500; 5400; 6300; 7200; 8100]%float
   /\ orbit_times s' 32 = Some [0; 900; 1800; 2700; 3600; 4500; 5400; 6300; 7200]%float)
  /\ (nth_error (orbit_ s') (N.to_nat 32) = nth_error (orbit_ seeded_two_files) (N.to_nat 32)
      /\ nth_error (clock_ s') (N.to_nat 32) = nth_error (clock_ seeded_two_files) (N.to_nat 32)
      /\ orbit_pushes 32 (fst run) = 0%nat
      /\ clock_pushes 32 (fst run) = 0%nat).
Proof.
  cbv zeta. split.
  - repeat split; vm_compute; reflexivity.
  - apply (@Update_leaves_satellites_from_32 _ past_middle seeded_two_files
             (state_after (Update past_middle seeded_two_files) fresh)
             (fst (Update past_middle seeded_two_files)) 32);
      [vm_compute; reflexivity|vm_compute; discriminate].
Defined.

(** C3 one second past the middle sample, whose time offset is 3600 s (the
    window of satellite 0 moves on by one epoch), and one second before it
    (no push, the buffers stay). *)
Lemma Update_pushes_iff_past_middle_witness :
  let fired := Update past_middle seeded_two_files in
  let idle := Update before_middle seeded_two_files in
  (existsb is_push (fst fired) = true
   /\ (3600 <? update_offset past_middle seeded_two_files)%float = true
   /\ orbit_times seeded_two_files 0
      = Some [0; 900; 1800; 2700; 3600; 4500; 5400; 6300; 7200]%float
   /\ orbit_times (state_after fired fresh) 0
      = Some [900; 1800; 2700; 3600; 4500; 5400; 6300; 7200; 8100]%float
   /\ exists o k,
        nth_error (orbit_ seeded_two_files) (N.to_nat 0) = Some o
        /\ nth_error (clock_ seeded_two_files) (N.to_nat 0) = Some k
        /\ nth_error (orbit_ (state_after fired fresh)) (N.to_nat 0)
           = Some (PushAndPopData (sample_offset (regular_file 1 10 33) seeded_two_files)
                                  (sample_position_m (regular_file 1 10 33) seeded_two_files 0) o)
        /\ nth_error (clock_ (state_after fired fresh)) (N.to_nat 0)
           = Some (PushAndPopData (sample_offset (regular_file 1 10 33) seeded_two_files)
                                  (sample_clock (regular_file 1 10 33) seeded_two_files 0) k))
  /\ (existsb is_push (fst idle) = false
      /\ (3600 <? update_offset before_middle seeded_two_files)%float = false
      /\ returned (snd idle) = true
      /\ orbit_ (state_after idle fresh) = orbit_ seeded_two_files
      /\ clock_ (state_after idle fresh) = clock_ seeded_two_files).
Proof.
  cbv zeta.
  assert (Hcalc : IsCalcEnabled seeded_two_files = true) by reflexivity.
  assert (Hfile : active_file seeded_two_files = Some (regular_file 1 10 33))
    by (vm_compute; reflexivity).
  assert (Hmid : medium_time seeded_two_files = Some 3600%float) by (vm_compute; reflexivity).
  assert (Hpast : (3600 <? update_offset past_middle seeded_two_files)%float = true)
    by (vm_compute; reflexivity).
  assert (Hbefore : (3600 <? update_offset before_middle seeded_two_files)%float = false)
    by (vm_compute; reflexivity).
  assert (Hfired : Update past_middle seeded_two_files
                   = (fst (Update past_middle seeded_two_files),
                      Ok (tt, state_after (Update past_middle seeded_two_files) fresh)))
    by (vm_compute; reflexivity).
  assert (Hidle : Update before_middle seeded_two_files
                  = (fst (Update before_middle seeded_two_files),
                     Ok (tt, state_after (Update before_middle seeded_two_files) fresh)))
    by (vm_compute; reflexivity).
  destruct (@Update_pushes_iff_past_middle Scenario.collaborators past_middle seeded_two_files
              (regular_file 1 10 33) 3600%float Hcalc Hfile Hmid) as (_ & Hiff & Hobject & _).
  destruct (@Update_pushes_iff_past_middle Scenario.collaborators before_middle seeded_two_files
              (regular_file 1 10 33) 3600%float Hcalc Hfile Hmid) as (_ & Hiff' & Hobject' & Hret).
  destruct (Hobject _ _ Hfired) as [Hpushed _].
  destruct (Hobject' _ _ Hidle) as [_ Hkept].
  destruct (Hkept Hbefore) as [Horbit Hclock].
  split.
  - split; [apply Hiff; exact Hpast|]. split; [exact Hpast|].
    split; [vm_compute; reflexivity|]. split; [vm_compute; reflexivity|].
    apply (Hpushed Hpast 0). reflexivity.
  - split.
    { destruct (existsb is_push (fst (Update before_middle seeded_two_files))) eqn:Hany;
        [|reflexivity].
      rewrite (proj1 Hiff' eq_refl) in Hbefore. discriminate. }
    split; [exact Hbefore|]. split; [exact (Hret Hbefore)|]. split; [exact Horbit|exact Hclock].
Defined.

(** C4 with a single file source of 10 epochs: the refill that consumes
    epoch 9 runs off the file list. *)
Lemma Update_past_last_file_out_of_range_witness :
  snd (Update past_middle seeded_one_file) = OutOfRange
  /\ In range_over_line (fst (Update past_middle seeded_one_file)).
Proof.
  assert (Hcalc : IsCalcEnabled seeded_one_file = true) by reflexivity.
  assert (Hfile : active_file seeded_one_file = Some (regular_file 1 10 33))
    by (vm_compute; reflexivity).
  assert (Hmid : medium_time seeded_one_file = Some 3600%float) by (vm_compute; reflexivity).
  assert (Hcmp : (3600 <? update_offset past_middle seeded_one_file)%float = true)
    by (vm_compute; reflexivity).
  assert (Hepoch : GetNumberOfEpoch (regular_file 1 10 33)
                   <= size_succ (reference_interpolation_id_ seeded_one_file))
    by (vm_compute; discriminate).
  assert (Hlist : N.of_nat (List.length (sp3_files_ seeded_one_file))
                  <= size_succ (sp3_file_id_ seeded_one_file))
    by (vm_compute; discriminate).
  destruct (@Update_past_last_file_out_of_range Scenario.collaborators past_middle seeded_one_file
              (regular_file 1 10 33) 3600%float
              Hcalc Hfile Hmid Hcmp Hepoch Hlist) as [Hout Hline].
  split; [exact Hout|]. apply Hline; vm_compute; lia.
Defined.

(** One file source, 9 epochs at 900 s spacing, 2 satellites, start time at
    epoch 0: seeding consumes the ninth epoch, prints the "range over" line and
    indexes the file list one past its end. *)
Lemma Initialize_single_nine_epoch_file_out_of_range :
  In range_over_line (fst (Initialize one_short_file (start_of 1) fresh))
  /\ orbit_pushes 0 (fst (Initialize one_short_file (start_of 1) fresh)) = 9%nat
  /\ snd (Initialize one_short_file (start_of 1) fresh) = OutOfRange.
Proof.
  split; [|split]; [|vm_compute; reflexivity|vm_compute; reflexivity].
  apply printed_range_over_In. vm_compute. reflexivity.
Qed.

(** C5, as stated, fails at the first refill after seeding from two file
    sources of 10 epochs each: the epoch index resets to 0 and the file index
    advances to the second file, whose first epoch is a day later, and the
    reference time stays at the first epoch of the first file. *)
Lemma rollover_keeps_reference_time :
  let s := seeded_two_files in
  let run := Update past_middle s in
  let s' := state_after run fresh in
  returned (snd run) = true
  /\ reference_interpolation_id_ s = 9 /\ reference_interpolation_id_ s' = 0
  /\ sp3_file_id_ s = 0 /\ sp3_file_id_ s' = 1
  /\ active_file s' = Some (regular_file 2 10 33)
  /\ EpochTime_of_DateTime (GetEpochData (regular_file 2 10 33) 0) = start_of 2
  /\ reference_time_ s = start_of 1
  /\ reference_time_ s' = start_of 1
  /\ start_of 2 <> start_of 1.
Proof.
  cbv zeta. repeat split; try (vm_compute; reflexivity).
  vm_compute. intros H. discriminate H.
Qed.

(** C5 on the same run, and on the seeding that precedes it: nine epochs of
    the first file source, its offsets measured from its first epoch. *)
Lemma reference_time_set_once_witness :
  let s0 := ready_to_seed (regular_file 1 10 33) 0 (start_of 1)
              (set_current_epoch_time (start_of 1) (set_sp3_files two_files fresh)) in
  (reference_time_ (state_after (Update past_middle seeded_two_files) fresh)
   = reference_time_ seeded_two_files
   /\ (forall e, In e (fst (Update past_middle seeded_two_files)) -> is_push e = true ->
         sample_of_epoch (regular_file 1 10 33)
                         (reference_interpolation_id_ seeded_two_files)
                         (reference_time_ seeded_two_files) e)
   /\ orbit_times (state_after (Update past_middle seeded_two_files) fresh) 0
      = Some [900; 1800; 2700; 3600; 4500; 5400; 6300; 7200; 8100]%float)
  /\ (reference_time_ s0 = start_of 1
      /\ reference_interpolation_id_ s0 = 0
      /\ filter is_push (fst (Initialize two_files (start_of 1) fresh))
         = flat_map (fun c => epoch_pushes (fst c) (snd c) (reference_time_ s0)
                                           (N.to_nat (GetNumberOfSatellites (regular_file 1 10 33))) 0)
                    (consumed_epochs two_files (regular_file 1 10 33) 0
                                     (reference_interpolation_id_ s0) 9)
      /\ reference_time_ seeded_two_files = reference_time_ s0).
Proof.
  cbv zeta.
  destruct (@reference_time_set_once Scenario.collaborators) as [HU HI].
  assert (Hrun : Update past_middle seeded_two_files
                 = (fst (Update past_middle seeded_two_files),
                    Ok (tt, state_after (Update past_middle seeded_two_files) fresh)))
    by (vm_compute; reflexivity).
  assert (Hfile : active_file seeded_two_files = Some (regular_file 1 10 33))
    by (vm_compute; reflexivity).
  assert (Hscan : scan_sp3_files two_files 0 (start_of 1) = Some (0, regular_file 1 10 33))
    by (vm_compute; reflexivity).
  assert (Hinit : Initialize two_files (start_of 1) fresh
                  = (fst (Initialize two_files (start_of 1) fresh), Ok (tt, seeded_two_files)))
    by (vm_compute; reflexivity).
  split.
  - destruct (HU past_middle seeded_two_files _ _ (regular_file 1 10 33) Hrun Hfile)
      as (Href & Hsamples & _).
    split; [exact Href|]. split; [exact Hsamples|]. vm_compute. reflexivity.
  - destruct (HI two_files (start_of 1) fresh 0 (regular_file 1 10 33) Hscan)
      as (_ & Hpushes & Hkeeps).
    split; [vm_compute; reflexivity|]. split; [vm_compute; reflexivity|].
    split; [exact Hpushes|]. exact (Hkeeps _ _ Hinit).
Defined.



(** C8 with start date 2023-002 and end date 2023-001. *)
Lemma InitGnssSatellites_start_after_end_witness :
  InitGnssSatellites 5 (mkIniAccess true true "data/" "IGS0OPSFIN_" "15M" "15M_ORB.SP3"
                                    2023002 2023001)
                     (epoch_at 2 0)
  = Some ([Cout "[ERROR] GNSS satellite initialize: start_date is larger than the end date."%string],
          Not_thrown OutOfRange).
Proof.
  apply InitGnssSatellites_start_after_end; vm_compute; reflexivity.
Defined.

(** C9 at integer seconds 0 and fraction 0.5. *)
Lemma zero_seconds_is_current_time_witness :
  target_time_of seeded_two_files (mkEpochTime 0 0.5) = current_epoch_time_ seeded_two_files
  /\ GetPosition_ecef_m seeded_two_files 0 (mkEpochTime 0 0.5)
     = GetPosition_ecef_m seeded_two_files 0 (current_epoch_time_ seeded_two_files)
  /\ GetClock_s seeded_two_files 0 (mkEpochTime 0 0.5)
     = GetClock_s seeded_two_files 0 (current_epoch_time_ seeded_two_files).
Proof.
  apply zero_seconds_is_current_time. reflexivity.
Defined.

(** C10 one second before the middle sample (nothing but the current time
    changes) and one second past it (the epoch index wraps to 0). *)
Lemma Update_single_step_and_frame_witness :
  Update before_middle seeded_two_files
  = ([], Ok (tt, set_current_epoch_time (EpochTime_of_DateTime before_middle) seeded_two_files))
  /\ reference_interpolation_id_ (state_after (Update past_middle seeded_two_files) fresh)
     <= reference_interpolation_id_ seeded_two_files + 1
  /\ (orbit_pushes 0 (fst (Update past_middle seeded_two_files)) <= 1)%nat.
Proof.
  split; [|split].
  - apply (proj2 (proj2 (@Update_single_step_and_frame _ before_middle seeded_two_files))
             (regular_file 1 10 33) 3600%float); vm_compute; reflexivity.
  - apply (proj1 (proj2 (@Update_single_step_and_frame _ past_middle seeded_two_files))).
    vm_compute. reflexivity.
  - exact (proj1 (proj1 (@Update_single_step_and_frame _ past_middle seeded_two_files) 0)).
Defined.

(** * Further properties of the manager *)

(** ** GetCurrentSp3File *)

Section FileSelection.

Context {collaborators : Collaborators}.

(** X1 (the index [GetCurrentSp3File] stores).  [GetCurrentSp3File] never
    prints and never indexes past the file list.  When it answers [true], the
    only member it has changed is [sp3_file_id_], which then addresses, inside
    the list, the very file it hands back, and that file's time range contains
    the given time; when it answers [false], the object is as it was. *)
Theorem GetCurrentSp3File_index_addresses_file :
  forall (current_time : EpochTime) (s : GnssSatellites),
    match GetCurrentSp3File current_time s with
    | (t, Ok (Some f, s')) =>
        t = [] /\ s' = set_sp3_file_id (sp3_file_id_ s') s
        /\ active_file s' = Some f /\ covers f current_time = true
    | (t, Ok (None, s')) => t = [] /\ s' = s
    | (_, OutOfRange) => False
    end.
Proof.
  intros t s. unfold GetCurrentSp3File. rewrite bind_get.
  destruct (scan_sp3_files (sp3_files_ s) 0 t) as [[j f]|] eqn:Hscan.
  - rewrite bind_modify. cbn. apply scan_position in Hscan.
    destruct Hscan as (k & -> & Hk & Hc). split; [reflexivity|]. split; [reflexivity|].
    split; [|exact Hc]. unfold active_file. cbn.
    rewrite Nat2N.id. exact Hk.
  - cbn. auto.
Qed.

End FileSelection.

(** ** Update, case by case *)

Section UpdateCases.

Context {collaborators : Collaborators}.

Lemma refill_run_returns (f : Sp3FileReader) (s : GnssSatellites) :
  (32 <= List.length (orbit_ s))%nat ->
  (32 <= List.length (clock_ s))%nat ->
  exists s1,
    control s1 = control s
    /\ List.length (orbit_ s1) = List.length (orbit_ s)
    /\ List.length (clock_ s1) = List.length (clock_ s)
    /\ refill f s
       = (sample_pushes f s 32 0 ++ fst (advance_epoch f s1),
          match snd (advance_epoch f s1) with
          | Ok (_, s') => Ok (tt, s')
          | OutOfRange => OutOfRange
          end).
Proof.
  intros Ho Hk. destruct (for_loop_push_returns f 32 0 s) as (s1 & Hrun & Hc & Hlo & Hlk);
    [exact Ho|exact Hk|].
  exists s1. split; [exact Hc|]. split; [exact Hlo|]. split; [exact Hlk|].
  unfold refill. rewrite bind_run, Hrun, bind_run.
  destruct (advance_epoch f s1) as [t [[g s']|]]; cbn; rewrite ?app_nil_r; reflexivity.
Qed.

(** X2 (a refill inside the active file).  With calculation enabled, the
    trigger fired, at least 32 orbit and 32 clock buffers, and the next epoch
    index still inside the active file, [Update] returns: it has called
    [PushAndPopData] exactly once on the orbit and on the clock buffer of each
    of the satellites 0..31, and each of these buffers of the object is the old
    one with the sample of the current epoch index pushed into it; it has
    printed nothing, moved the epoch index on by one and kept the file
    index. *)
Theorem Update_refill_within_file :
  forall (current_date_time : DateTime) (s : GnssSatellites) (f : Sp3FileReader) (m : double),
    IsCalcEnabled s = true ->
    active_file s = Some f ->
    medium_time s = Some m ->
    (m <? update_offset current_date_time s)%float = true ->
    (32 <= List.length (orbit_ s))%nat ->
    (32 <= List.length (clock_ s))%nat ->
    size_succ (reference_interpolation_id_ s) < GetNumberOfEpoch f ->
    exists s',
      Update current_date_time s = (sample_pushes f s 32 0, Ok (tt, s'))
      /\ (forall j, orbit_pushes j (sample_pushes f s 32 0) = (if j <? 32 then 1%nat else 0%nat)
                 /\ clock_pushes j (sample_pushes f s 32 0) = (if j <? 32 then 1%nat else 0%nat))
      /\ (forall j, j < 32 ->
            exists o k,
              nth_error (orbit_ s) (N.to_nat j) = Some o
              /\ nth_error (clock_ s) (N.to_nat j) = Some k
              /\ nth_error (orbit_ s') (N.to_nat j)
                 = Some (PushAndPopData (sample_offset f s) (sample_position_m f s j) o)
              /\ nth_error (clock_ s') (N.to_nat j)
                 = Some (PushAndPopData (sample_offset f s) (sample_clock f s j) k))
      /\ reference_interpolation_id_ s' = size_succ (reference_interpolation_id_ s)
      /\ sp3_file_id_ s' = sp3_file_id_ s
      /\ current_epoch_time_ s' = EpochTime_of_DateTime current_date_time.
Proof.
  intros dt s f m Hcalc Hfile Hmid Hcmp Ho Hk Hepoch.
  assert (Hreturns : exists s',
             Update dt s = (sample_pushes f s 32 0, Ok (tt, s'))
             /\ reference_interpolation_id_ s' = size_succ (reference_interpolation_id_ s)
             /\ sp3_file_id_ s' = sp3_file_id_ s
             /\ current_epoch_time_ s' = EpochTime_of_DateTime dt).
  { rewrite Update_run, Hcalc, Hfile, Hmid, Hcmp. cbn [negb]. cbv zeta.
    set (s0 := set_current_epoch_time (EpochTime_of_DateTime dt) s).
    destruct (refill_run_returns f s0) as (s1 & Hc & _ & _ & Hrun); [exact Ho|exact Hk|].
    rewrite Hrun, advance_epoch_run. cbv zeta.
    assert (Hid : reference_interpolation_id_ s1 = reference_interpolation_id_ s)
      by (unfold control in Hc; injection Hc; intros; assumption).
    assert (Hfid : sp3_file_id_ s1 = sp3_file_id_ s)
      by (unfold control in Hc; injection Hc; intros; assumption).
    assert (Hcur : current_epoch_time_ s1 = EpochTime_of_DateTime dt)
      by (unfold control in Hc; injection Hc; intros; assumption).
    rewrite Hid. apply N.leb_gt in Hepoch. rewrite Hepoch. cbn [fst snd]. rewrite app_nil_r.
    eexists. split; [|split; [|split]].
    - rewrite (@sample_pushes_same _ f s s0 32 eq_refl eq_refl). reflexivity.
    - reflexivity.
    - exact Hfid.
    - exact Hcur. }
  destruct Hreturns as (s' & Hrun & Hid & Hfid & Hcur). exists s'.
  destruct (@Update_buffers _ dt s s' _ f m Hcalc Hfile Hmid Hrun) as [Hfired _].
  split; [exact Hrun|]. split; [|split; [exact (Hfired Hcmp)|auto]].
  intros j. destruct (sample_pushes_orbit_count f s 32 0 j) as [-> ->].
  replace (0 + N.of_nat 32) with 32 by reflexivity.
  destruct (N.leb_spec 0 j); [|lia]. cbn [andb]. auto.
Qed.

(** X3 (a refill that rolls over to the next file).  With calculation enabled,
    the trigger fired, at least 32 orbit and 32 clock buffers, the epoch
    index on the last epoch of the active file and a file after it in the
    list, [Update] returns: the same 64 calls of [PushAndPopData], each orbit
    and clock buffer of the satellites 0..31 of the object is the old one with
    the sample of that last epoch pushed into it, nothing is printed, the
    epoch index is back at 0 and the file index on the next file. *)
Theorem Update_refill_rolls_to_next_file :
  forall (current_date_time : DateTime) (s : GnssSatellites) (f g : Sp3FileReader) (m : double),
    IsCalcEnabled s = true ->
    active_file s = Some f ->
    medium_time s = Some m ->
    (m <? update_offset current_date_time s)%float = true ->
    (32 <= List.length (orbit_ s))%nat ->
    (32 <= List.length (clock_ s))%nat ->
    GetNumberOfEpoch f <= size_succ (reference_interpolation_id_ s) ->
    nth_error (sp3_files_ s) (N.to_nat (size_succ (sp3_file_id_ s))) = Some g ->
    exists s',
      Update current_date_time s = (sample_pushes f s 32 0, Ok (tt, s'))
      /\ (forall j, j < 32 ->
            exists o k,
              nth_error (orbit_ s) (N.to_nat j) = Some o
              /\ nth_error (clock_ s) (N.to_nat j) = Some k
              /\ nth_error (orbit_ s') (N.to_nat j)
                 = Some (PushAndPopData (sample_offset f s) (sample_position_m f s j) o)
              /\ nth_error (clock_ s') (N.to_nat j)
                 = Some (PushAndPopData (sample_offset f s) (sample_clock f s j) k))
      /\ reference_interpolation_id_ s' = 0
      /\ sp3_file_id_ s' = size_succ (sp3_file_id_ s)
      /\ active_file s' = Some g.
Proof.
  intros dt s f g m Hcalc Hfile Hmid Hcmp Ho Hk Hepoch Hnext.
  assert (Hreturns : exists s',
             Update dt s = (sample_pushes f s 32 0, Ok (tt, s'))
             /\ reference_interpolation_id_ s' = 0
             /\ sp3_file_id_ s' = size_succ (sp3_file_id_ s)
             /\ active_file s' = Some g).
  { rewrite Update_run, Hcalc, Hfile, Hmid, Hcmp. cbn [negb]. cbv zeta.
    set (s0 := set_current_epoch_time (EpochTime_of_DateTime dt) s).
    destruct (refill_run_returns f s0) as (s1 & Hc & _ & _ & Hrun); [exact Ho|exact Hk|].
    rewrite Hrun, advance_epoch_run. cbv zeta.
    assert (Hid : reference_interpolation_id_ s1 = reference_interpolation_id_ s)
      by (unfold control in Hc; injection Hc; intros; assumption).
    assert (Hfid : sp3_file_id_ s1 = sp3_file_id_ s)
      by (unfold control in Hc; injection Hc; intros; assumption).
    assert (Hfl : sp3_files_ s1 = sp3_files_ s)
      by (unfold control in Hc; injection Hc; intros; assumption).
    rewrite Hid, Hfid, Hfl. apply N.leb_le in Hepoch. rewrite Hepoch, Hnext.
    assert (Hin : (N.to_nat (size_succ (sp3_file_id_ s)) < List.length (sp3_files_ s))%nat)
      by (apply nth_error_Some; congruence).
    assert (Hquiet : (N.of_nat (List.length (sp3_files_ s)) <=? size_succ (sp3_file_id_ s)) = false)
      by (apply N.leb_gt; lia).
    rewrite Hquiet. cbn [fst snd]. rewrite app_nil_r.
    eexists. split; [|split; [|split]].
    - rewrite (@sample_pushes_same _ f s s0 32 eq_refl eq_refl). reflexivity.
    - reflexivity.
    - reflexivity.
    - unfold active_file. cbn. rewrite Hfl. exact Hnext. }
  destruct Hreturns as (s' & Hrun & Hid & Hfid & Hactive). exists s'.
  destruct (@Update_buffers _ dt s s' _ f m Hcalc Hfile Hmid Hrun) as [Hfired _].
  split; [exact Hrun|]. split; [exact (Hfired Hcmp)|auto].
Qed.

(** X4 (a refill with fewer than 32 satellites).  With calculation enabled,
    the trigger fired and fewer than 32 buffer pairs, [Update] does not
    return: it pushes once into each buffer there is and then indexes
    [orbit_] one past its end; the epoch index is never advanced. *)
Theorem Update_refill_with_fewer_than_32_buffers :
  forall (current_date_time : DateTime) (s : GnssSatellites) (f : Sp3FileReader) (m : double),
    IsCalcEnabled s = true ->
    active_file s = Some f ->
    medium_time s = Some m ->
    (m <? update_offset current_date_time s)%float = true ->
    List.length (clock_ s) = List.length (orbit_ s) ->
    (List.length (orbit_ s) < 32)%nat ->
    Update current_date_time s = (sample_pushes f s (List.length (orbit_ s)) 0, OutOfRange).
Proof.
  intros dt s f m Hcalc Hfile Hmid Hcmp Hlen Hfew.
  rewrite Update_run, Hcalc, Hfile, Hmid, Hcmp. cbn [negb]. cbv zeta.
  set (s0 := set_current_epoch_time (EpochTime_of_DateTime dt) s).
  unfold refill. rewrite bind_run, for_loop_push_short; cbn [orbit_ clock_ s0 set_current_epoch_time];
    try (exact Hlen); try (cbn; lia).
  subst s0. cbn [orbit_ set_current_epoch_time]. rewrite Nat.sub_0_r.
  rewrite (@sample_pushes_same _ f s (set_current_epoch_time (EpochTime_of_DateTime dt) s)
             _ eq_refl eq_refl).
  reflexivity.
Qed.

Lemma refill_frame (f : Sp3FileReader) (s s' : GnssSatellites) :
  snd (refill f s) = Ok (tt, s') ->
  sp3_files_ s' = sp3_files_ s
  /\ number_of_calculated_gnss_satellites_ s' = number_of_calculated_gnss_satellites_ s
  /\ is_calc_enabled_ s' = is_calc_enabled_ s
  /\ is_log_enabled_ s' = is_log_enabled_ s
  /\ current_epoch_time_ s' = current_epoch_time_ s
  /\ List.length (orbit_ s') = List.length (orbit_ s)
  /\ List.length (clock_ s') = List.length (clock_ s).
Proof.
  unfold refill. rewrite bind_run.
  destruct (for_loop_push_spec f 32 0 s) as (_ & _ & Hs). cbv zeta in Hs.
  assert (Hlen := @for_loop_push_lengths _ f 32 0 s).
  destruct (for_loop 32 0 (push_epoch_sample f) s) as [t [[u s1]|]]; cbn [fst snd] in *;
    [|discriminate].
  destruct (Hs u s1 eq_refl) as [Hc _]. destruct (Hlen s1 u eq_refl) as [Hlo Hlk].
  unfold control in Hc. injection Hc as Hcalc Hlog Hfiles Hnumber _ _ _ Hcur.
  rewrite bind_run, advance_epoch_run. cbv zeta.
  destruct (GetNumberOfEpoch f <=? size_succ (reference_interpolation_id_ s1)).
  - destruct (nth_error (sp3_files_ s1) (N.to_nat (size_succ (sp3_file_id_ s1))));
      [|discriminate].
    cbn. intros H; injection H as <-. cbn. rewrite Hlo, Hlk. auto 10.
  - cbn. intros H; injection H as <-. cbn. rewrite Hlo, Hlk. auto 10.
Qed.

(** X5 (what [Update] never touches).  An [Update] that returns has kept the
    file list, the tracked count, the two flags and the number of orbit and
    clock buffers; with calculation enabled the stored current time is the new
    time, and with calculation disabled the object is exactly as it was and
    nothing was printed or pushed. *)
Theorem Update_keeps_configuration :
  forall (current_date_time : DateTime) (s s' : GnssSatellites) (t : list event),
    Update current_date_time s = (t, Ok (tt, s')) ->
    sp3_files_ s' = sp3_files_ s
    /\ number_of_calculated_gnss_satellites_ s' = number_of_calculated_gnss_satellites_ s
    /\ is_calc_enabled_ s' = is_calc_enabled_ s
    /\ is_log_enabled_ s' = is_log_enabled_ s
    /\ List.length (orbit_ s') = List.length (orbit_ s)
    /\ List.length (clock_ s') = List.length (clock_ s)
    /\ (IsCalcEnabled s = true ->
        current_epoch_time_ s' = EpochTime_of_DateTime current_date_time)
    /\ (IsCalcEnabled s = false -> s' = s /\ t = []).
Proof.
  intros dt s s' t Hrun. rewrite Update_run in Hrun.
  destruct (IsCalcEnabled s) eqn:Hcalc; cbn [negb] in Hrun.
  2:{ injection Hrun as <- <-. repeat split; try reflexivity; discriminate. }
  cbv zeta in Hrun.
  destruct (active_file s) as [f|]; [|discriminate].
  destruct (medium_time s) as [m|]; [|discriminate].
  destruct (m <? update_offset dt s)%float.
  - assert (H : snd (refill f (set_current_epoch_time (EpochTime_of_DateTime dt) s))
                = Ok (tt, s')) by (rewrite Hrun; reflexivity).
    apply refill_frame in H. cbn in H.
    destruct H as (H1 & H2 & H3 & H4 & H5 & H6 & H7).
    repeat split; try assumption; try discriminate. intros _. exact H5.
  - injection Hrun as <- <-. cbn. repeat split; try reflexivity; discriminate.
Qed.

End UpdateCases.

(** ** Windows filled epoch by epoch *)

(** Into a buffer with room for them, the samples go in order. *)
Lemma push_epochs_with_room {V} (offset : N -> double) (value : N -> V) (c : nat) (rounds : nat) :
  forall (epoch_id : N) (l : list (double * V)),
    (List.length l + rounds <= c)%nat ->
    push_epochs offset value epoch_id rounds (mkBuffer c l)
    = mkBuffer c (l ++ epoch_samples offset value epoch_id rounds).
Proof.
  induction rounds as [|r IH]; intros epoch_id l Hroom.
  - cbn. rewrite app_nil_r. reflexivity.
  - cbn [push_epochs epoch_samples]. unfold PushAndPopData. cbn [samples capacity].
    destruct (Nat.ltb_spec (List.length l) c); [|lia].
    rewrite IH by (rewrite length_app; cbn; lia).
    rewrite <- app_assoc. reflexivity.
Qed.

(** Into a full buffer, each sample takes the place of the oldest one. *)
Lemma push_epochs_full {V} (offset : N -> double) (value : N -> V) (c : nat) (rounds : nat) :
  forall (epoch_id : N) (l : list (double * V)),
    List.length l = c ->
    (rounds <= c)%nat ->
    push_epochs offset value epoch_id rounds (mkBuffer c l)
    = mkBuffer c (skipn rounds l ++ epoch_samples offset value epoch_id rounds).
Proof.
  induction rounds as [|r IH]; intros epoch_id l Hfull Hrounds.
  - cbn. rewrite app_nil_r. reflexivity.
  - cbn [push_epochs epoch_samples]. unfold PushAndPopData. cbn [samples capacity].
    destruct (Nat.ltb_spec (List.length l) c); [lia|].
    destruct l as [|a l]; [cbn in Hfull; lia|]. cbn [tl skipn]. cbn in Hfull.
    rewrite IH by (rewrite ?length_app; cbn; lia).
    rewrite skipn_app. replace (r - List.length l)%nat with 0%nat by lia.
    cbn [skipn]. rewrite <- app_assoc. reflexivity.
Qed.

(** ** Initialize, case by case *)

Section InitializeCases.

Context {collaborators : Collaborators}.

(** The buffers [Initialize] creates before the seeding loop (lines 41-46). *)
Lemma ready_to_seed_buffers (f : Sp3FileReader) (i : N) (start_time : EpochTime)
    (s : GnssSatellites) :
  orbit_ (ready_to_seed f i start_time s)
  = repeat (InterpolationOrbit_new 9) (N.to_nat (GetNumberOfSatellites f))
  /\ clock_ (ready_to_seed f i start_time s)
     = repeat (Interpolation_new (repeat (-1)%float 9) (repeat (-1)%float 9))
              (N.to_nat (GetNumberOfSatellites f)).
Proof.
  unfold ready_to_seed. cbv zeta.
  destruct (kNumberOfInterpolation / 2 <=? SearchNearestEpochId f start_time); split; reflexivity.
Qed.

Lemma seed_pushes_same (f : Sp3FileReader) (rounds : nat) :
  forall s s',
    reference_interpolation_id_ s' = reference_interpolation_id_ s ->
    reference_time_ s' = reference_time_ s ->
    number_of_calculated_gnss_satellites_ s' = number_of_calculated_gnss_satellites_ s ->
    seed_pushes f s' rounds = seed_pushes f s rounds.
Proof.
  induction rounds as [|r IH]; intros s s' Hid Href Hn; [reflexivity|].
  cbn [seed_pushes]. rewrite Hn, (@sample_pushes_same _ f s s' _ Hid Href).
  f_equal. apply IH; cbn; congruence.
Qed.

Lemma seed_pushes_count (f : Sp3FileReader) (rounds : nat) :
  forall s j,
    orbit_pushes j (seed_pushes f s rounds)
    = (if j <? number_of_calculated_gnss_satellites_ s then rounds else 0%nat)
    /\ clock_pushes j (seed_pushes f s rounds)
       = (if j <? number_of_calculated_gnss_satellites_ s then rounds else 0%nat)
    /\ existsb is_cout (seed_pushes f s rounds) = false.
Proof.
  induction rounds as [|r IH]; intros s j.
  - cbn. destruct (j <? number_of_calculated_gnss_satellites_ s); auto.
  - cbn [seed_pushes]. rewrite orbit_pushes_app, clock_pushes_app, existsb_app.
    destruct (IH (set_reference_interpolation_id (size_succ (reference_interpolation_id_ s)) s) j)
      as (-> & -> & ->).
    destruct (sample_pushes_orbit_count f s
                (N.to_nat (number_of_calculated_gnss_satellites_ s)) 0 j) as [-> ->].
    rewrite sample_pushes_no_cout. cbn [number_of_calculated_gnss_satellites_
                                         set_reference_interpolation_id].
    rewrite N2Nat.id, N.add_0_l.
    destruct (N.leb_spec 0 j); [|lia]. cbn [andb orb].
    destruct (j <? number_of_calculated_gnss_satellites_ s); auto.
Qed.

(** Seeding rounds that stay inside the file. *)
Lemma seed_within_file (f : Sp3FileReader) (rounds : nat) :
  forall s,
    List.length (orbit_ s) = N.to_nat (number_of_calculated_gnss_satellites_ s) ->
    List.length (clock_ s) = N.to_nat (number_of_calculated_gnss_satellites_ s) ->
    reference_interpolation_id_ s + N.of_nat rounds < GetNumberOfEpoch f ->
    GetNumberOfEpoch f <= size_max ->
    exists s',
      seed rounds f s = (seed_pushes f s rounds, Ok (tt, s'))
      /\ control s'
         = control (set_reference_interpolation_id
                      (reference_interpolation_id_ s + N.of_nat rounds) s)
      /\ List.length (orbit_ s') = List.length (orbit_ s)
      /\ List.length (clock_ s') = List.length (clock_ s).
Proof.
  induction rounds as [|r IH]; intros s Ho Hk Hin Hmax.
  - exists s. cbn. rewrite N.add_0_r. destruct s; auto.
  - cbn [seed seed_pushes]. rewrite bind_get, bind_run.
    destruct (for_loop_push_returns f (N.to_nat (number_of_calculated_gnss_satellites_ s)) 0 s)
      as (s1 & Hrun & Hc & Hlo & Hlk); [cbn; lia|cbn; lia|].
    rewrite Hrun, bind_run, advance_epoch_run. cbv zeta.
    assert (Hc' := Hc). unfold control in Hc'.
    injection Hc' as Hcalc Hlog Hfiles Hnumber Hfid Href Hid Hcur.
    assert (Hsucc : size_succ (reference_interpolation_id_ s)
                    = reference_interpolation_id_ s + 1).
    { unfold size_succ. apply N.mod_small. lia. }
    rewrite Hid, Hsucc.
    assert (Hstay : (GetNumberOfEpoch f <=? reference_interpolation_id_ s + 1) = false)
      by (apply N.leb_gt; lia).
    rewrite Hstay. cbn [fst snd app].
    destruct (IH (set_reference_interpolation_id (reference_interpolation_id_ s + 1) s1))
      as (s' & Hseed & Hc2 & Hlo2 & Hlk2);
      [cbn; congruence|cbn; congruence|cbn; lia|exact Hmax|].
    exists s'. rewrite Hseed. cbn [fst snd].
    split; [|split; [|split]].
    + f_equal. f_equal. apply seed_pushes_same; cbn; congruence.
    + rewrite Hc2. unfold control.
      cbn [is_calc_enabled_ is_log_enabled_ sp3_files_ number_of_calculated_gnss_satellites_
           sp3_file_id_ reference_time_ reference_interpolation_id_ current_epoch_time_
           set_reference_interpolation_id].
      rewrite Hcalc, Hlog, Hfiles, Hnumber, Hfid, Href, Hcur.
      replace (reference_interpolation_id_ s + 1 + N.of_nat r)
        with (reference_interpolation_id_ s + N.of_nat (S r)) by lia.
      reflexivity.
    + cbn in Hlo2. congruence.
    + cbn in Hlk2. congruence.
Qed.

(** The buffers after seeding rounds that stay inside the file: into the
    buffers of every tracked satellite the samples of the consumed epochs have
    been pushed, in order. *)
Lemma seed_within_file_buffers (f : Sp3FileReader) (rounds : nat) :
  forall s s',
    List.length (orbit_ s) = N.to_nat (number_of_calculated_gnss_satellites_ s) ->
    List.length (clock_ s) = N.to_nat (number_of_calculated_gnss_satellites_ s) ->
    reference_interpolation_id_ s + N.of_nat rounds < GetNumberOfEpoch f ->
    GetNumberOfEpoch f <= size_max ->
    snd (seed rounds f s) = Ok (tt, s') ->
    forall j, j < number_of_calculated_gnss_satellites_ s ->
      exists o k,
        nth_error (orbit_ s) (N.to_nat j) = Some o
        /\ nth_error (clock_ s) (N.to_nat j) = Some k
        /\ nth_error (orbit_ s') (N.to_nat j)
           = Some (push_epochs (fun e => epoch_offset f e (reference_time_ s))
                               (fun e => epoch_position_m f e j)
                               (reference_interpolation_id_ s) rounds o)
        /\ nth_error (clock_ s') (N.to_nat j)
           = Some (push_epochs (fun e => epoch_offset f e (reference_time_ s))
                               (fun e => epoch_clock f e j)
                               (reference_interpolation_id_ s) rounds k).
Proof.
  induction rounds as [|r IH]; intros s s' Ho Hk Hin Hmax Hseed j Hj.
  - cbn in Hseed. injection Hseed as <-.
    destruct (nth_error (orbit_ s) (N.to_nat j)) as [o|] eqn:Eo;
      [|apply nth_error_None in Eo; lia].
    destruct (nth_error (clock_ s) (N.to_nat j)) as [k|] eqn:Ek;
      [|apply nth_error_None in Ek; lia].
    exists o, k. auto.
  - cbn [seed] in Hseed. rewrite bind_get, bind_run in Hseed.
    destruct (for_loop_push_returns f (N.to_nat (number_of_calculated_gnss_satellites_ s)) 0 s)
      as (s1 & Hrun & Hc & Hlo & Hlk); [cbn; lia|cbn; lia|].
    rewrite Hrun, bind_run, advance_epoch_run in Hseed. cbv zeta in Hseed.
    assert (Hc' := Hc). unfold control in Hc'.
    injection Hc' as Hcalc Hlog Hfiles Hnumber Hfid Href Hid Hcur.
    assert (Hsucc : size_succ (reference_interpolation_id_ s)
                    = reference_interpolation_id_ s + 1).
    { unfold size_succ. apply N.mod_small. lia. }
    rewrite Hid, Hsucc in Hseed.
    assert (Hstay : (GetNumberOfEpoch f <=? reference_interpolation_id_ s + 1) = false)
      by (apply N.leb_gt; lia).
    rewrite Hstay in Hseed. cbn [fst snd] in Hseed.
    destruct (@for_loop_push_buffers _ f (N.to_nat (number_of_calculated_gnss_satellites_ s))
                0 s s1 tt) with (j := j) as (o & k & Eo & Ek & Eo1 & Ek1);
      [rewrite Hrun; reflexivity|lia|].
    destruct (IH (set_reference_interpolation_id (reference_interpolation_id_ s + 1) s1) s')
      with (j := j) as (o1 & k1 & Eo2 & Ek2 & Eo' & Ek');
      [cbn; congruence|cbn; congruence|cbn; lia|exact Hmax|exact Hseed|cbn; lia|].
    cbn [orbit_ clock_ reference_time_ reference_interpolation_id_
         set_reference_interpolation_id] in Eo2, Ek2, Eo', Ek'.
    rewrite Eo1 in Eo2. rewrite Ek1 in Ek2. injection Eo2 as <-. injection Ek2 as <-.
    exists o, k. split; [exact Eo|]. split; [exact Ek|].
    rewrite Href in Eo', Ek'. cbn [push_epochs]. rewrite Hsucc. auto.
Qed.

(** Seeding rounds that run past the last epoch of the last file. *)
Lemma seed_past_last_file (f : Sp3FileReader) (rounds : nat) :
  forall s,
    (1 <= rounds)%nat ->
    List.length (orbit_ s) = N.to_nat (number_of_calculated_gnss_satellites_ s) ->
    List.length (clock_ s) = N.to_nat (number_of_calculated_gnss_satellites_ s) ->
    GetNumberOfEpoch f <= reference_interpolation_id_ s + N.of_nat rounds ->
    reference_interpolation_id_ s + N.of_nat rounds < size_max ->
    N.of_nat (List.length (sp3_files_ s)) <= size_succ (sp3_file_id_ s) ->
    snd (seed rounds f s) = OutOfRange /\ In range_over_line (fst (seed rounds f s)).
Proof.
  induction rounds as [|r IH]; intros s Hpos Ho Hk Hshort Hmax Hlast; [lia|].
  cbn [seed]. rewrite bind_get, bind_run.
  destruct (for_loop_push_returns f (N.to_nat (number_of_calculated_gnss_satellites_ s)) 0 s)
    as (s1 & Hrun & Hc & Hlo & Hlk); [cbn; lia|cbn; lia|].
  rewrite Hrun, bind_run.
  assert (Hc' := Hc). unfold control in Hc'.
  injection Hc' as Hcalc Hlog Hfiles Hnumber Hfid Href Hid Hcur.
  assert (Hsucc : size_succ (reference_interpolation_id_ s)
                  = reference_interpolation_id_ s + 1).
  { unfold size_succ. apply N.mod_small. lia. }
  destruct (N.le_gt_cases (GetNumberOfEpoch f) (reference_interpolation_id_ s + 1)) as [Hend|Hmore].
  - rewrite advance_epoch_past_last_file by (rewrite ?Hid, ?Hfid, ?Hfiles, ?Hsucc; assumption).
    cbn [fst snd]. split; [reflexivity|]. apply in_or_app. right. left. reflexivity.
  - rewrite advance_epoch_run. cbv zeta. rewrite Hid, Hsucc.
    assert (Hstay : (GetNumberOfEpoch f <=? reference_interpolation_id_ s + 1) = false)
      by (apply N.leb_gt; lia).
    rewrite Hstay. cbn [fst snd app].
    destruct (IH (set_reference_interpolation_id (reference_interpolation_id_ s + 1) s1))
      as [Hout Hline];
      [lia|cbn; congruence|cbn; congruence
      |cbn [reference_interpolation_id_ set_reference_interpolation_id]; lia
      |cbn [reference_interpolation_id_ set_reference_interpolation_id]; lia
      |cbn; congruence|].
    split; [exact Hout|]. apply in_or_app. right. exact Hline.
Qed.

(** X6 (a seeding that stays inside the selected file).  When
    [GetCurrentSp3File] selects the file at position [i] and that file has
    more than nine epochs from the initial epoch index on, [Initialize]
    returns: it has printed nothing and called [PushAndPopData] exactly nine
    times on the orbit and on the clock buffer of every satellite below the
    satellite count of the selected file, and on no other.  The object then
    holds the given file list and start time, that satellite count with one
    buffer pair per satellite, the file index [i], the epoch index nine past
    the initial one, and as reference time the time of the initial epoch; and
    the window of every tracked satellite holds exactly the samples of the
    nine epochs from the initial one on, in order, their times measured from
    the reference time -- no placeholder is left in a clock window. *)
Theorem Initialize_returns_seeded :
  forall (sp3_files : list Sp3FileReader) (start_time : EpochTime) (s : GnssSatellites)
         (i : N) (f : Sp3FileReader),
    scan_sp3_files sp3_files 0 start_time = Some (i, f) ->
    let s0 := ready_to_seed f i start_time
                (set_current_epoch_time start_time (set_sp3_files sp3_files s)) in
    reference_interpolation_id_ s0 + 9 < GetNumberOfEpoch f ->
    GetNumberOfEpoch f <= size_max ->
    exists s',
      Initialize sp3_files start_time s = (seed_pushes f s0 9, Ok (tt, s'))
      /\ (forall j,
            orbit_pushes j (seed_pushes f s0 9)
            = (if j <? GetNumberOfSatellites f then 9%nat else 0%nat)
            /\ clock_pushes j (seed_pushes f s0 9)
               = (if j <? GetNumberOfSatellites f then 9%nat else 0%nat))
      /\ existsb is_cout (seed_pushes f s0 9) = false
      /\ sp3_files_ s' = sp3_files
      /\ current_epoch_time_ s' = start_time
      /\ number_of_calculated_gnss_satellites_ s' = GetNumberOfSatellites f
      /\ List.length (orbit_ s') = N.to_nat (GetNumberOfSatellites f)
      /\ List.length (clock_ s') = N.to_nat (GetNumberOfSatellites f)
      /\ sp3_file_id_ s' = i
      /\ reference_interpolation_id_ s' = reference_interpolation_id_ s0 + 9
      /\ reference_time_ s'
         = EpochTime_of_DateTime (GetEpochData f (reference_interpolation_id_ s0))
      /\ (forall j, j < GetNumberOfSatellites f ->
            nth_error (orbit_ s') (N.to_nat j)
            = Some (mkBuffer 9 (epoch_samples (fun e => epoch_offset f e (reference_time_ s'))
                                              (fun e => epoch_position_m f e j)
                                              (reference_interpolation_id_ s0) 9))
            /\ nth_error (clock_ s') (N.to_nat j)
               = Some (mkBuffer 9 (epoch_samples (fun e => epoch_offset f e (reference_time_ s'))
                                                 (fun e => epoch_clock f e j)
                                                 (reference_interpolation_id_ s0) 9))).
Proof.
  intros files start s i f Hscan s0 Hin Hmax.
  destruct (ready_to_seed_fields f i start
              (set_current_epoch_time start (set_sp3_files files s)))
    as (Hfiles & Hcur & _ & Hnumber & Hfid & Href & Hlo & Hlk).
  destruct (ready_to_seed_buffers f i start
              (set_current_epoch_time start (set_sp3_files files s))) as [Horbit Hclock].
  change (sp3_files_ s0 = files) in Hfiles.
  change (current_epoch_time_ s0 = start) in Hcur.
  fold s0 in Hnumber, Hfid, Href, Hlo, Hlk, Horbit, Hclock.
  destruct (seed_within_file f 9 s0) as (s' & Hseed & Hc & Hlo' & Hlk');
    [rewrite Hnumber; exact Hlo|rewrite Hnumber; exact Hlk|exact Hin|exact Hmax|].
  assert (Hwindows := @seed_within_file_buffers f 9 s0 s').
  assert (Hhead : exists g, nth_error files 0 = Some g).
  { destruct (scan_position _ _ _ Hscan) as (k & _ & Hk & _).
    destruct files as [|g rest]; [destruct k; discriminate|]. exists g. reflexivity. }
  destruct Hhead as [g Hhead].
  exists s'. split.
  { rewrite Initialize_run. cbv zeta. rewrite Hhead, Hscan. exact Hseed. }
  split.
  { intros j. destruct (seed_pushes_count f 9 s0 j) as (Ho & Hk' & _).
    rewrite Ho, Hk', Hnumber. auto. }
  split; [apply (seed_pushes_count f 9 s0 0)|].
  clearbody s0.
  unfold control in Hc.
  cbn [is_calc_enabled_ is_log_enabled_ sp3_files_ number_of_calculated_gnss_satellites_
       sp3_file_id_ reference_time_ reference_interpolation_id_ current_epoch_time_
       set_reference_interpolation_id] in Hc.
  injection Hc as _ _ Hf' Hn' Hfid' Href' Hid' Hcur'.
  change (N.of_nat 9) with 9 in Hid'.
  do 8 (split; [congruence|]).
  intros j Hj.
  destruct (Hwindows) with (j := j) as (o & k & Eo & Ek & Eo' & Ek');
    [rewrite Hnumber; exact Hlo|rewrite Hnumber; exact Hlk|exact Hin|exact Hmax
    |rewrite Hseed; reflexivity|rewrite Hnumber; exact Hj|].
  rewrite Horbit in Eo. rewrite Hclock in Ek.
  rewrite nth_error_repeat in Eo by lia. rewrite nth_error_repeat in Ek by lia.
  injection Eo as <-. injection Ek as <-.
  rewrite Eo', Ek', Href'. split.
  - unfold InterpolationOrbit_new. rewrite push_epochs_with_room by (cbn; lia). reflexivity.
  - unfold Interpolation_new. cbn [List.length combine repeat].
    rewrite push_epochs_full by (cbn; lia). reflexivity.
Qed.

(** X7 (a seeding that runs off the file list).  When [GetCurrentSp3File]
    selects the last file of the list and that file has at most nine epochs
    from the initial epoch index on -- nine are enough to fill the windows --
    [Initialize] does not return: it prints the "range over" line and indexes
    the file list one past its end. *)
Theorem Initialize_short_last_file_out_of_range :
  forall (sp3_files : list Sp3FileReader) (start_time : EpochTime) (s : GnssSatellites)
         (i : N) (f : Sp3FileReader),
    scan_sp3_files sp3_files 0 start_time = Some (i, f) ->
    let s0 := ready_to_seed f i start_time
                (set_current_epoch_time start_time (set_sp3_files sp3_files s)) in
    N.of_nat (List.length sp3_files) <= size_succ i ->
    GetNumberOfEpoch f <= reference_interpolation_id_ s0 + 9 ->
    reference_interpolation_id_ s0 + 9 < size_max ->
    snd (Initialize sp3_files start_time s) = OutOfRange
    /\ In range_over_line (fst (Initialize sp3_files start_time s)).
Proof.
  intros files start s i f Hscan s0 Hlast Hshort Hmax.
  destruct (ready_to_seed_fields f i start
              (set_current_epoch_time start (set_sp3_files files s)))
    as (Hfiles & _ & _ & Hnumber & Hfid & _ & Hlo & Hlk).
  change (sp3_files_ s0 = files) in Hfiles.
  fold s0 in Hnumber, Hfid, Hlo, Hlk.
  assert (Hhead : exists g, nth_error files 0 = Some g).
  { destruct (scan_position _ _ _ Hscan) as (k & _ & Hk & _).
    destruct files as [|g rest]; [destruct k; discriminate|]. exists g. reflexivity. }
  destruct Hhead as [g Hhead].
  rewrite Initialize_run. cbv zeta. rewrite Hhead, Hscan. fold s0.
  apply (@seed_past_last_file f 9 s0); try assumption.
  - lia.
  - rewrite Hnumber; exact Hlo.
  - rewrite Hnumber; exact Hlk.
  - rewrite Hfiles, Hfid. exact Hlast.
Qed.

(** X8 (after a time mismatch).  On a manager without orbit buffers (a new
    one), with calculation enabled: when no file source of a non-empty list
    contains the start time, [Initialize] returns after its mismatch line with
    only the file list and the current time written -- [orbit_] is still
    empty and [clock_] is as it was -- and every later [Update] runs into an
    index past the end of a vector before it prints or pushes anything. *)
Theorem Update_after_time_mismatch :
  forall (sp3_files : list Sp3FileReader) (start_time : EpochTime) (s : GnssSatellites),
    sp3_files <> [] ->
    first_covering sp3_files 0 start_time = None ->
    orbit_ s = [] ->
    IsCalcEnabled s = true ->
    exists s1,
      Initialize sp3_files start_time s = ([time_mismatch_line], Ok (tt, s1))
      /\ s1 = set_current_epoch_time start_time (set_sp3_files sp3_files s)
      /\ orbit_ s1 = []
      /\ clock_ s1 = clock_ s
      /\ forall current_date_time, Update current_date_time s1 = ([], OutOfRange).
Proof.
  intros files start s Hne Hnone Hempty Hcalc.
  exists (set_current_epoch_time start (set_sp3_files files s)). split; [|split; [|split; [|split]]].
  - rewrite Initialize_run. destruct files as [|g rest]; [congruence|]. cbn [nth_error].
    rewrite scan_none_of_no_cover by exact Hnone. reflexivity.
  - reflexivity.
  - exact Hempty.
  - reflexivity.
  - intros dt. rewrite Update_run. unfold IsCalcEnabled in *. cbn. rewrite Hcalc. cbn.
    unfold active_file, medium_time. cbn. rewrite Hempty.
    destruct (nth_error files (N.to_nat (sp3_file_id_ s))); reflexivity.
Qed.

End InitializeCases.

(** ** GetLogValue *)

Lemma string_append_assoc (a b c : string) :
  ((a ++ b) ++ c)%string = (a ++ (b ++ c))%string.
Proof. induction a as [|ch a IH]; cbn; [reflexivity|]. rewrite IH. reflexivity. Qed.

Lemma string_append_empty (a : string) : (a ++ "")%string = a.
Proof. induction a as [|ch a IH]; cbn; [reflexivity|]. rewrite IH. reflexivity. Qed.

Section LogProperties.

Context {collaborators : Collaborators} {log_utility : LogUtility}.

Lemma log_value_from_sentinels (s : GnssSatellites) :
  out_of_window (offset_from_reference s (current_epoch_time_ s)) = true ->
  forall count gps_index str_tmp,
    log_value_from s count gps_index str_tmp
    = Ok (str_tmp ++ repeat_string sentinel_record count)%string.
Proof.
  intros Hwin. unfold out_of_window, offset_from_reference in Hwin.
  induction count as [|c IH]; intros idx str.
  - cbn. rewrite string_append_empty. reflexivity.
  - cbn [log_value_from repeat_string].
    unfold GetPosition_ecef_m, GetClock_s, target_time_of, time_not_given.
    cbn [GetTime_s time_s_ N.eqb]. rewrite Hwin.
    destruct (number_of_calculated_gnss_satellites_ s <? idx);
      rewrite IH; unfold sentinel_record; rewrite !string_append_assoc; reflexivity.
Qed.

(** X9 (the log record outside the window).  When the offset of the stored
    current time from the reference time is negative or above 1e6 s,
    [GetLogValue] returns, and its record is the sentinel record (zero vector,
    zero clock offset) once per logged satellite; no buffer is read. *)
Theorem GetLogValue_out_of_window :
  forall (s : GnssSatellites),
    out_of_window (offset_from_reference s (current_epoch_time_ s)) = true ->
    GetLogValue s = Ok (repeat_string sentinel_record (N.to_nat kNumberOfGpsSatellite)).
Proof.
  intros s Hwin. unfold GetLogValue. rewrite log_value_from_sentinels by exact Hwin.
  reflexivity.
Qed.

Lemma log_value_from_returns (s : GnssSatellites) :
  List.length (orbit_ s) = N.to_nat (number_of_calculated_gnss_satellites_ s) ->
  List.length (clock_ s) = N.to_nat (number_of_calculated_gnss_satellites_ s) ->
  forall count gps_index str_tmp,
    gps_index + N.of_nat count <= number_of_calculated_gnss_satellites_ s ->
    returned (log_value_from s count gps_index str_tmp) = true.
Proof.
  intros Ho Hk. induction count as [|c IH]; intros idx str Hin; [reflexivity|].
  cbn [log_value_from]. unfold GetPosition_ecef_m, GetClock_s.
  assert (Hguard : (number_of_calculated_gnss_satellites_ s <? idx) = false)
    by (apply N.ltb_ge; lia).
  rewrite Hguard.
  destruct (nth_error (orbit_ s) (N.to_nat idx)) as [o|] eqn:Eo;
    [|apply nth_error_None in Eo; lia].
  destruct (nth_error (clock_ s) (N.to_nat idx)) as [k|] eqn:Ek;
    [|apply nth_error_None in Ek; lia].
  destruct (_ || _)%bool; apply IH; lia.
Qed.

Lemma log_value_from_fault (s : GnssSatellites) :
  List.length (orbit_ s) = N.to_nat (number_of_calculated_gnss_satellites_ s) ->
  List.length (clock_ s) = N.to_nat (number_of_calculated_gnss_satellites_ s) ->
  out_of_window (offset_from_reference s (current_epoch_time_ s)) = false ->
  forall count gps_index str_tmp,
    gps_index <= number_of_calculated_gnss_satellites_ s ->
    number_of_calculated_gnss_satellites_ s < gps_index + N.of_nat count ->
    log_value_from s count gps_index str_tmp = OutOfRange.
Proof.
  intros Ho Hk Hwin. unfold out_of_window, offset_from_reference in Hwin.
  induction count as [|c IH]; intros idx str Hlo Hhi; [lia|].
  cbn [log_value_from]. unfold GetPosition_ecef_m, GetClock_s, target_time_of, time_not_given.
  cbn [GetTime_s time_s_ N.eqb]. rewrite Hwin.
  assert (Hguard : (number_of_calculated_gnss_satellites_ s <? idx) = false)
    by (apply N.ltb_ge; lia).
  rewrite Hguard.
  destruct (nth_error (orbit_ s) (N.to_nat idx)) as [o|] eqn:Eo; [|reflexivity].
  assert (Hbelow : (N.to_nat idx < List.length (orbit_ s))%nat)
    by (apply nth_error_Some; congruence).
  destruct (nth_error (clock_ s) (N.to_nat idx)) as [k|] eqn:Ek; [|reflexivity].
  apply IH; lia.
Qed.

(** X10 (the log record inside the window).  With one buffer pair per tracked
    satellite and the stored current time inside the window, [GetLogValue]
    returns if and only if at least [kNumberOfGpsSatellite] satellites are
    tracked; with fewer, the loop reaches the id equal to the tracked count,
    where the getters index one past the buffers. *)
Theorem GetLogValue_returns_iff_enough_satellites :
  forall (s : GnssSatellites),
    List.length (orbit_ s) = N.to_nat (number_of_calculated_gnss_satellites_ s) ->
    List.length (clock_ s) = N.to_nat (number_of_calculated_gnss_satellites_ s) ->
    out_of_window (offset_from_reference s (current_epoch_time_ s)) = false ->
    (returned (GetLogValue s) = true
     <-> kNumberOfGpsSatellite <= number_of_calculated_gnss_satellites_ s).
Proof.
  intros s Ho Hk Hwin. unfold GetLogValue.
  destruct (N.le_gt_cases kNumberOfGpsSatellite (number_of_calculated_gnss_satellites_ s))
    as [Henough|Hfew].
  - split; [intros _; exact Henough|intros _].
    apply log_value_from_returns; try assumption. lia.
  - rewrite log_value_from_fault; try assumption; try lia.
    split; [discriminate|lia].
Qed.

End LogProperties.

(** ** Reading the product files *)

Section ReadingFiles.

Context {collaborators : Collaborators}.

Lemma string_length_append (a b : string) :
  String.length (a ++ b) = (String.length a + String.length b)%nat.
Proof. induction a as [|c a IH]; cbn; [reflexivity|]. rewrite IH. reflexivity. Qed.

(** A footer that [substr(4, 7)] accepts: at least four characters. *)
Lemma substr_footer (footer : string) (pos len : nat) :
  (pos <= String.length footer)%nat ->
  substr footer pos len = Not_thrown (String.substring pos len footer).
Proof.
  intros H. unfold substr. destruct (Nat.ltb_spec (String.length footer) pos); [lia|reflexivity].
Qed.

Lemma read_product_files_enough (ini_file : IniAccess) (use_sp3_for_clock : bool) (end_date : N) :
  (forall date, date < IncrementYearDoy date) ->
  (use_sp3_for_clock = true \/ (4 <= String.length (clock_file_name_footer ini_file))%nat) ->
  forall fuel read_file_date sp3_file_readers,
    (N.to_nat (end_date + 1 - read_file_date) <= fuel)%nat ->
    exists files,
      read_product_files fuel ini_file use_sp3_for_clock read_file_date end_date sp3_file_readers
      = Some (Not_thrown (sp3_file_readers ++ files))
      /\ (read_file_date <= end_date ->
          exists rest, files = product_file ini_file read_file_date :: rest)
      /\ Forall (fun file => exists date,
                     read_file_date <= date <= end_date /\ file = product_file ini_file date)
                files.
Proof.
  intros Hinc Hfooter. induction fuel as [|fuel IH]; intros date acc Hfuel.
  - exists []. cbn. destruct (N.leb_spec date end_date); [lia|].
    rewrite app_nil_r. split; [reflexivity|]. split; [lia|constructor].
  - cbn [read_product_files]. destruct (N.leb_spec date end_date) as [Hle|Hgt].
    + specialize (Hinc date) as Hnext.
      destruct (IH (IncrementYearDoy date) (acc ++ [product_file ini_file date]))
        as (files & Hrun & _ & Hall); [lia|].
      exists (product_file ini_file date :: files).
      unfold product_file in *. cbv zeta. rewrite Hrun, <- app_assoc.
      split; [|split].
      * destruct Hfooter as [->|Hlong]; [reflexivity|].
        destruct use_sp3_for_clock; [reflexivity|].
        rewrite !substr_footer by lia. reflexivity.
      * intros _; eexists; reflexivity.
      * constructor; [exists date; split; [lia|reflexivity]|].
        eapply Forall_impl; [|exact Hall].
        intros file (d & Hd & ->). exists d. split; [lia|reflexivity].
    + exists []. rewrite app_nil_r. split; [reflexivity|]. split; [lia|constructor].
Qed.

(** X11 (the files handed to [Initialize], and the footer that stops the
    loop).  With calculation enabled, a start date not after the end date and
    a date increment that moves forward: when the clock file footer is the SP3
    footer of the orbit period, or has at least four characters, the read loop
    of [InitGnssSatellites] ends within end - start + 1 rounds, prints
    nothing, and hands [Initialize] a non-empty list -- the file of the start
    date first, then only files of dates between start and end -- and what
    [InitGnssSatellites] prints and how it ends is what that [Initialize] does
    on a new manager.  When the footer has fewer than four characters,
    [substr(4, 7)] throws in the first round of the loop: nothing is printed
    and [Initialize] is not reached. *)
Theorem InitGnssSatellites_reads_start_date_first :
  forall (ini_file : IniAccess) (start_date_time : DateTime),
    (forall date, date < IncrementYearDoy date) ->
    calculation ini_file = true ->
    size_t_of_int (start_date ini_file) <= size_t_of_int (end_date ini_file) ->
    (clock_file_name_footer ini_file = (orbit_data_period ini_file ++ "_ORB.SP3")%string
     \/ (4 <= String.length (clock_file_name_footer ini_file))%nat ->
     exists rest,
       Forall (fun file => exists date,
                   size_t_of_int (start_date ini_file) <= date <= size_t_of_int (end_date ini_file)
                   /\ file = product_file ini_file date) rest
       /\ InitGnssSatellites
            (S (N.to_nat (size_t_of_int (end_date ini_file) - size_t_of_int (start_date ini_file))))
            ini_file start_date_time
          = Some (let run := Initialize
                               (product_file ini_file (size_t_of_int (start_date ini_file)) :: rest)
                               (EpochTime_of_DateTime start_date_time)
                               (GnssSatellites_new true (logging ini_file)) in
                  (fst run,
                   Not_thrown match snd run with
                              | Ok (_, initialized) => Ok initialized
                              | OutOfRange => OutOfRange
                              end)))
    /\ ((String.length (clock_file_name_footer ini_file) < 4)%nat ->
        forall fuel,
          InitGnssSatellites (S fuel) ini_file start_date_time = Some ([], Thrown_out_of_range)).
Proof.
  intros ini dt Hinc Hcalc Hdates.
  assert (Hquiet : (size_t_of_int (end_date ini) <? size_t_of_int (start_date ini)) = false)
    by (apply N.ltb_ge; exact Hdates).
  split.
  - intros Hfooter.
    destruct (@read_product_files_enough ini
                (String.eqb (clock_file_name_footer ini) (orbit_data_period ini ++ "_ORB.SP3"))
                (size_t_of_int (end_date ini)) Hinc)
      with (fuel := S (N.to_nat (size_t_of_int (end_date ini) - size_t_of_int (start_date ini))))
           (read_file_date := size_t_of_int (start_date ini))
           (sp3_file_readers := @nil Sp3FileReader)
      as (files & Hread & Hfirst & Hall).
    { destruct Hfooter as [->|Hlong]; [left; apply String.eqb_refl|right; exact Hlong]. }
    { lia. }
    destruct (Hfirst Hdates) as [rest ->].
    exists rest. split; [inversion Hall; assumption|].
    unfold InitGnssSatellites. unfold IsCalcEnabled, GnssSatellites_new at 1.
    cbn [is_calc_enabled_]. rewrite Hcalc. cbn [negb]. cbv zeta.
    rewrite Hquiet, Hread. cbn [app].
    destruct (Initialize _ _ _) as [t [[u initialized]|]]; reflexivity.
  - intros Hshort fuel.
    assert (Hother : String.eqb (clock_file_name_footer ini) (orbit_data_period ini ++ "_ORB.SP3")
                     = false).
    { apply String.eqb_neq. intros Heq. rewrite Heq, string_length_append in Hshort.
      cbn in Hshort. lia. }
    unfold InitGnssSatellites. unfold IsCalcEnabled, GnssSatellites_new at 1.
    cbn [is_calc_enabled_]. rewrite Hcalc. cbn [negb]. cbv zeta.
    rewrite Hquiet, Hother. cbn [read_product_files].
    apply N.leb_le in Hdates. rewrite Hdates. cbv zeta.
    rewrite substr_footer by lia.
    unfold substr. destruct (Nat.ltb_spec (String.length (clock_file_name_footer ini)) 4); [|lia].
    reflexivity.
Qed.

End ReadingFiles.

(** * I2C port *)

(** ** [std::map] *)

Section StdMapProperties.

Variables (K V : Type) (key_eqb : K -> K -> bool).
Hypothesis key_eqb_eq : forall a b, key_eqb a b = true <-> a = b.

Lemma key_eqb_refl (k : K) : key_eqb k k = true.
Proof. apply key_eqb_eq. reflexivity. Qed.

Lemma key_eqb_neq (a b : K) : a <> b -> key_eqb a b = false.
Proof.
  intros H. destruct (key_eqb a b) eqn:E; [|reflexivity].
  apply key_eqb_eq in E. contradiction.
Qed.

Lemma map_find_assign_same (m : std_map K V) (k : K) (v : V) :
  map_find key_eqb (map_assign key_eqb m k v) k = Some v.
Proof.
  induction m as [|[k' v'] m IH]; cbn; [rewrite key_eqb_refl; reflexivity|].
  destruct (key_eqb k' k) eqn:E; cbn; rewrite E; [reflexivity|exact IH].
Qed.

Lemma map_find_assign_other (m : std_map K V) (k k' : K) (v : V) :
  k' <> k -> map_find key_eqb (map_assign key_eqb m k v) k' = map_find key_eqb m k'.
Proof.
  intros Hne. induction m as [|[k0 v0] m IH]; cbn.
  - rewrite key_eqb_neq by congruence. reflexivity.
  - destruct (key_eqb k0 k) eqn:E; cbn.
    + apply key_eqb_eq in E. subst k0. rewrite key_eqb_neq by congruence. reflexivity.
    + rewrite IH. reflexivity.
Qed.

Lemma map_find_erase_same (m : std_map K V) (k : K) :
  map_find key_eqb (map_erase key_eqb m k) k = None.
Proof.
  induction m as [|[k' v'] m IH]; cbn; [reflexivity|].
  destruct (key_eqb k' k) eqn:E; cbn; [exact IH|rewrite E; exact IH].
Qed.

Lemma map_find_erase_other (m : std_map K V) (k k' : K) :
  k' <> k -> map_find key_eqb (map_erase key_eqb m k) k' = map_find key_eqb m k'.
Proof.
  intros Hne. induction m as [|[k0 v0] m IH]; cbn; [reflexivity|].
  destruct (key_eqb k0 k) eqn:E; cbn.
  - apply key_eqb_eq in E. subst k0. rewrite key_eqb_neq by congruence. exact IH.
  - rewrite IH. reflexivity.
Qed.

End StdMapProperties.

Module I2CPortFacts.

Import I2CPort.

Lemma register_key_eqb_eq (a b : register_key) : register_key_eqb a b = true <-> a = b.
Proof.
  destruct a as [a1 a2], b as [b1 b2]. unfold register_key_eqb. cbn.
  rewrite andb_true_iff, !N.eqb_eq. split; [intros [-> ->]; reflexivity|].
  intros H; injection H; auto.
Qed.

Lemma register_key_eqb_refl (k : register_key) : register_key_eqb k k = true.
Proof. apply register_key_eqb_eq. reflexivity. Qed.

Lemma register_assign_same (m : std_map register_key N) (k : register_key) (v : N) :
  map_find register_key_eqb (map_assign register_key_eqb m k v) k = Some v.
Proof. exact (@map_find_assign_same _ _ _ register_key_eqb_eq m k v). Qed.

Lemma register_assign_other (m : std_map register_key N) (k k' : register_key) (v : N) :
  k' <> k ->
  map_find register_key_eqb (map_assign register_key_eqb m k v) k' = map_find register_key_eqb m k'.
Proof. exact (@map_find_assign_other _ _ _ register_key_eqb_eq m k k' v). Qed.

(** Reading through [operator[]] may add a zero entry; no register content
    changes. *)
Lemma map_index_registers (m : std_map register_key N) (k k' : register_key) :
  match map_find register_key_eqb (snd (map_index register_key_eqb 0 m k)) k' with
  | Some v => v
  | None => 0
  end
  = match map_find register_key_eqb m k' with
    | Some v => v
    | None => 0
    end.
Proof.
  unfold map_index. destruct (map_find register_key_eqb m k) eqn:E; cbn; [reflexivity|].
  destruct (register_key_eqb k k') eqn:Ek.
  - apply register_key_eqb_eq in Ek. subst k'.
    rewrite register_assign_same, E. reflexivity.
  - rewrite register_assign_other; [reflexivity|].
    intros ->. rewrite register_key_eqb_refl in Ek. discriminate.
Qed.

Lemma map_index_value (m : std_map register_key N) (k : register_key) :
  fst (map_index register_key_eqb 0 m k)
  = match map_find register_key_eqb m k with
    | Some v => v
    | None => 0
    end.
Proof. unfold map_index. destruct (map_find register_key_eqb m k); reflexivity. Qed.

Lemma ReadRegister_next_run (i2c_addr : N) (p : I2CPort) :
  let saved := uchar_succ (saved_reg_addr_ p) in
  exists registers,
    ReadRegister_next i2c_addr p
    = (register p i2c_addr (saved_reg_addr_ p),
       mkI2CPort (max_register_number_ p)
                 (if max_register_number_ p <=? saved then 0 else saved) registers)
    /\ forall a r,
         register (mkI2CPort (max_register_number_ p)
                             (if max_register_number_ p <=? saved then 0 else saved) registers)
                  a r
         = register p a r.
Proof.
  cbv zeta. unfold ReadRegister_next, register.
  assert (Hv := map_index_value (device_registers_ p) (i2c_addr, saved_reg_addr_ p)).
  assert (Hr := map_index_registers (device_registers_ p) (i2c_addr, saved_reg_addr_ p)).
  destruct (map_index register_key_eqb 0 (device_registers_ p) (i2c_addr, saved_reg_addr_ p))
    as [ret registers]. cbn [fst snd] in Hv, Hr.
  exists registers. rewrite Hv. split; [reflexivity|]. intros a r. cbn. apply Hr.
Qed.

Lemma register_from_spec (count : nat) :
  forall (i i2c_addr : N) (m : std_map register_key N) (a r : N),
    match map_find register_key_eqb (register_from count i i2c_addr m) (a, r) with
    | Some v => v
    | None => 0
    end
    = if (a =? i2c_addr) && (i <=? r) && (r <? i + N.of_nat count) then 0
      else match map_find register_key_eqb m (a, r) with
           | Some v => v
           | None => 0
           end.
Proof.
  induction count as [|c IH]; intros i addr m a r.
  - cbn. replace (r <? i + 0) with (r <? i) by (f_equal; lia).
    destruct (a =? addr), (N.leb_spec i r), (N.ltb_spec r i); cbn; try reflexivity; lia.
  - cbn [register_from]. rewrite IH.
    destruct (N.eqb_spec a addr) as [->|Ha]; cbn [andb].
    + destruct (N.eq_dec r i) as [->|Hr].
      * rewrite register_assign_same.
        destruct (N.leb_spec (N.succ i) i), (N.leb_spec i i),
                 (N.ltb_spec i (i + N.of_nat (S c))); cbn; try reflexivity; lia.
      * rewrite register_assign_other by congruence.
        destruct (N.leb_spec (N.succ i) r), (N.leb_spec i r),
                 (N.ltb_spec r (N.succ i + N.of_nat c)),
                 (N.ltb_spec r (i + N.of_nat (S c))); cbn; try reflexivity; lia.
    + rewrite register_assign_other by congruence. reflexivity.
Qed.

End I2CPortFacts.

Import I2CPort.

(** X12 (write, then read back).  For a register address below
    [max_register_number_], [WriteRegister] with a value answers 1, and
    [ReadRegister] at that device and address then returns the value written;
    the read leaves every register content as it was and the saved address on
    that register. *)
Theorem I2CPort_write_then_read :
  forall (p : I2CPort) (i2c_addr reg_addr value : N),
    reg_addr < max_register_number_ p ->
    exists p1 p2,
      WriteRegister i2c_addr reg_addr value p = (1%Z, p1)
      /\ ReadRegister i2c_addr reg_addr p1 = (value, p2)
      /\ saved_reg_addr_ p2 = reg_addr
      /\ max_register_number_ p2 = max_register_number_ p
      /\ forall a r, register p2 a r = register p1 a r.
Proof.
  intros p a r v Hlt.
  assert (Hguard : (max_register_number_ p <=? r) = false) by (apply N.leb_gt; exact Hlt).
  set (m := map_assign register_key_eqb (device_registers_ p) (a, r) v).
  exists (mkI2CPort (max_register_number_ p) r m),
         (mkI2CPort (max_register_number_ p) r (snd (map_index register_key_eqb 0 m (a, r)))).
  unfold WriteRegister, ReadRegister. cbn [max_register_number_ device_registers_].
  rewrite Hguard. fold m.
  assert (Hv := I2CPortFacts.map_index_value m (a, r)).
  assert (Hr := I2CPortFacts.map_index_registers m (a, r)).
  destruct (map_index register_key_eqb 0 m (a, r)) as [ret registers].
  cbn [fst snd] in *. split; [reflexivity|]. split; [|split; [|split]].
  - rewrite Hv. subst m. rewrite I2CPortFacts.register_assign_same. reflexivity.
  - reflexivity.
  - reflexivity.
  - intros a' r'. unfold register. cbn. apply Hr.
Qed.

(** X13 (register addresses from [max_register_number_] on).  For a register
    address not below [max_register_number_], both [WriteRegister] forms
    answer 0 and [ReadRegister] with an address returns 0, and the port --
    registers and saved address -- is left exactly as it was. *)
Theorem I2CPort_register_out_of_range :
  forall (p : I2CPort) (i2c_addr reg_addr value : N),
    max_register_number_ p <= reg_addr ->
    WriteRegister i2c_addr reg_addr value p = (0%Z, p)
    /\ WriteRegister_address i2c_addr reg_addr p = (0%Z, p)
    /\ ReadRegister i2c_addr reg_addr p = (0, p).
Proof.
  intros p a r v Hge. apply N.leb_le in Hge.
  unfold WriteRegister, WriteRegister_address, ReadRegister. rewrite Hge. auto.
Qed.

(** X14 (a write changes one register).  A [WriteRegister] with a value at a
    register address below [max_register_number_] changes the content of that
    one register of that one device and of no other register of any device. *)
Theorem I2CPort_write_changes_one_register :
  forall (p : I2CPort) (i2c_addr reg_addr value a r : N),
    reg_addr < max_register_number_ p ->
    register (snd (WriteRegister i2c_addr reg_addr value p)) a r
    = if (a =? i2c_addr) && (r =? reg_addr) then value else register p a r.
Proof.
  intros p addr reg v a r Hlt. unfold WriteRegister, register.
  assert (Hguard : (max_register_number_ p <=? reg) = false) by (apply N.leb_gt; exact Hlt).
  rewrite Hguard. cbn [snd device_registers_].
  destruct (N.eqb_spec a addr) as [->|Ha]; cbn [andb].
  - destruct (N.eqb_spec r reg) as [->|Hr].
    + rewrite I2CPortFacts.register_assign_same. reflexivity.
    + rewrite I2CPortFacts.register_assign_other by congruence.
      reflexivity.
  - rewrite I2CPortFacts.register_assign_other by congruence.
    reflexivity.
Qed.

(** X15 (registering a device).  [RegisterDevice] sets the registers
    0 .. [max_register_number_] - 1 of the device to zero -- also when the
    device was registered before and holds data -- and changes no register of
    another device, no register of the device from [max_register_number_] on,
    and neither [max_register_number_] nor the saved address. *)
Theorem I2CPort_RegisterDevice_clears_device :
  forall (p : I2CPort) (i2c_addr a r : N),
    register (RegisterDevice i2c_addr p) a r
    = (if (a =? i2c_addr) && (r <? max_register_number_ p) then 0 else register p a r)
    /\ max_register_number_ (RegisterDevice i2c_addr p) = max_register_number_ p
    /\ saved_reg_addr_ (RegisterDevice i2c_addr p) = saved_reg_addr_ p.
Proof.
  intros p addr a r. split; [|split; reflexivity].
  unfold register, RegisterDevice. cbn [device_registers_].
  rewrite I2CPortFacts.register_from_spec. rewrite N2Nat.id, N.add_0_l.
  destruct (N.leb_spec 0 r); [|lia]. rewrite andb_true_r. reflexivity.
Qed.

Lemma I2CPort_read_burst_spec (count : nat) :
  forall (p : I2CPort) (i2c_addr : N),
    saved_address_valid p ->
    saved_reg_addr_ p + N.of_nat count <= max_register_number_ p ->
    fst (read_burst count i2c_addr p)
    = map (fun i => register p i2c_addr (saved_reg_addr_ p + N.of_nat i)) (seq 0 count)
    /\ (forall a r, register (snd (read_burst count i2c_addr p)) a r = register p a r)
    /\ max_register_number_ (snd (read_burst count i2c_addr p)) = max_register_number_ p
    /\ saved_reg_addr_ (snd (read_burst count i2c_addr p))
       = (if saved_reg_addr_ p + N.of_nat count <? max_register_number_ p
          then saved_reg_addr_ p + N.of_nat count else 0).
Proof.
  induction count as [|c IH]; intros p a [Hsaved Hmax] Hfit.
  - cbn. rewrite N.add_0_r. apply N.ltb_lt in Hsaved. rewrite Hsaved. auto.
  - cbn [read_burst].
    destruct (I2CPortFacts.ReadRegister_next_run a p) as (registers & Hrun & Hsame).
    cbv zeta in Hrun, Hsame. rewrite Hrun.
    assert (Hsucc : uchar_succ (saved_reg_addr_ p) = saved_reg_addr_ p + 1).
    { unfold uchar_succ. apply N.mod_small. lia. }
    rewrite Hsucc in *.
    set (p1 := mkI2CPort (max_register_number_ p)
                 (if max_register_number_ p <=? saved_reg_addr_ p + 1
                  then 0 else saved_reg_addr_ p + 1) registers) in *.
    destruct (N.leb_spec (max_register_number_ p) (saved_reg_addr_ p + 1)) as [Hend|Hmore].
    + assert (c = 0%nat) by lia. subst c. cbn. rewrite N.add_0_r.
      split; [reflexivity|]. split; [exact Hsame|]. split; [reflexivity|].
      destruct (N.ltb_spec (saved_reg_addr_ p + 1) (max_register_number_ p)); [lia|reflexivity].
    + destruct (IH p1 a) as (Hbytes & Hregs & Hmax' & Hsaved');
        [split; cbn; lia|cbn; lia|].
      destruct (read_burst c a p1) as [bytes p2]. cbn [fst snd] in *.
      split; [|split; [|split]].
      * cbn [seq map]. change (N.of_nat 0) with 0. rewrite N.add_0_r. f_equal.
        rewrite Hbytes, <- seq_shift, map_map.
        apply map_ext. intros i. rewrite Hsame.
        cbn [saved_reg_addr_ p1]. f_equal. lia.
      * intros a' r'. rewrite Hregs. apply Hsame.
      * exact Hmax'.
      * rewrite Hsaved'. cbn.
        replace (saved_reg_addr_ p + 1 + N.of_nat c)
          with (saved_reg_addr_ p + N.of_nat (S c)) by lia.
        reflexivity.
Qed.

(** X16 (reading a run of registers).  After [WriteRegister] without a value
    has selected a register, [count] calls of [ReadRegister] without an
    address return the contents of the registers from the selected one on, in
    order, as long as the run stays below [max_register_number_]; the saved
    address ends one past the run, or at 0 when the run reached the last
    register. *)
Theorem I2CPort_read_burst_from_selected :
  forall (p : I2CPort) (i2c_addr reg_addr : N) (count : nat),
    reg_addr < max_register_number_ p ->
    max_register_number_ p <= 255 ->
    reg_addr + N.of_nat count <= max_register_number_ p ->
    let selected := WriteRegister_address i2c_addr reg_addr p in
    fst selected = 1%Z
    /\ fst (read_burst count i2c_addr (snd selected))
       = map (fun i => register p i2c_addr (reg_addr + N.of_nat i)) (seq 0 count)
    /\ saved_reg_addr_ (snd (read_burst count i2c_addr (snd selected)))
       = (if reg_addr + N.of_nat count <? max_register_number_ p
          then reg_addr + N.of_nat count else 0).
Proof.
  intros p a r n Hlt Hmax Hfit. cbv zeta. unfold WriteRegister_address.
  assert (Hguard : (max_register_number_ p <=? r) = false) by (apply N.leb_gt; exact Hlt).
  rewrite Hguard. cbn [fst snd]. split; [reflexivity|].
  destruct (@I2CPort_read_burst_spec n
              (mkI2CPort (max_register_number_ p) r (device_registers_ p)) a)
    as (Hbytes & _ & _ & Hsaved); [split; cbn; lia|cbn; lia|].
  split; [exact Hbytes|exact Hsaved].
Qed.

(** X17 (the saved address stays on a register).  No member function changes
    [max_register_number_]; and if the saved register address is below
    [max_register_number_] (at most 255), it is so again after every member
    function, whatever the arguments. *)
Theorem I2CPort_saved_address_stays_valid :
  forall (p : I2CPort) (i2c_addr reg_addr value : N),
    (max_register_number_ (RegisterDevice i2c_addr p) = max_register_number_ p
     /\ max_register_number_ (snd (WriteRegister_address i2c_addr reg_addr p))
        = max_register_number_ p
     /\ max_register_number_ (snd (WriteRegister i2c_addr reg_addr value p))
        = max_register_number_ p
     /\ max_register_number_ (snd (ReadRegister_next i2c_addr p)) = max_register_number_ p
     /\ max_register_number_ (snd (ReadRegister i2c_addr reg_addr p)) = max_register_number_ p)
    /\ (saved_address_valid p ->
        saved_address_valid (RegisterDevice i2c_addr p)
        /\ saved_address_valid (snd (WriteRegister_address i2c_addr reg_addr p))
        /\ saved_address_valid (snd (WriteRegister i2c_addr reg_addr value p))
        /\ saved_address_valid (snd (ReadRegister_next i2c_addr p))
        /\ saved_address_valid (snd (ReadRegister i2c_addr reg_addr p))).
Proof.
  intros p a r v.
  assert (Hmaximum :
            max_register_number_ (RegisterDevice a p) = max_register_number_ p
            /\ max_register_number_ (snd (WriteRegister_address a r p)) = max_register_number_ p
            /\ max_register_number_ (snd (WriteRegister a r v p)) = max_register_number_ p
            /\ max_register_number_ (snd (ReadRegister_next a p)) = max_register_number_ p
            /\ max_register_number_ (snd (ReadRegister a r p)) = max_register_number_ p).
  { split; [reflexivity|]. split; [|split; [|split]].
    - unfold WriteRegister_address. destruct (max_register_number_ p <=? r); reflexivity.
    - unfold WriteRegister. destruct (max_register_number_ p <=? r); reflexivity.
    - unfold ReadRegister_next.
      destruct (map_index register_key_eqb 0 (device_registers_ p) (a, saved_reg_addr_ p)).
      reflexivity.
    - unfold ReadRegister. destruct (max_register_number_ p <=? r); [reflexivity|].
      destruct (map_index register_key_eqb 0 (device_registers_ p) (a, r)). reflexivity. }
  split; [exact Hmaximum|].
  destruct Hmaximum as (M1 & M2 & M3 & M4 & M5).
  intros [Hsaved Hmax]. unfold saved_address_valid. rewrite M1, M2, M3, M4, M5.
  split; [cbn; auto|]. split; [|split; [|split]].
  - unfold WriteRegister_address.
    destruct (N.leb_spec (max_register_number_ p) r); cbn; split; assumption || lia.
  - unfold WriteRegister.
    destruct (N.leb_spec (max_register_number_ p) r); cbn; split; assumption || lia.
  - destruct (I2CPortFacts.ReadRegister_next_run a p) as (registers & Hrun & _).
    cbv zeta in Hrun. rewrite Hrun. cbn.
    destruct (N.leb_spec (max_register_number_ p) (uchar_succ (saved_reg_addr_ p)));
      split; assumption || lia.
  - unfold ReadRegister.
    destruct (N.leb_spec (max_register_number_ p) r); [cbn; split; assumption|].
    destruct (map_index register_key_eqb 0 (device_registers_ p) (a, r)); cbn.
    split; assumption || lia.
Qed.

(** * On-board computer port tables *)

Module OBCFacts.

Import OBC.

Lemma Z_eqb_eq (a b : Z) : Z.eqb a b = true <-> a = b.
Proof. apply Z.eqb_eq. Qed.

Section Tables.

Variable P : Type.

Lemma port_at_index (ports : std_map Z (option P)) (k k' : Z) :
  port_at (snd (map_index Z.eqb None ports k)) k' = port_at ports k'.
Proof.
  unfold port_at, map_index. destruct (map_find Z.eqb ports k) eqn:E; cbn; [reflexivity|].
  destruct (Z.eq_dec k' k) as [->|Hne].
  - rewrite (@map_find_assign_same _ _ _ Z_eqb_eq), E. reflexivity.
  - rewrite (@map_find_assign_other _ _ _ Z_eqb_eq) by exact Hne. reflexivity.
Qed.

Lemma port_at_index_value (ports : std_map Z (option P)) (k : Z) :
  fst (map_index Z.eqb None ports k) = port_at ports k.
Proof.
  unfold port_at, map_index. destruct (map_find Z.eqb ports k) as [[p|]|]; reflexivity.
Qed.

Lemma port_at_assign (ports : std_map Z (option P)) (k k' : Z) (p : P) :
  port_at (map_assign Z.eqb ports k (Some p)) k'
  = if Z.eqb k' k then Some p else port_at ports k'.
Proof.
  unfold port_at. destruct (Z.eqb_spec k' k) as [->|Hne].
  - rewrite (@map_find_assign_same _ _ _ Z_eqb_eq). reflexivity.
  - rewrite (@map_find_assign_other _ _ _ Z_eqb_eq) by exact Hne. reflexivity.
Qed.

Lemma port_at_erase (ports : std_map Z (option P)) (k k' : Z) :
  port_at (map_erase Z.eqb ports k) k'
  = if Z.eqb k' k then None else port_at ports k'.
Proof.
  unfold port_at. destruct (Z.eqb_spec k' k) as [->|Hne].
  - rewrite map_find_erase_same. reflexivity.
  - rewrite (@map_find_erase_other _ _ _ Z_eqb_eq) by exact Hne. reflexivity.
Qed.

End Tables.

Section Computer.

Context {port_classes : PortClasses}.

Lemma ConnectComPort_run (port_id tx rx : Z) (obc : OBC) :
  fst (ConnectComPort port_id tx rx obc)
  = match uart_port obc port_id with Some _ => (-1)%Z | None => 0%Z end
  /\ gpio_ports_ (snd (ConnectComPort port_id tx rx obc)) = gpio_ports_ obc
  /\ forall id,
       uart_port (snd (ConnectComPort port_id tx rx obc)) id
       = if Z.eqb id port_id
         then match uart_port obc port_id with
              | Some p => Some p
              | None => Some (new_UartPort tx rx)
              end
         else uart_port obc id.
Proof.
  unfold ConnectComPort, uart_port.
  assert (Hv := port_at_index_value (uart_ports_ obc) port_id).
  assert (Hr := port_at_index (uart_ports_ obc) port_id).
  destruct (map_index Z.eqb None (uart_ports_ obc) port_id) as [port ports].
  cbn [fst snd] in Hv, Hr. subst port.
  destruct (port_at (uart_ports_ obc) port_id) as [p|] eqn:E; cbn [fst snd uart_ports_ gpio_ports_].
  - split; [reflexivity|]. split; [reflexivity|]. intros id. rewrite Hr.
    destruct (Z.eqb_spec id port_id) as [->|_]; [exact E|reflexivity].
  - split; [reflexivity|]. split; [reflexivity|]. intros id.
    rewrite port_at_assign, Hr. reflexivity.
Qed.

Lemma CloseComPort_run (port_id : Z) (obc : OBC) :
  fst (CloseComPort port_id obc)
  = match uart_port obc port_id with Some _ => 0%Z | None => (-1)%Z end
  /\ gpio_ports_ (snd (CloseComPort port_id obc)) = gpio_ports_ obc
  /\ forall id,
       uart_port (snd (CloseComPort port_id obc)) id
       = if Z.eqb id port_id then None else uart_port obc id.
Proof.
  unfold CloseComPort, uart_port.
  assert (Hv := port_at_index_value (uart_ports_ obc) port_id).
  assert (Hr := port_at_index (uart_ports_ obc) port_id).
  destruct (map_index Z.eqb None (uart_ports_ obc) port_id) as [port ports].
  cbn [fst snd] in Hv, Hr. subst port.
  destruct (port_at (uart_ports_ obc) port_id) as [p|] eqn:E; cbn [fst snd uart_ports_ gpio_ports_].
  - split; [reflexivity|]. split; [reflexivity|]. intros id.
    rewrite port_at_erase, Hr. reflexivity.
  - split; [reflexivity|]. split; [reflexivity|]. intros id. rewrite Hr.
    destruct (Z.eqb_spec id port_id) as [->|_]; [exact E|reflexivity].
Qed.

End Computer.

End OBCFacts.

Section ComputerProperties.

Import OBC.

Context {port_classes : PortClasses}.

(** X18 (connecting a UART port twice).  [ConnectComPort] on a free port id
    answers 0 and puts a new port with the given buffer sizes there; a second
    [ConnectComPort] on that id, whatever its sizes, answers -1 and leaves the
    first port in place.  No other port id and no GPIO port is affected. *)
Theorem OBC_connect_twice :
  forall (obc : OBC) (port_id tx rx tx' rx' : Z),
    uart_port obc port_id = None ->
    let first := ConnectComPort port_id tx rx obc in
    let second := ConnectComPort port_id tx' rx' (snd first) in
    fst first = 0%Z
    /\ uart_port (snd first) port_id = Some (new_UartPort tx rx)
    /\ fst second = (-1)%Z
    /\ uart_port (snd second) port_id = Some (new_UartPort tx rx)
    /\ (forall id, id <> port_id -> uart_port (snd second) id = uart_port obc id)
    /\ gpio_ports_ (snd second) = gpio_ports_ obc.
Proof.
  intros obc id tx rx tx' rx' Hfree. cbv zeta.
  destruct (OBCFacts.ConnectComPort_run id tx rx obc) as (H1 & Hg1 & Hp1).
  destruct (OBCFacts.ConnectComPort_run id tx' rx' (snd (ConnectComPort id tx rx obc)))
    as (H2 & Hg2 & Hp2).
  rewrite Hfree in H1, Hp1.
  assert (Hnow : uart_port (snd (ConnectComPort id tx rx obc)) id = Some (new_UartPort tx rx))
    by (rewrite Hp1, Z.eqb_refl; reflexivity).
  rewrite Hnow in H2, Hp2.
  split; [exact H1|]. split; [exact Hnow|]. split; [exact H2|].
  split; [rewrite Hp2, Z.eqb_refl; reflexivity|].
  split; [|congruence].
  intros id' Hne. apply Z.eqb_neq in Hne. rewrite Hp2, Hne, Hp1, Hne. reflexivity.
Qed.

(** X19 (closing a UART port).  [CloseComPort] answers 0 exactly when a port
    is connected at the id and -1 otherwise; afterwards the id is free in
    both cases, every other id is as before, and a [ConnectComPort] on the id
    answers 0 again. *)
Theorem OBC_close_frees_port :
  forall (obc : OBC) (port_id tx rx : Z),
    let closed := CloseComPort port_id obc in
    (fst closed = 0%Z <-> uart_port obc port_id <> None)
    /\ (fst closed = (-1)%Z <-> uart_port obc port_id = None)
    /\ uart_port (snd closed) port_id = None
    /\ (forall id, id <> port_id -> uart_port (snd closed) id = uart_port obc id)
    /\ fst (ConnectComPort port_id tx rx (snd closed)) = 0%Z.
Proof.
  intros obc id tx rx. cbv zeta.
  destruct (OBCFacts.CloseComPort_run id obc) as (H1 & _ & Hp1).
  assert (Hfree : uart_port (snd (CloseComPort id obc)) id = None)
    by (rewrite Hp1, Z.eqb_refl; reflexivity).
  destruct (OBCFacts.ConnectComPort_run id tx rx (snd (CloseComPort id obc))) as (H2 & _ & _).
  rewrite Hfree in H2. rewrite H1.
  split; [|split; [|split; [exact Hfree|split; [|exact H2]]]].
  - destruct (uart_port obc id); split; congruence.
  - destruct (uart_port obc id); split; congruence.
  - intros id' Hne. apply Z.eqb_neq in Hne. rewrite Hp1, Hne. reflexivity.
Qed.

(** X20 (transfers reach the connected port only).  Each of [SendFromObc],
    [ReceivedByCompo], [SendFromCompo] and [ReceivedByObc] answers -1 on an id
    with no port, leaving the buffer and every port as they were; on a
    connected id it answers what the port's member answers, and only that
    port changes. *)
Theorem OBC_transfer_reaches_connected_port :
  forall (member : UartPort -> list N -> Z -> Z -> Z * list N * UartPort)
         (obc : OBC) (port_id : Z) (buffer : list N) (offset length : Z),
    let '(result, buffer', obc') := transfer member port_id buffer offset length obc in
    match uart_port obc port_id with
    | None =>
        result = (-1)%Z /\ buffer' = buffer
        /\ forall id, uart_port obc' id = uart_port obc id
    | Some p =>
        let '(r, b, p') := member p buffer offset length in
        result = r /\ buffer' = b /\ uart_port obc' port_id = Some p'
        /\ forall id, id <> port_id -> uart_port obc' id = uart_port obc id
    end
    /\ gpio_ports_ obc' = gpio_ports_ obc.
Proof.
  intros member obc id buffer offset length. unfold transfer, uart_port.
  assert (Hv := OBCFacts.port_at_index_value (uart_ports_ obc) id).
  assert (Hr := OBCFacts.port_at_index (uart_ports_ obc) id).
  destruct (map_index Z.eqb None (uart_ports_ obc) id) as [port ports].
  cbn [fst snd] in Hv, Hr. subst port.
  destruct (port_at (uart_ports_ obc) id) as [p|] eqn:E.
  - destruct (member p buffer offset length) as [[r b] p'].
    cbn [uart_ports_ gpio_ports_]. split; [|reflexivity].
    split; [reflexivity|]. split; [reflexivity|].
    split; [rewrite OBCFacts.port_at_assign, Z.eqb_refl; reflexivity|].
    intros id' Hne. apply Z.eqb_neq in Hne.
    rewrite OBCFacts.port_at_assign, Hne. apply Hr.
  - cbn [uart_ports_ gpio_ports_]. split; [|reflexivity].
    split; [reflexivity|]. split; [reflexivity|exact Hr].
Qed.

(** X21 (GPIO ports).  On an id with no GPIO port, [GpioComponentRead] answers
    [false] and [GpioComponentWrite] answers -1, and no port changes;
    [GpioConnectPort] on such an id answers 0 and creates the port with that
    id, and a second [GpioConnectPort] on it answers -1 and keeps the port. *)
Theorem OBC_gpio_unconnected_and_connect :
  forall (obc : OBC) (port_id : Z) (is_high : bool),
    gpio_port obc port_id = None ->
    let connected := GpioConnectPort port_id obc in
    fst (GpioComponentRead port_id obc) = false
    /\ (forall id, gpio_port (snd (GpioComponentRead port_id obc)) id = gpio_port obc id)
    /\ fst (GpioComponentWrite port_id is_high obc) = (-1)%Z
    /\ (forall id, gpio_port (snd (GpioComponentWrite port_id is_high obc)) id
                   = gpio_port obc id)
    /\ fst connected = 0%Z
    /\ gpio_port (snd connected) port_id = Some (new_GpioPort port_id)
    /\ fst (GpioConnectPort port_id (snd connected)) = (-1)%Z
    /\ gpio_port (snd (GpioConnectPort port_id (snd connected))) port_id
       = Some (new_GpioPort port_id).
Proof.
  intros obc id is_high Hfree. cbv zeta.
  unfold GpioComponentRead, GpioComponentWrite, GpioConnectPort, gpio_port in *.
  assert (Hv := OBCFacts.port_at_index_value (gpio_ports_ obc) id).
  assert (Hr := OBCFacts.port_at_index (gpio_ports_ obc) id).
  destruct (map_index Z.eqb None (gpio_ports_ obc) id) as [port ports].
  cbn [fst snd] in Hv, Hr. subst port. rewrite Hfree.
  cbn [fst snd gpio_ports_ uart_ports_].
  set (ports1 := map_assign Z.eqb ports id (Some (new_GpioPort id))).
  assert (Hnow : port_at ports1 id = Some (new_GpioPort id))
    by (subst ports1; rewrite OBCFacts.port_at_assign, Z.eqb_refl; reflexivity).
  assert (Hv1 := OBCFacts.port_at_index_value ports1 id).
  assert (Hr1 := OBCFacts.port_at_index ports1 id).
  destruct (map_index Z.eqb None ports1 id) as [port1 ports2].
  cbn [fst snd] in Hv1, Hr1. subst port1. rewrite Hnow.
  cbn [fst snd gpio_ports_ uart_ports_].
  repeat split; try exact Hr; try exact Hnow.
  rewrite Hr1. exact Hnow.
Qed.

End ComputerProperties.

(** * The further properties on concrete inputs *)

Import Bench.

(** X2 on 33 satellites and a file of 20 epochs, one second past the middle:
    the window of satellite 31 moves on by one epoch. *)
Lemma Update_refill_within_file_witness :
  exists s',
    Update past_middle seeded_long
    = (sample_pushes (regular_file 1 20 33) seeded_long 32 0, Ok (tt, s'))
    /\ reference_interpolation_id_ seeded_long = 9
    /\ reference_interpolation_id_ s' = 10
    /\ sp3_file_id_ s' = 0
    /\ orbit_times seeded_long 31 = Some [0; 900; 1800; 2700; 3600; 4500; 5400; 6300; 7200]%float
    /\ exists o k,
         nth_error (orbit_ seeded_long) (N.to_nat 31) = Some o
         /\ nth_error (clock_ seeded_long) (N.to_nat 31) = Some k
         /\ nth_error (orbit_ s') (N.to_nat 31)
            = Some (PushAndPopData (sample_offset (regular_file 1 20 33) seeded_long)
                      (sample_position_m (regular_file 1 20 33) seeded_long 31) o)
         /\ nth_error (clock_ s') (N.to_nat 31)
            = Some (PushAndPopData (sample_offset (regular_file 1 20 33) seeded_long)
                      (sample_clock (regular_file 1 20 33) seeded_long 31) k).
Proof.
  assert (Hcalc : IsCalcEnabled seeded_long = true) by reflexivity.
  assert (Hfile : active_file seeded_long = Some (regular_file 1 20 33))
    by (vm_compute; reflexivity).
  assert (Hmid : medium_time seeded_long = Some 3600%float) by (vm_compute; reflexivity).
  assert (Hcmp : (3600 <? update_offset past_middle seeded_long)%float = true)
    by (vm_compute; reflexivity).
  assert (Ho : (32 <= List.length (orbit_ seeded_long))%nat) by (vm_compute; lia).
  assert (Hk : (32 <= List.length (clock_ seeded_long))%nat) by (vm_compute; lia).
  assert (Hepoch : size_succ (reference_interpolation_id_ seeded_long)
                   < GetNumberOfEpoch (regular_file 1 20 33)) by (vm_compute; reflexivity).
  destruct (@Update_refill_within_file Scenario.collaborators past_middle seeded_long
              (regular_file 1 20 33) 3600%float Hcalc Hfile Hmid Hcmp Ho Hk Hepoch)
    as (s' & Hrun & _ & Hbuffers & Hid & Hfid & _).
  exists s'. split; [exact Hrun|]. split; [reflexivity|]. split; [exact Hid|].
  split; [exact Hfid|]. split; [vm_compute; reflexivity|].
  apply (Hbuffers 31). reflexivity.
Defined.

(** X3 on two files of 10 epochs: the refill that consumes epoch 9. *)
Lemma Update_refill_rolls_to_next_file_witness :
  exists s',
    Update past_middle seeded_two_files
    = (sample_pushes (regular_file 1 10 33) seeded_two_files 32 0, Ok (tt, s'))
    /\ reference_interpolation_id_ s' = 0
    /\ sp3_file_id_ s' = 1
    /\ active_file s' = Some (regular_file 2 10 33)
    /\ exists o k,
         nth_error (orbit_ seeded_two_files) (N.to_nat 0) = Some o
         /\ nth_error (clock_ seeded_two_files) (N.to_nat 0) = Some k
         /\ nth_error (orbit_ s') (N.to_nat 0)
            = Some (PushAndPopData (sample_offset (regular_file 1 10 33) seeded_two_files)
                      (sample_position_m (regular_file 1 10 33) seeded_two_files 0) o)
         /\ nth_error (clock_ s') (N.to_nat 0)
            = Some (PushAndPopData (sample_offset (regular_file 1 10 33) seeded_two_files)
                      (sample_clock (regular_file 1 10 33) seeded_two_files 0) k).
Proof.
  assert (Hcalc : IsCalcEnabled seeded_two_files = true) by reflexivity.
  assert (Hfile : active_file seeded_two_files = Some (regular_file 1 10 33))
    by (vm_compute; reflexivity).
  assert (Hmid : medium_time seeded_two_files = Some 3600%float) by (vm_compute; reflexivity).
  assert (Hcmp : (3600 <? update_offset past_middle seeded_two_files)%float = true)
    by (vm_compute; reflexivity).
  assert (Ho : (32 <= List.length (orbit_ seeded_two_files))%nat) by (vm_compute; lia).
  assert (Hk : (32 <= List.length (clock_ seeded_two_files))%nat) by (vm_compute; lia).
  assert (Hepoch : GetNumberOfEpoch (regular_file 1 10 33)
                   <= size_succ (reference_interpolation_id_ seeded_two_files))
    by (vm_compute; discriminate).
  assert (Hnext : nth_error (sp3_files_ seeded_two_files)
                    (N.to_nat (size_succ (sp3_file_id_ seeded_two_files)))
                  = Some (regular_file 2 10 33)) by (vm_compute; reflexivity).
  destruct (@Update_refill_rolls_to_next_file Scenario.collaborators past_middle seeded_two_files
              (regular_file 1 10 33) (regular_file 2 10 33) 3600%float
              Hcalc Hfile Hmid Hcmp Ho Hk Hepoch Hnext)
    as (s' & Hrun & Hbuffers & Hid & Hfid & Hactive).
  exists s'. split; [exact Hrun|]. split; [exact Hid|]. split; [exact Hfid|].
  split; [exact Hactive|]. apply (Hbuffers 0). reflexivity.
Defined.

(** X4 on 2 tracked satellites: two pushes each, then the index past the
    buffers. *)
Lemma Update_refill_with_fewer_than_32_buffers_witness :
  number_of_calculated_gnss_satellites_ seeded_small = 2
  /\ Update past_middle seeded_small
     = (sample_pushes (regular_file 1 20 2) seeded_small 2 0, OutOfRange).
Proof.
  split; [reflexivity|].
  assert (Hcalc : IsCalcEnabled seeded_small = true) by reflexivity.
  assert (Hfile : active_file seeded_small = Some (regular_file 1 20 2))
    by (vm_compute; reflexivity).
  assert (Hmid : medium_time seeded_small = Some 3600%float) by (vm_compute; reflexivity).
  assert (Hcmp : (3600 <? update_offset past_middle seeded_small)%float = true)
    by (vm_compute; reflexivity).
  assert (Hlen : List.length (clock_ seeded_small) = List.length (orbit_ seeded_small))
    by (vm_compute; reflexivity).
  assert (Hfew : (List.length (orbit_ seeded_small) < 32)%nat) by (vm_compute; lia).
  exact (@Update_refill_with_fewer_than_32_buffers Scenario.collaborators past_middle
           seeded_small (regular_file 1 20 2) 3600%float Hcalc Hfile Hmid Hcmp Hlen Hfew).
Defined.

(** X5 on the refill that rolls over to the second file. *)
Lemma Update_keeps_configuration_witness :
  let s' := state_after (Update past_middle seeded_two_files) fresh in
  sp3_files_ s' = sp3_files_ seeded_two_files
  /\ number_of_calculated_gnss_satellites_ s' = 33
  /\ List.length (orbit_ s') = 33%nat
  /\ current_epoch_time_ s' = EpochTime_of_DateTime past_middle.
Proof.
  cbv zeta.
  assert (Hrun : Update past_middle seeded_two_files
                 = (fst (Update past_middle seeded_two_files),
                    Ok (tt, state_after (Update past_middle seeded_two_files) fresh)))
    by (vm_compute; reflexivity).
  destruct (@Update_keeps_configuration Scenario.collaborators past_middle seeded_two_files
              _ _ Hrun) as (Hfiles & Hnumber & _ & _ & Hlo & _ & Hcur & _).
  split; [exact Hfiles|]. split; [exact Hnumber|]. split; [exact Hlo|].
  apply Hcur. reflexivity.
Defined.

(** X6 on one file of 20 epochs and 33 satellites, start time at epoch 0: the
    windows of the last satellite hold the epochs 0..8. *)
Lemma Initialize_returns_seeded_witness :
  exists s',
    snd (Initialize long_file (start_of 1) fresh) = Ok (tt, s')
    /\ orbit_pushes 32 (fst (Initialize long_file (start_of 1) fresh)) = 9%nat
    /\ orbit_pushes 33 (fst (Initialize long_file (start_of 1) fresh)) = 0%nat
    /\ number_of_calculated_gnss_satellites_ s' = 33
    /\ reference_interpolation_id_ s' = 9
    /\ reference_time_ s' = start_of 1
    /\ option_map (@GetTimeList Vector3) (nth_error (orbit_ s') (N.to_nat 32))
       = Some [0; 900; 1800; 2700; 3600; 4500; 5400; 6300; 7200]%float
    /\ option_map (@GetTimeList double) (nth_error (clock_ s') (N.to_nat 32))
       = Some [0; 900; 1800; 2700; 3600; 4500; 5400; 6300; 7200]%float.
Proof.
  assert (Hscan : scan_sp3_files long_file 0 (start_of 1) = Some (0, regular_file 1 20 33))
    by (vm_compute; reflexivity).
  destruct (@Initialize_returns_seeded Scenario.collaborators long_file (start_of 1) fresh
              0 (regular_file 1 20 33) Hscan)
    as (s' & Hrun & Hcount & _ & _ & _ & Hnumber & _ & _ & _ & Hid & Href & Hwindows);
    [vm_compute; reflexivity|vm_compute; discriminate|].
  exists s'. rewrite Hrun. cbn [fst snd].
  split; [reflexivity|]. split; [apply (Hcount 32)|]. split; [apply (Hcount 33)|].
  split; [exact Hnumber|]. split; [exact Hid|]. split; [exact Href|].
  destruct (Hwindows 32) as [Horbit Hclock]; [reflexivity|].
  rewrite Horbit, Hclock, Href. split; vm_compute; reflexivity.
Defined.

(** X7 on one file of 9 epochs, start time at epoch 0. *)
Lemma Initialize_short_last_file_out_of_range_witness :
  GetNumberOfEpoch (regular_file 1 9 2) = 9
  /\ snd (Initialize one_short_file (start_of 1) fresh) = OutOfRange
  /\ In range_over_line (fst (Initialize one_short_file (start_of 1) fresh)).
Proof.
  split; [reflexivity|].
  assert (Hscan : scan_sp3_files one_short_file 0 (start_of 1) = Some (0, regular_file 1 9 2))
    by (vm_compute; reflexivity).
  apply (@Initialize_short_last_file_out_of_range Scenario.collaborators one_short_file
           (start_of 1) fresh 0 (regular_file 1 9 2) Hscan).
  - vm_compute. discriminate.
  - vm_compute. discriminate.
  - vm_compute. reflexivity.
Defined.

(** X8 on two files of days 1 and 2 and a start time on day 5. *)
Lemma Update_after_time_mismatch_witness :
  exists s1,
    Initialize two_files (start_of 5) fresh = ([time_mismatch_line], Ok (tt, s1))
    /\ orbit_ s1 = []
    /\ clock_ s1 = []
    /\ Update past_middle s1 = ([], OutOfRange).
Proof.
  destruct (@Update_after_time_mismatch Scenario.collaborators two_files (start_of 5) fresh)
    as (s1 & Hinit & _ & Horbit & Hclock & Hupdate);
    [discriminate|vm_compute; reflexivity|reflexivity|reflexivity|].
  exists s1. split; [exact Hinit|]. split; [exact Horbit|]. split; [exact Hclock|apply Hupdate].
Defined.

(** X9 with the current time 1 913 600 s after the reference time. *)
Lemma GetLogValue_out_of_window_witness :
  GetLogValue (set_current_epoch_time (mkEpochTime 2000000 0) seeded_two_files)
  = Ok (repeat_string sentinel_record 32).
Proof.
  apply (@GetLogValue_out_of_window Scenario.collaborators Bench.log_utility).
  vm_compute. reflexivity.
Defined.

(** X10 on 33 tracked satellites (the record is written) and on 2 (it is
    not). *)
Lemma GetLogValue_returns_iff_enough_satellites_witness :
  (returned (GetLogValue seeded_two_files) = true <-> 32 <= 33)
  /\ (returned (GetLogValue seeded_small) = true <-> 32 <= 2)
  /\ returned (GetLogValue seeded_two_files) = true
  /\ GetLogValue seeded_small = OutOfRange.
Proof.
  split; [|split; [|split]].
  - apply (@GetLogValue_returns_iff_enough_satellites Scenario.collaborators Bench.log_utility
             seeded_two_files); vm_compute; reflexivity.
  - apply (@GetLogValue_returns_iff_enough_satellites Scenario.collaborators Bench.log_utility
             seeded_small); vm_compute; reflexivity.
  - vm_compute. reflexivity.
  - vm_compute. reflexivity.
Defined.

(** X11 for the dates 2023-001 to 2023-003, the increment being the
    successor: with the SP3 footer of the period, and with a footer of three
    characters. *)
Lemma InitGnssSatellites_reads_start_date_first_witness :
  (exists rest,
     InitGnssSatellites 3 three_days (epoch_at 1 0)
     = Some (let run := Initialize (product_file three_days 2023001 :: rest)
                                   (EpochTime_of_DateTime (epoch_at 1 0))
                                   (GnssSatellites_new true true) in
             (fst run,
              Not_thrown match snd run with
                         | Ok (_, initialized) => Ok initialized
                         | OutOfRange => OutOfRange
                         end)))
  /\ InitGnssSatellites 3 three_days_short_footer (epoch_at 1 0) = Some ([], Thrown_out_of_range).
Proof.
  assert (Hinc : forall date, date < IncrementYearDoy date) by (intros date; cbn; lia).
  split.
  - destruct (@InitGnssSatellites_reads_start_date_first Scenario.collaborators three_days
                (epoch_at 1 0) Hinc) as [Hreads _];
      [reflexivity|vm_compute; discriminate|].
    destruct Hreads as (rest & _ & Hrun); [left; reflexivity|].
    exists rest. exact Hrun.
  - destruct (@InitGnssSatellites_reads_start_date_first Scenario.collaborators
                three_days_short_footer (epoch_at 1 0) Hinc) as [_ Hthrows];
      [reflexivity|vm_compute; discriminate|].
    apply Hthrows. vm_compute. lia.
Defined.

(** X12 on register 5 of device 0x48 of a 16-register port. *)
Lemma I2CPort_write_then_read_witness :
  exists p1 p2,
    WriteRegister 72 5 200 empty_i2c_port = (1%Z, p1)
    /\ ReadRegister 72 5 p1 = (200, p2)
    /\ saved_reg_addr_ p2 = 5.
Proof.
  destruct (@I2CPort_write_then_read empty_i2c_port 72 5 200) as (p1 & p2 & Hw & Hr & Hs & _);
    [vm_compute; reflexivity|].
  exists p1, p2. auto.
Defined.

(** X13 on register 16 of a 16-register port. *)
Lemma I2CPort_register_out_of_range_witness :
  WriteRegister 72 16 200 empty_i2c_port = (0%Z, empty_i2c_port)
  /\ WriteRegister_address 72 16 empty_i2c_port = (0%Z, empty_i2c_port)
  /\ ReadRegister 72 16 empty_i2c_port = (0, empty_i2c_port).
Proof.
  apply I2CPort_register_out_of_range. vm_compute. discriminate.
Defined.

(** X14 on a write to register 5 of device 0x48, seen from register 6. *)
Lemma I2CPort_write_changes_one_register_witness :
  register (snd (WriteRegister 72 5 200 empty_i2c_port)) 72 6 = register empty_i2c_port 72 6
  /\ register (snd (WriteRegister 72 5 200 empty_i2c_port)) 72 5 = 200.
Proof.
  split.
  - apply (@I2CPort_write_changes_one_register empty_i2c_port 72 5 200 72 6).
    vm_compute. reflexivity.
  - apply (@I2CPort_write_changes_one_register empty_i2c_port 72 5 200 72 5).
    vm_compute. reflexivity.
Defined.

(** X16 on the last three registers of a device whose register 14 holds 7. *)
Lemma I2CPort_read_burst_from_selected_witness :
  let p := snd (WriteRegister 72 14 7 empty_i2c_port) in
  fst (read_burst 3 72 (snd (WriteRegister_address 72 13 p))) = [0; 7; 0]
  /\ saved_reg_addr_ (snd (read_burst 3 72 (snd (WriteRegister_address 72 13 p)))) = 0.
Proof.
  cbv zeta.
  destruct (@I2CPort_read_burst_from_selected (snd (WriteRegister 72 14 7 empty_i2c_port))
              72 13 3) as (_ & Hbytes & Hsaved);
    [vm_compute; reflexivity|vm_compute; discriminate|vm_compute; discriminate|].
  split; [rewrite Hbytes; reflexivity|rewrite Hsaved; reflexivity].
Defined.

(** X17 on the empty 16-register port: select the last register, then read
    on. *)
Lemma I2CPort_saved_address_stays_valid_witness :
  max_register_number_ (snd (ReadRegister_next 72 (snd (WriteRegister_address 72 15 empty_i2c_port))))
  = 16
  /\ saved_address_valid
       (snd (ReadRegister_next 72 (snd (WriteRegister_address 72 15 empty_i2c_port)))).
Proof.
  assert (Hvalid : saved_address_valid empty_i2c_port)
    by (split; [vm_compute; reflexivity|vm_compute; discriminate]).
  destruct (@I2CPort_saved_address_stays_valid empty_i2c_port 72 15 0)
    as [(_ & Hmax1 & _) Hstays].
  destruct (Hstays Hvalid) as (_ & Hselected & _).
  destruct (@I2CPort_saved_address_stays_valid
              (snd (WriteRegister_address 72 15 empty_i2c_port)) 72 15 0)
    as [(_ & _ & _ & Hmax2 & _) Hstays'].
  destruct (Hstays' Hselected) as (_ & _ & _ & Hnext & _).
  split; [rewrite Hmax2, Hmax1; reflexivity|exact Hnext].
Defined.

(** X18 on port 3 of a computer with no port. *)
Lemma OBC_connect_twice_witness :
  fst (OBC.ConnectComPort 3 64 32 empty_obc) = 0%Z
  /\ fst (OBC.ConnectComPort 3 8 8 (snd (OBC.ConnectComPort 3 64 32 empty_obc))) = (-1)%Z
  /\ OBC.uart_port (snd (OBC.ConnectComPort 3 8 8 (snd (OBC.ConnectComPort 3 64 32 empty_obc)))) 3
     = Some (64%Z, 32%Z).
Proof.
  destruct (@OBC_connect_twice Bench.port_classes empty_obc 3 64 32 8 8 eq_refl)
    as (H1 & _ & H2 & H3 & _).
  split; [exact H1|]. split; [exact H2|exact H3].
Defined.

(** X21 on GPIO port 3 of a computer with no port. *)
Lemma OBC_gpio_unconnected_and_connect_witness :
  fst (OBC.GpioComponentRead 3 empty_obc) = false
  /\ fst (OBC.GpioComponentWrite 3 true empty_obc) = (-1)%Z
  /\ fst (OBC.GpioConnectPort 3 empty_obc) = 0%Z
  /\ fst (OBC.GpioConnectPort 3 (snd (OBC.GpioConnectPort 3 empty_obc))) = (-1)%Z.
Proof.
  destruct (@OBC_gpio_unconnected_and_connect Bench.port_classes empty_obc 3 true eq_refl)
    as (H1 & _ & H2 & _ & H3 & _ & H4 & _).
  auto.
Defined.
